(** * matomo_import_logs.py: log import pipeline

    A shallow embedding of the log importer: the catalog of log formats
    and format detection, the normalisation of a matched line into a
    [Hit], the classification checks, the recorder workers with their
    bulk transport and retry wrapper, and the shared run state.

    Conventions.
    - Python exceptions are values of [Exc]; a computation that may raise
      returns [Res A].  A [try]/[except] is a [match] on the result.
    - Regular expressions, JSON decoding, [float()], [int()], date
      construction and the network are outside the embedding: they enter
      through the [Builtins] class or through the data a function is
      given (a line is represented by what [format.match] captured).
    - Text is ASCII ([string]); Python floats are binary64 ([float]). *)

From Stdlib Require Import ZArith Ascii String Floats DecimalString.
From stdpp Require Import base option list strings gmap.
From Equations Require Import Equations.

Set Warnings "-register-all".

Local Open Scope Z_scope.
Local Open Scope string_scope.

(** ** Python values, exceptions, results *)

Module Py.

(** Scalar and container values as they come out of a regex group
    dictionary or a decoded JSON document. *)
Inductive Val :=
| VNone
| VBool (b : bool)
| VInt (z : Z)
| VFloat (f : float)
| VStr (s : string)
| VList (l : list Val)
| VDict (d : list (string * Val)).

Inductive Exc :=
| BaseFormatException
| KeyError (key : string)
| IndexError
| ValueError (msg : string)
| TypeError
| AttributeError
| OverflowError
| HTTPError (code : Z) (msg : string) (body : string)
| URLError (reason : string)
| HTTPException (msg : string)
| SocketTimeout (msg : string)
| MatomoError (message : string) (code : option Z)
| OtherException (msg : string).

Inductive Res (A : Type) :=
| Ok (a : A)
| Raise (e : Exc).
Arguments Ok {A} a.
Arguments Raise {A} e.

Definition is_BaseFormatException (e : Exc) : bool :=
  match e with BaseFormatException => true | _ => false end.

Definition is_ValueError (e : Exc) : bool :=
  match e with ValueError _ => true | _ => false end.

(** [except (ValueError, BaseFormatException)] *)
Definition is_ValueError_or_BaseFormatException (e : Exc) : bool :=
  is_ValueError e || is_BaseFormatException e.

(** *** Strings *)

(** The double-quote character. *)
Definition dquote : ascii := ascii_of_nat 34.

(** [s.startswith(dquote)] *)
Definition startswith_quote (s : string) : bool :=
  match s with
  | String c _ => bool_decide (c = dquote)
  | EmptyString => false
  end.

Fixpoint drop_last (s : string) : string :=
  match s with
  | EmptyString => EmptyString
  | String _ EmptyString => EmptyString
  | String c rest => String c (drop_last rest)
  end.

(** [s[1:-1]] *)
Definition slice_1_m1 (s : string) : string :=
  match s with
  | EmptyString => EmptyString
  | String _ rest => drop_last rest
  end.

(** [s[n:]] and [s[:n]] for a non-negative literal [n]. *)
Fixpoint slice_from (n : nat) (s : string) : string :=
  match n, s with
  | O, _ => s
  | S n', String _ rest => slice_from n' rest
  | S _, EmptyString => EmptyString
  end.

Fixpoint slice_to (n : nat) (s : string) : string :=
  match n, s with
  | S n', String c rest => String c (slice_to n' rest)
  | _, _ => EmptyString
  end.

(** [s[a:b]] for non-negative literals. *)
Definition slice (a b : nat) (s : string) : string :=
  slice_from a (slice_to b s).

(** [s.split(sep)] for a one-character separator: never empty. *)
Fixpoint split (sep : ascii) (s : string) : list string :=
  match s with
  | EmptyString => [EmptyString]
  | String c rest =>
      if bool_decide (c = sep) then EmptyString :: split sep rest
      else match split sep rest with
           | part :: parts => String c part :: parts
           | [] => [String c EmptyString]
           end
  end.

(** [s[s.rfind(sep) + 1:]]: what follows the last [sep], the whole
    string when there is none ([rfind] gives -1). *)
Definition after_last (sep : ascii) (s : string) : string :=
  List.last (split sep s) s.

(** [s.replace(c, '')] *)
Fixpoint remove_char (c : ascii) (s : string) : string :=
  match s with
  | EmptyString => EmptyString
  | String d rest =>
      if bool_decide (d = c) then remove_char c rest
      else String d (remove_char c rest)
  end.

(** [s.strip('.')] *)
Fixpoint lstrip_char (c : ascii) (s : string) : string :=
  match s with
  | String d rest => if bool_decide (d = c) then lstrip_char c rest else s
  | EmptyString => EmptyString
  end.

Definition rstrip_char (c : ascii) (s : string) : string :=
  String.rev (lstrip_char c (String.rev s)).

Definition strip_char (c : ascii) (s : string) : string :=
  rstrip_char c (lstrip_char c s).

(** ['%s' % n] for an integer. *)
Definition str_of_Z (z : Z) : string :=
  NilZero.string_of_int (Z.to_int z).

(** [int(c)] for a one-character ASCII string. *)
Definition int_of_char (c : ascii) : Res Z :=
  let n := Z.of_nat (nat_of_ascii c) in
  if (48 <=? n)%Z && (n <=? 57)%Z then Ok (n - 48)
  else Raise (ValueError "invalid literal for int()").

(** [s] has no character [c]. *)
Fixpoint lacks (c : ascii) (s : string) : bool :=
  match s with
  | EmptyString => true
  | String d rest => negb (bool_decide (d = c)) && lacks c rest
  end.

(** [s] between two double quotes. *)
Definition quoted (s : string) : string :=
  String dquote (s ++ String dquote EmptyString).

Fixpoint is_prefix (p s : string) : bool :=
  match p, s with
  | EmptyString, _ => true
  | String a p', String b s' => bool_decide (a = b) && is_prefix p' s'
  | String _ _, EmptyString => false
  end.

(** [p in s] for two strings. *)
Fixpoint is_substring (p s : string) : bool :=
  is_prefix p s ||
  match s with
  | EmptyString => false
  | String _ s' => is_substring p s'
  end.

(** [l[k:]] for an integer [k]: a negative [k] counts from the end. *)
Definition list_slice_from {A} (k : Z) (l : list A) : list A :=
  if (0 <=? k)%Z then drop (Z.to_nat k) l
  else drop (Z.to_nat (Z.of_nat (List.length l) + k)) l.

(** [l[k]] for an integer [k]. *)
Definition list_index {A} (k : Z) (l : list A) : Res A :=
  let i := if (0 <=? k)%Z then k else Z.of_nat (List.length l) + k in
  if (i <? 0)%Z then Raise IndexError
  else match l !! Z.to_nat i with
       | Some a => Ok a
       | None => Raise IndexError
       end.

(** [d[key]] for a decoded JSON object, kept as an association list. *)
Fixpoint dict_get (key : string) (d : list (string * Val)) : option Val :=
  match d with
  | [] => None
  | (k, v) :: rest => if bool_decide (k = key) then Some v else dict_get key rest
  end.

(** The value of a run of ASCII decimal digits. *)
Fixpoint digits_value (acc : Z) (s : string) : option Z :=
  match s with
  | EmptyString => Some acc
  | String c rest =>
      let n := Z.of_nat (nat_of_ascii c) in
      if (48 <=? n)%Z && (n <=? 57)%Z
      then digits_value (10 * acc + (n - 48)) rest
      else None
  end.

Definition decimal_value (s : string) : option Z :=
  match s with
  | EmptyString => None
  | _ => digits_value 0 s
  end.

(** *** Dates *)

(** A [datetime.datetime] value. *)
Record Date := mkDate {
  year : Z;
  month : Z;
  day : Z;
  hour : Z;
  minute : Z;
  second : Z;
  microsecond : Z;
}.

(** *** Floats *)

(** [float(n)] for an integer: round to nearest, ties to even. *)
Definition float_of_Z (z : Z) : float :=
  SF2Prim (binary_normalize 53 1024 z 0 false).

(** [int(x)] for a float: truncation towards zero. *)
Definition int_of_float (x : float) : Res Z :=
  match Prim2SF x with
  | S754_zero _ => Ok 0
  | S754_finite sign m e =>
      let magnitude :=
        if (0 <=? e)%Z then Z.pos m * 2 ^ e else Z.pos m / 2 ^ (- e) in
      Ok (if sign then - magnitude else magnitude)
  | S754_infinity _ => Raise OverflowError
  | S754_nan => Raise (ValueError "cannot convert float NaN to integer")
  end.

(** Truthiness of a float ([if timezone:]). *)
Definition float_truthy (x : float) : bool :=
  match Prim2SF x with
  | S754_zero _ => false
  | _ => true
  end.

End Py.
Export Py.

(** ** Library functions taken as given *)

Class Builtins := {
  (** [float(s)] for text; [None] stands for [ValueError]. *)
  py_float_str : string -> option float;
  (** [int(s)] for text; [None] stands for [ValueError]. *)
  py_int_str : string -> option Z;
  (** [urllib.parse.unquote] *)
  unquote : string -> string;
  (** [str.lower] *)
  lower : string -> string;
  (** [json.loads(body.decode('utf-8'))]; [None] stands for any failure. *)
  json_loads : string -> option Val;
  (** [str(b)] for a bytes object. *)
  str_of_bytes : string -> string;
  (** [str(v)] *)
  str_of_val : Val -> string;
  (** [datetime.datetime(year, month, day, hour, minute, second)] *)
  datetime : Z -> Z -> Z -> Z -> Z -> Z -> Res Date;
  (** [datetime.datetime.strptime(s, fmt)] *)
  strptime : string -> string -> Res Date;
  (** [d - datetime.timedelta(hours=h)] *)
  sub_hours : Date -> float -> Res Date;
}.

(** ** Formats *)

Module Formats.

Inductive Kind :=
| RegexFormat
| W3cExtendedFormat
| IisFormat
| ShoutcastFormat
| AmazonCloudFrontFormat
| JsonFormat.

(** [BaseFormat._parseTimeFast] or [BaseFormat._parseTimeSlow], bound
    to [self.parseTime] by the constructors. *)
Inductive Strategy := _parseTimeFast | _parseTimeSlow.

Definition BASE_DATE_FORMAT : string := "%d/%b/%Y:%H:%M:%S".

(** A format object.  [store] is [self.matched] (the group dictionary
    of the last match) or [self.json] (the decoded line). *)
Record Format := mkFormat {
  name : string;
  kind : Kind;
  date_format : string;
  parseTime : Strategy;
  store : gmap string Val;
}.

Definition with_store (d : gmap string Val) (f : Format) : Format :=
  mkFormat (name f) (kind f) (date_format f) (parseTime f) d.

(** [RegexFormat(name, regex, date_format)] *)
Definition new_RegexFormat (n : string) (fmt : option string) : Format :=
  match fmt with
  | None => mkFormat n RegexFormat BASE_DATE_FORMAT _parseTimeFast ∅
  | Some d =>
      mkFormat n RegexFormat d
        (if bool_decide (d = BASE_DATE_FORMAT) then _parseTimeFast
         else _parseTimeSlow) ∅
  end.

(** [W3cExtendedFormat()] and its subclasses, which overwrite the name. *)
Definition new_W3c (n : string) (k : Kind) : Format :=
  mkFormat n k "%Y-%m-%d %H:%M:%S" _parseTimeSlow ∅.

Definition new_JsonFormat (n : string) : Format :=
  mkFormat n JsonFormat "%Y-%m-%dT%H:%M:%S" _parseTimeSlow ∅.

(** The catalog, in the order the dictionary lists it. *)
Definition FORMATS : list (string * Format) :=
  [ ("common", new_RegexFormat "common" None);
    ("common_vhost", new_RegexFormat "common_vhost" None);
    ("ncsa_extended", new_RegexFormat "ncsa_extended" None);
    ("common_complete", new_RegexFormat "common_complete" None);
    ("w3c_extended", new_W3c "w3c_extended" W3cExtendedFormat);
    ("amazon_cloudfront", new_W3c "amazon_cloudfront" AmazonCloudFrontFormat);
    ("iis", new_W3c "iis" IisFormat);
    ("shoutcast", new_W3c "shoutcast" ShoutcastFormat);
    ("s3", new_RegexFormat "s3" None);
    ("icecast2", new_RegexFormat "icecast2" None);
    ("elb", new_RegexFormat "elb" (Some "%Y-%m-%dT%H:%M:%S"));
    ("nginx_json", new_JsonFormat "nginx_json");
    ("ovh", new_RegexFormat "ovh" None) ].

(** What a candidate's [check_format_line] or [check_format] gives on
    the input, as [Parser.check_format] looks at it: something falsy
    ([None], [False], or an exception, which leaves [match = None]); a
    regex match object, of which only [len(match.groups())] is used; or
    a truthy value without a [groups] method ([JsonFormat] answers
    [True]). *)
Inductive Probe :=
| Falsy
| ReMatch (groups : nat)
| Truthy.

Section Get.
Context {B : Builtins}.

(** [float(v)] *)
Definition float_of_val (v : Val) : Res float :=
  match v with
  | VStr s =>
      match py_float_str s with
      | Some x => Ok x
      | None => Raise (ValueError "could not convert string to float")
      end
  | VInt z =>
      let x := float_of_Z z in
      match Prim2SF x with
      | S754_infinity _ => Raise OverflowError
      | _ => Ok x
      end
  | VFloat x => Ok x
  | VBool b => Ok (float_of_Z (if b then 1 else 0))
  | VNone | VList _ | VDict _ => Raise TypeError
  end.

(** [int(v)] *)
Definition int_of_val (v : Val) : Res Z :=
  match v with
  | VStr s =>
      match py_int_str s with
      | Some z => Ok z
      | None => Raise (ValueError "invalid literal for int()")
      end
  | VInt z => Ok z
  | VFloat x => int_of_float x
  | VBool b => Ok (if b then 1 else 0)
  | VNone | VList _ | VDict _ => Raise TypeError
  end.

(** [RegexFormat.get] *)
Definition RegexFormat_get (key : string) (f : Format) : Res Val :=
  match store f !! key with
  | Some v => Ok v
  | None => Raise BaseFormatException
  end.

(** [urllib.parse.unquote(super().get(key))] *)
Definition unquoted_get (key : string) (f : Format) : Res Val :=
  match RegexFormat_get key f with
  | Ok (VStr s) => Ok (VStr (unquote s))
  | Ok _ => Raise TypeError
  | Raise e => Raise e
  end.

Definition ShoutcastFormat_get (key : string) (f : Format) : Res Val :=
  if bool_decide (key = "user_agent") then unquoted_get key f
  else RegexFormat_get key f.

Definition AmazonCloudFrontFormat_get (key : string) (f : Format)
  : Res Val :=
  if bool_decide (key = "event_category")
     && bool_decide (store f !! "event_category" = None)
  then Ok (VStr "cloudfront_rtmp")
  else if bool_decide (key = "status")
          && bool_decide (store f !! "status" = None)
  then Ok (VStr "200")
  else if bool_decide (key = "user_agent") then unquoted_get key f
  else RegexFormat_get key f.

(** [JsonFormat.get]: the two patches write into [self.json] before
    the lookup, outside its [try]. *)
Definition JsonFormat_get (key : string) (f : Format) : Res Val * Format :=
  let lookup (g : Format) : Res Val :=
    match store g !! key with
    | Some v => Ok v
    | None => Raise BaseFormatException
    end in
  if bool_decide (key = "generation_time_milli") then
    match store f !! key with
    | None => (Raise (KeyError key), f)
    | Some v =>
        match float_of_val v with
        | Raise e => (Raise e, f)
        | Ok x =>
            match int_of_float (PrimFloat.mul x (float_of_Z 1000)) with
            | Raise e => (Raise e, f)
            | Ok n =>
                let g := with_store (<[key := VInt n]> (store f)) f in
                (lookup g, g)
            end
        end
    end
  else if bool_decide (key = "date") then
    match store f !! key with
    | None => (Raise (KeyError key), f)
    | Some (VStr s) =>
        let tz := slice_from 19 s in
        let d1 := <["timezone" := VStr (remove_char ":"%char tz)]> (store f) in
        let d2 := <[key := VStr (slice_to 19 s)]> d1 in
        let g := with_store d2 f in
        (lookup g, g)
    | Some (VList _) => (Raise AttributeError, f)
    | Some _ => (Raise TypeError, f)
    end
  else (lookup f, f).

(** [format.get(key)], by the class of the format. *)
Definition get (key : string) (f : Format) : Res Val * Format :=
  match kind f with
  | RegexFormat | W3cExtendedFormat | IisFormat =>
      (RegexFormat_get key f, f)
  | ShoutcastFormat => (ShoutcastFormat_get key f, f)
  | AmazonCloudFrontFormat => (AmazonCloudFrontFormat_get key f, f)
  | JsonFormat => JsonFormat_get key f
  end.

End Get.

End Formats.
Export Formats.

(** ** State: the shared run state *)

Module State.

Record t := mk {
  _stopped : bool;
  _reason : option string;
}.

(** [State.__init__] *)
Definition init : t := mk true None.

Definition is_stopped (s : t) : bool := _stopped s.
Definition reason (s : t) : option string := _reason s.

Definition start (s : t) : t := mk false (_reason s).

Definition stop (why : option string) (s : t) : t :=
  if _stopped s then s else mk true why.

(** A run of [stop] calls, earliest first. *)
Definition stop_all (whys : list (option string)) (s : t) : t :=
  fold_left (fun acc why => stop why acc) whys s.

End State.

(** ** Configuration *)

(** The entries of [config.options] (and [config.skip], [config.dry_run],
    [config.max_payload]) that the modelled code reads. *)
Record Config := mkConfig {
  ip_anonymization : bool;
  oaipmh_preamble : string;
  skip : Z;
  token_auth : string;
  delay_after_failure : Z;
  default_max_attempts : Z;
  max_payload : nat;
  dry_run : bool;
}.

(** ** Statistics *)

Module Statistics.

(** [Statistics.Counter]: [value] is the last number drawn from
    [itertools.count(1)]. *)
Record Counter := mkCounter { value : nat }.

Definition increment (c : Counter) : Counter := mkCounter (S (value c)).

Fixpoint advance (n : nat) (c : Counter) : Counter :=
  match n with
  | O => c
  | S n' => advance n' (increment c)
  end.

Record t := mk {
  count_lines_parsed : Counter;
  count_lines_recorded : Counter;
  count_lines_static : Counter;
  count_lines_skipped_user_agent : Counter;
  count_lines_downloads : Counter;
}.

Definition init : t :=
  mk (mkCounter 0) (mkCounter 0) (mkCounter 0) (mkCounter 0) (mkCounter 0).

Definition incr_parsed (s : t) : t :=
  mk (increment (count_lines_parsed s)) (count_lines_recorded s)
     (count_lines_static s) (count_lines_skipped_user_agent s)
     (count_lines_downloads s).

Definition advance_recorded (n : nat) (s : t) : t :=
  mk (count_lines_parsed s) (advance n (count_lines_recorded s))
     (count_lines_static s) (count_lines_skipped_user_agent s)
     (count_lines_downloads s).

Definition incr_static (s : t) : t :=
  mk (count_lines_parsed s) (count_lines_recorded s)
     (increment (count_lines_static s)) (count_lines_skipped_user_agent s)
     (count_lines_downloads s).

Definition incr_skipped_user_agent (s : t) : t :=
  mk (count_lines_parsed s) (count_lines_recorded s)
     (count_lines_static s) (increment (count_lines_skipped_user_agent s))
     (count_lines_downloads s).

Definition incr_downloads (s : t) : t :=
  mk (count_lines_parsed s) (count_lines_recorded s)
     (count_lines_static s) (count_lines_skipped_user_agent s)
     (increment (count_lines_downloads s)).

End Statistics.

(** ** Hit *)

Module Hit.

(** A value of [hit.args]: a plain value, or the dictionary of custom
    variables that [_add_custom_var] fills ([index -> [key, value]]). *)
Inductive Arg :=
| ArgVal (v : Val)
| ArgVars (vars : list (nat * (string * string))).

Section Attributes.

(** The attributes [Parser.parse] gives a hit.  [host] and [date] are
    attributes that may be missing. *)
Record t := mk {
  filename : string;
  lineno : Z;
  status : Val;
  full_path : Val;
  is_meta : bool;
  is_download : bool;
  is_robot : bool;
  is_error : bool;
  is_redirect : bool;
  args : gmap string Arg;
  query_string : string;
  path : Val;
  referrer : string;
  user_agent : string;
  ip : Val;
  length : Z;
  generation_time_milli : float;
  host : option string;
  userid : Val;
  event_category : Val;
  event_action : Val;
  event_name : Val;
  date : option Date;
}.

Definition set_is_meta (b : bool) (h : t) : t :=
  mk (filename h) (lineno h) (status h) (full_path h) b (is_download h)
     (is_robot h) (is_error h) (is_redirect h) (args h) (query_string h)
     (path h) (referrer h) (user_agent h) (ip h) (length h)
     (generation_time_milli h) (host h) (userid h) (event_category h)
     (event_action h) (event_name h) (date h).

Definition set_is_download (b : bool) (h : t) : t :=
  mk (filename h) (lineno h) (status h) (full_path h) (is_meta h) b
     (is_robot h) (is_error h) (is_redirect h) (args h) (query_string h)
     (path h) (referrer h) (user_agent h) (ip h) (length h)
     (generation_time_milli h) (host h) (userid h) (event_category h)
     (event_action h) (event_name h) (date h).

Definition set_is_robot (b : bool) (h : t) : t :=
  mk (filename h) (lineno h) (status h) (full_path h) (is_meta h)
     (is_download h) b (is_error h) (is_redirect h) (args h)
     (query_string h) (path h) (referrer h) (user_agent h) (ip h)
     (length h) (generation_time_milli h) (host h) (userid h)
     (event_category h) (event_action h) (event_name h) (date h).

Definition set_is_error (b : bool) (h : t) : t :=
  mk (filename h) (lineno h) (status h) (full_path h) (is_meta h)
     (is_download h) (is_robot h) b (is_redirect h) (args h)
     (query_string h) (path h) (referrer h) (user_agent h) (ip h)
     (length h) (generation_time_milli h) (host h) (userid h)
     (event_category h) (event_action h) (event_name h) (date h).

Definition set_is_redirect (b : bool) (h : t) : t :=
  mk (filename h) (lineno h) (status h) (full_path h) (is_meta h)
     (is_download h) (is_robot h) (is_error h) b (args h)
     (query_string h) (path h) (referrer h) (user_agent h) (ip h)
     (length h) (generation_time_milli h) (host h) (userid h)
     (event_category h) (event_action h) (event_name h) (date h).

Definition set_args (a : gmap string Arg) (h : t) : t :=
  mk (filename h) (lineno h) (status h) (full_path h) (is_meta h)
     (is_download h) (is_robot h) (is_error h) (is_redirect h) a
     (query_string h) (path h) (referrer h) (user_agent h) (ip h)
     (length h) (generation_time_milli h) (host h) (userid h)
     (event_category h) (event_action h) (event_name h) (date h).

Definition set_date (d : Date) (h : t) : t :=
  mk (filename h) (lineno h) (status h) (full_path h) (is_meta h)
     (is_download h) (is_robot h) (is_error h) (is_redirect h) (args h)
     (query_string h) (path h) (referrer h) (user_agent h) (ip h)
     (length h) (generation_time_milli h) (host h) (userid h)
     (event_category h) (event_action h) (event_name h) (Some d).

(** [Hit._add_custom_var]: a textual value already stored under the
    name wins; otherwise the pair goes in at index [len + 1]. *)
Definition _add_custom_var (key value api_arg_name : string) (h : t)
  : Res t :=
  let current :=
    match args h !! api_arg_name with
    | Some a => a
    | None => ArgVars []
    end in
  let h1 := set_args (<[api_arg_name := current]> (args h)) h in
  match current with
  | ArgVal (VStr _) => Ok h1
  | ArgVars vars =>
      let index := S (List.length vars) in
      let vars' :=
        if bool_decide (index ∈ (vars.*1))
        then map (fun kv => if bool_decide (kv.1 = index)
                            then (index, (key, value)) else kv) vars
        else (vars ++ [(index, (key, value))])%list in
      Ok (set_args (<[api_arg_name := ArgVars vars']> (args h1)) h1)
  | ArgVal _ => Raise TypeError
  end.

Definition add_page_custom_var (key value : string) (h : t) : Res t :=
  _add_custom_var key value "cvar" h.

End Attributes.

End Hit.

(** ** The world the threads share *)

Section World.
Context {Request : Type}.

(** The [data] dictionary of [Recorder._record_hits]. *)
Record Data := mkData {
  data_token_auth : string;
  requests : list Request;
}.

(** [state] and [stats] are the module-level objects, [queue] is
    [Recorder.queue] ([None] is the sentinel).  [sent] lists the bodies
    handed to the network, oldest first, as they were serialised at
    that moment; [slept] lists the delays passed to [time.sleep]. *)
Record World := mkWorld {
  state : State.t;
  stats : Statistics.t;
  queue : list (option Hit.t);
  sent : list Data;
  slept : list Z;
}.

Definition set_state (x : State.t) (w : World) : World :=
  mkWorld x (stats w) (queue w) (sent w) (slept w).
Definition set_stats (x : Statistics.t) (w : World) : World :=
  mkWorld (state w) x (queue w) (sent w) (slept w).
Definition set_queue (x : list (option Hit.t)) (w : World) : World :=
  mkWorld (state w) (stats w) x (sent w) (slept w).
Definition set_sent (x : list Data) (w : World) : World :=
  mkWorld (state w) (stats w) (queue w) x (slept w).
Definition set_slept (x : list Z) (w : World) : World :=
  mkWorld (state w) (stats w) (queue w) (sent w) x.

(** [time.sleep(secs)]: a negative length raises [ValueError] and
    nothing is slept. *)
Definition time_sleep (secs : Z) (w : World) : Res unit * World :=
  if Z_lt_dec secs 0
  then (Raise (ValueError "sleep length must be non-negative"), w)
  else (Ok tt, set_slept (slept w ++ [secs])%list w).

End World.
Arguments Data : clear implicits.
Arguments World : clear implicits.

(** ** Matomo: the transport client *)

Module Matomo.

Section WithBuiltins.
Context {B : Builtins} {Request : Type}.

(** [self._send_request]: the real request asks the network, which
    answers the [n]-th body it is handed (counting from 0) with bytes
    or an exception; the fake one of a dry run asks nothing. *)
Inductive Sender :=
| _real_request (network : nat -> Data Request -> Res string)
| _fake_request.

Record t := mk {
  _send_request : Sender;
}.

(** [Matomo.__init__] *)
Definition init (cfg : Config) (network : nat -> Data Request -> Res string)
  : t :=
  mk (if dry_run cfg then _fake_request else _real_request network).

(** [Matomo._call(path, args, headers, data=data)] as
    [Recorder._record_hits] uses it: [args] is empty, the content type
    is JSON and [data] is the dictionary, serialised afresh by each
    call. *)
Definition _call (m : t) (data : Data Request) (w : World Request)
  : Res string * World Request :=
  match _send_request m with
  | _real_request network =>
      (network (List.length (sent w)) data,
       set_sent (sent w ++ [data])%list w)
  | _fake_request => (Ok "{}", w)
  end.

(** The [except] clause of [_call_wrapper]: the message and the code
    of the exceptions it catches, [None] for those it lets through. *)
Definition caught (e : Exc) : option (string * option Z) :=
  match e with
  | HTTPError code msg body =>
      Some ("HTTP Error " ++ str_of_Z code ++ " " ++ msg
            ++ ", response: " ++ str_of_bytes body, Some code)
  | URLError reason => Some (reason, None)
  | HTTPException msg | ValueError msg | SocketTimeout msg =>
      Some (msg, None)
  | _ => None
  end.

(** One pass through the body of the [while] loop, up to the test of
    the error count. *)
Inductive Attempt :=
| Returned (response : string)
| Propagated (e : Exc)
| Failed (message : string) (code : option Z).

Definition classify (e : Exc) : Attempt :=
  match caught e with
  | Some (message, code) => Failed message code
  | None => Propagated e
  end.

Definition attempt
    (func : Data Request -> World Request -> Res string * World Request)
    (expected_response : option string)
    (on_failure :
       option (string -> Data Request -> Res string * Data Request))
    (data : Data Request) (w : World Request)
  : Attempt * Data Request * World Request :=
  match func data w with
  | (Raise e, w1) => (classify e, data, w1)
  | (Ok response, w1) =>
      match expected_response with
      | Some expected =>
          if bool_decide (response = expected)
          then (Returned response, data, w1)
          else
            match on_failure with
            | Some callback =>
                match callback response data with
                | (Ok error_message, data1) =>
                    (classify (URLError error_message), data1, w1)
                | (Raise e, data1) => (classify e, data1, w1)
                end
            | None =>
                (classify
                   (URLError
                      ("didn't receive the expected response. Response was "
                       ++ str_of_bytes response ++ " ")),
                 data, w1)
            end
      | None => (Returned response, data, w1)
      end
  end.

(** [Matomo._call_wrapper]: the loop, entered with [errors] failures
    behind it.  The sleep before a retry is inside the [except]
    clause: what it raises leaves the wrapper. *)
Equations? _call_wrapper_from (cfg : Config)
    (func : Data Request -> World Request -> Res string * World Request)
    (expected_response : option string)
    (on_failure :
       option (string -> Data Request -> Res string * Data Request))
    (errors : nat) (data : Data Request) (w : World Request)
  : Res string * Data Request * World Request
  by wf (Z.to_nat (default_max_attempts cfg) - errors)%nat lt :=
  _call_wrapper_from cfg func expected_response on_failure errors data w with
      attempt func expected_response on_failure data w := {
    | (Returned response, data1, w1) => (Ok response, data1, w1)
    | (Propagated e, data1, w1) => (Raise e, data1, w1)
    | (Failed message code, data1, w1) with
        Z_lt_dec (Z.of_nat (S errors)) (default_max_attempts cfg) := {
        | left _ with time_sleep (delay_after_failure cfg) w1 := {
            | (Ok _, w2) =>
                _call_wrapper_from cfg func expected_response on_failure
                  (S errors) data1 w2
            | (Raise e, w2) => (Raise e, data1, w2) }
        | right _ => (Raise (MatomoError message code), data1, w1) } }.
Proof. lia. Qed.

Definition _call_wrapper (cfg : Config)
    (func : Data Request -> World Request -> Res string * World Request)
    (expected_response : option string)
    (on_failure :
       option (string -> Data Request -> Res string * Data Request))
    (data : Data Request) (w : World Request)
  : Res string * Data Request * World Request :=
  _call_wrapper_from cfg func expected_response on_failure 0 data w.

(** [Matomo.call(path, args, expected_content, headers, data,
    on_failure)] *)
Definition call (cfg : Config) (m : t) (expected_content : option string)
    (on_failure :
       option (string -> Data Request -> Res string * Data Request))
    (data : Data Request) (w : World Request)
  : Res string * Data Request * World Request :=
  _call_wrapper cfg (_call m) expected_content on_failure data w.

End WithBuiltins.
Arguments t : clear implicits.
Arguments Sender : clear implicits.

End Matomo.

(** ** Recorder: the workers *)

Module Recorder.

Section WithBuiltins.
Context {B : Builtins} {Request : Type}.

(** [Recorder._get_hit_args]: it builds the request of a hit and
    rewrites the hit's referrer and arguments on the way. *)
Context (_get_hit_args : Hit.t -> Res (Request * Hit.t)).

Record t := mk {
  nbr : nat;
  hits : list Hit.t;
  threshold : nat;
}.

(** [Recorder.__init__]: [config.max_payload or 200]. *)
Definition init (cfg : Config) (i : nat) : t :=
  mk i [] (if bool_decide (max_payload cfg = O) then 200%nat
           else max_payload cfg).

Definition set_hits (hs : list Hit.t) (r : t) : t :=
  mk (nbr r) hs (threshold r).

(** [Recorder.add_hit] *)
Definition add_hit (h : Hit.t) (w : World Request) : World Request :=
  set_queue (queue w ++ [Some h])%list w.

(** [[self._get_hit_args(hit) for hit in self.hits]]: the hits are
    rewritten in place, one after the other, until one raises. *)
Fixpoint all_hit_args (hs : list Hit.t)
  : Res (list Request) * list Hit.t :=
  match hs with
  | [] => (Ok [], [])
  | h :: rest =>
      match _get_hit_args h with
      | Raise e => (Raise e, h :: rest)
      | Ok (request, h') =>
          match all_hit_args rest with
          | (Ok reqs, rest') => (Ok (request :: reqs), h' :: rest')
          | (Raise e, rest') => (Raise e, h' :: rest')
          end
      end
  end.

(** [Recorder._on_tracking_failure] *)
Definition _on_tracking_failure (response : string) (data : Data Request)
  : Res string * Data Request :=
  match json_loads response with
  | None => (Ok (str_of_bytes response), data)
  | Some (VDict d) =>
      match dict_get "tracked" d with
      | None => (Raise (KeyError "tracked"), data)
      | Some tracked =>
          let sliced :=
            match tracked with
            | VInt k => Ok (list_slice_from k (requests data))
            | VBool b =>
                Ok (list_slice_from (if b then 1 else 0) (requests data))
            | VNone => Ok (requests data)
            | _ => Raise TypeError
            end in
          match sliced with
          | Raise e => (Raise e, data)
          | Ok rest =>
              let data1 := mkData (data_token_auth data) rest in
              match dict_get "message" d with
              | None => (Raise (KeyError "message"), data1)
              | Some message => (Ok (str_of_val message), data1)
              end
          end
      end
  | Some _ => (Raise TypeError, data)
  end.

(** The inspection of the decoded reply in [_record_hits]; it only
    logs, but its look-ups may raise. *)
Fixpoint invalid_lines (indices : list Val) (hs : list Hit.t)
  : Res (list Z) :=
  match indices with
  | [] => Ok []
  | index :: rest =>
      let found :=
        match index with
        | VInt k => list_index k hs
        | VBool b => list_index (if b then 1 else 0) hs
        | _ => Raise TypeError
        end in
      match found with
      | Raise e => Raise e
      | Ok h =>
          match invalid_lines rest hs with
          | Ok lines => Ok (Hit.lineno h :: lines)
          | Raise e => Raise e
          end
      end
  end.

Definition has_text (key : string) (l : list Val) : bool :=
  existsb (fun v => match v with
                    | VStr s => bool_decide (s = key)
                    | _ => false
                    end) l.

Definition inspect_reply (reply : Val) (hs : list Hit.t) : Res unit :=
  match reply with
  | VDict d =>
      match dict_get "invalid_indices" d with
      | Some (VList (index :: rest)) =>
          match invalid_lines (index :: rest) hs with
          | Ok _ => Ok tt
          | Raise e => Raise e
          end
      | _ =>
          match dict_get "invalid" d with
          | None | Some (VInt _) | Some (VFloat _) | Some (VBool _) =>
              Ok tt
          | Some _ => Raise TypeError
          end
      end
  | VList l =>
      if has_text "invalid_indices" l || has_text "invalid" l
      then Raise TypeError else Ok tt
  | VStr s =>
      if is_substring "invalid_indices" s || is_substring "invalid" s
      then Raise TypeError else Ok tt
  | _ => Raise TypeError
  end.

(** [Recorder._record_hits] *)
Definition _record_hits (cfg : Config) (m : Matomo.t Request) (r : t)
    (w : World Request) : Res unit * t * World Request :=
  match hits r with
  | [] => (Ok tt, r, w)
  | _ :: _ =>
      match all_hit_args (hits r) with
      | (Raise e, hs) => (Raise e, set_hits hs r, w)
      | (Ok reqs, hs) =>
          let r1 := set_hits hs r in
          let data := mkData (token_auth cfg) reqs in
          match Matomo.call cfg m None (Some _on_tracking_failure) data w
          with
          | (Raise e, _, w1) => (Raise e, r1, w1)
          | (Ok response, _, w1) =>
              let reply :=
                match json_loads response with
                | Some v => v
                | None => VDict []
                end in
              match inspect_reply reply hs with
              | Raise e => (Raise e, r1, w1)
              | Ok _ =>
                  (Ok tt, set_hits [] r1,
                   set_stats
                     (Statistics.advance_recorded (List.length hs)
                        (stats w1)) w1)
              end
          end
      end
  end.

(** How a worker's loop ends: on the sentinel, on an error it
    handled, on an exception raised by a handler itself, or not yet
    (the queue is empty and [queue.get] blocks). *)
Inductive Outcome :=
| Terminated
| Stopped
| Died (e : Exc)
| Blocked.

(** The two [except] clauses of [_run_bulk]. *)
Definition on_error (e : Exc) (r : t) (w : World Request)
  : Outcome * World Request :=
  match e with
  | MatomoError message _ =>
      match hits r with
      | h :: _ =>
          (Stopped,
           set_state
             (State.stop
                (Some ("Encountered error " ++ message ++ " in file "
                       ++ Hit.filename h))
                (state w)) w)
      | [] => (Died IndexError, w)
      end
  | _ => (Stopped, set_state (State.stop None (state w)) w)
  end.

(** [Recorder._run_bulk] over the items the worker takes from the
    queue, in order; it gives back the items it left. *)
Fixpoint run_items (cfg : Config) (m : Matomo.t Request)
    (items : list (option Hit.t)) (r : t) (w : World Request)
  : Outcome * t * World Request * list (option Hit.t) :=
  match items with
  | [] => (Blocked, r, w, [])
  | None :: rest =>
      match _record_hits cfg m r w with
      | (Ok _, r1, w1) => (Terminated, r1, w1, rest)
      | (Raise e, r1, w1) =>
          let '(o, w2) := on_error e r1 w1 in (o, r1, w2, rest)
      end
  | Some hit :: rest =>
      let r1 := set_hits (hits r ++ [hit])%list r in
      if (threshold r1 <=? List.length (hits r1))%nat then
        match _record_hits cfg m r1 w with
        | (Ok _, r2, w1) => run_items cfg m rest r2 w1
        | (Raise e, r2, w1) =>
            let '(o, w2) := on_error e r2 w1 in (o, r2, w2, rest)
        end
      else run_items cfg m rest r1 w
  end.

Definition _run_bulk (cfg : Config) (m : Matomo.t Request) (r : t)
    (w : World Request) : Outcome * t * World Request :=
  let '(o, r1, w1, rest) := run_items cfg m (queue w) r (set_queue [] w) in
  (o, r1, set_queue (rest ++ queue w1)%list w1).

End WithBuiltins.

End Recorder.

(** ** Parser *)

Module Parser.

(** *** Format detection *)

(** One turn of the loop of [Parser.check_format]: [acc] holds
    [format] ([None] for [False]) and [format_groups]. *)
Definition check_format_step (probe : string -> Probe)
    (acc : option Format * nat) (entry : string * Format)
  : option Format * nat :=
  let '(format, format_groups) := acc in
  let '(name, candidate_format) := entry in
  if bool_decide (name = "ovh") then acc
  else
    match probe name with
    | Falsy => acc
    | ReMatch match_groups =>
        if (format_groups <? match_groups)%nat
        then (Some candidate_format, match_groups)
        else acc
    | Truthy => (Some candidate_format, format_groups)
    end.

Definition check_format_in (catalog : list (string * Format))
    (probe : string -> Probe) : option Format :=
  (fold_left (check_format_step probe) catalog (None, O)).1.

(** [Parser.check_format(lineOrFile)]; [probe name] is what the
    candidate called [name] answers on [lineOrFile]. *)
Definition check_format (probe : string -> Probe) : option Format :=
  check_format_in FORMATS probe.

(** [MONTHS] *)
Definition MONTHS : list (string * Z) :=
  [ ("Jan", 1); ("Feb", 2); ("Mar", 3); ("Apr", 4); ("May", 5); ("Jun", 6);
    ("Jul", 7); ("Aug", 8); ("Sep", 9); ("Oct", 10); ("Nov", 11);
    ("Dec", 12) ].

Fixpoint month_of (name : string) (table : list (string * Z)) : Res Z :=
  match table with
  | [] => Raise (KeyError name)
  | (k, v) :: rest => if bool_decide (k = name) then Ok v else month_of name rest
  end.

Section WithBuiltins.
Context {B : Builtins} {Request : Type}.

(** *** Reading a matched line *)

(** Computations that read the format and may raise. *)
Definition M (A : Type) : Type := Format -> Res A * Format.

Definition ret {A} (a : A) : M A := fun f => (Ok a, f).

Definition bind {A C} (m : M A) (k : A -> M C) : M C :=
  fun f => match m f with
           | (Ok a, g) => k a g
           | (Raise e, g) => (Raise e, g)
           end.

Definition lift {A} (r : Res A) : M A := fun f => (r, f).

(** [try: m except <handles>: fallback] *)
Definition try_except {A} (m : M A) (handles : Exc -> bool) (fallback : M A)
  : M A :=
  fun f => match m f with
           | (Ok a, g) => (Ok a, g)
           | (Raise e, g) => if handles e then fallback g else (Raise e, g)
           end.

Notation "'let!' x ':=' m 'in' k" := (bind m (fun x => k))
  (at level 10, x name, m at level 100, k at level 200, only parsing).

Definition anything (_ : Exc) : bool := true.

(** [format.get('status')] and [format.get('path')], each under a
    bare [except] that puts the empty string. *)
Definition read_or_empty (key : string) : M Val :=
  try_except (get key) anything (ret (VStr "")).

(** The quote test and slice shared by referrer, user agent and
    host: a value that is not text has no [startswith]. *)
Definition strip_quotes (v : Val) : Res string :=
  match v with
  | VStr s => Ok (if startswith_quote s then slice_1_m1 s else s)
  | _ => Raise AttributeError
  end.

Definition read_referrer : M string :=
  let! r := try_except (let! v := get "referrer" in lift (strip_quotes v))
         is_BaseFormatException (ret "") in
  ret (if bool_decide (r = "-") then "" else r).

Definition read_user_agent : M string :=
  try_except (let! v := get "user_agent" in lift (strip_quotes v))
    is_BaseFormatException (ret "").

(** [ip0, ip1, *_ = hit.ip.split('.')] and the rebuilt address. *)
Definition anonymize (v : Val) : Res Val :=
  match v with
  | VStr s =>
      match split "."%char s with
      | ip0 :: ip1 :: _ => Ok (VStr (ip0 ++ "." ++ ip1 ++ ".0.0"))
      | _ => Raise (ValueError "not enough values to unpack")
      end
  | _ => Raise AttributeError
  end.

Definition read_ip (cfg : Config) : M Val :=
  let! v := get "ip" in
  if ip_anonymization cfg then lift (anonymize v) else ret v.

Definition read_length : M Z :=
  try_except (let! v := get "length" in lift (int_of_val v))
    is_ValueError_or_BaseFormatException (ret 0).

Definition read_float (key : string) : M float :=
  let! v := get key in lift (float_of_val v).

(** The three nested [try] blocks for the generation time. *)
Definition read_generation_time : M float :=
  try_except (read_float "generation_time_milli")
    is_ValueError_or_BaseFormatException
    (try_except
       (let! x := read_float "generation_time_micro" in
        ret (PrimFloat.div x (float_of_Z 1000)))
       is_ValueError_or_BaseFormatException
       (try_except
          (let! x := read_float "generation_time_secs" in
           ret (PrimFloat.mul x (float_of_Z 1000)))
          is_ValueError_or_BaseFormatException
          (ret (float_of_Z 0)))).

Definition read_host : M (option string) :=
  try_except
    (let! v := get "host" in
     match v with
     | VStr s =>
         let host := strip_char "."%char (lower s) in
         ret (Some (if startswith_quote host then slice_1_m1 host
                    else host))
     | _ => lift (Raise AttributeError)
     end)
    is_BaseFormatException (ret None).

Definition is_dash (v : Val) : bool :=
  match v with
  | VStr s => bool_decide (s = "-")
  | _ => false
  end.

(** The user id: the value assigned to [hit.userid] and to
    [hit.args['uid']], if the field is there and is not the
    placeholder. *)
Definition read_userid : M (option Val) :=
  try_except
    (let! v := get "userid" in ret (if is_dash v then None else Some v))
    anything (ret None).

(** The event triple; a failure keeps what was assigned before it. *)
Definition read_event : M (Val * Val * Val) :=
  try_except
    (let! category := get "event_category" in
     try_except
       (let! action := get "event_action" in
        try_except
          (let! name := get "event_name" in
           ret (category, action, if is_dash name then VNone else name))
          anything (ret (category, action, VNone)))
       anything (ret (category, VNone, VNone)))
    anything (ret (VNone, VNone, VNone)).

(** The hit of a matched line, before the checks: the assignments of
    [Parser.parse] from [format.get('status')] to the event fields. *)
Definition normalize (cfg : Config) (filename : string) (lineno : Z)
  : M Hit.t :=
  let! format_status := read_or_empty "status" in
  let! format_path := read_or_empty "path" in
  let! referrer := read_referrer in
  let! user_agent := read_user_agent in
  let! ip := read_ip cfg in
  let! length := read_length in
  let! generation_time_milli := read_generation_time in
  let! host := read_host in
  let! userid := read_userid in
  let! event := read_event in
  ret (Hit.mk filename lineno format_status format_path
         false false false false false
         (match userid with
          | Some v => {[ "uid" := Hit.ArgVal v ]}
          | None => ∅
          end)
         "" format_path referrer user_agent ip length
         generation_time_milli host (default VNone userid)
         event.1.1 event.1.2 event.2 None).

(** *** The checks *)

(** A compiled pattern of the configuration, seen through
    [regEx.match(path)] and [oai.group(1)]: no match, or the text of
    the first group, or the exception its use raises. *)
Definition Pattern : Type := string -> option (Res string).

Record t := mk {
  tracking_metadata : list Pattern;
  tracking_download : list Pattern;
  (** [robot.search(hit.user_agent)] for each robot pattern. *)
  user_agents : list (string -> bool);
}.

(** What a [check_*] method gives: its answer, the hit as it left it,
    and the counters. *)
Definition Check : Type :=
  Hit.t -> Statistics.t -> Res (bool * Hit.t * Statistics.t).

Fixpoint check_static_from (cfg : Config) (patterns : list Pattern)
    (hit : Hit.t) : Res Hit.t :=
  match patterns with
  | [] => Ok hit
  | regEx :: rest =>
      match Hit.path hit with
      | VStr path =>
          match regEx path with
          | None => check_static_from cfg rest hit
          | Some (Raise e) => Raise e
          | Some (Ok group1) =>
              let finalOAIpmh :=
                oaipmh_preamble cfg ++ after_last "/"%char group1 in
              if bool_decide (finalOAIpmh = oaipmh_preamble cfg)
              then check_static_from cfg rest hit
              else
                match Hit.add_page_custom_var "oaipmhID" finalOAIpmh hit
                with
                | Raise e => Raise e
                | Ok hit1 =>
                    check_static_from cfg rest (Hit.set_is_meta true hit1)
                end
          end
      | _ => Raise TypeError
      end
  end.

Definition check_static (cfg : Config) (p : t) : Check :=
  fun hit st =>
    match check_static_from cfg (tracking_metadata p) hit with
    | Ok hit1 => Ok (true, hit1, st)
    | Raise e => Raise e
    end.

Fixpoint check_download_from (cfg : Config) (patterns : list Pattern)
    (hit : Hit.t) : Res Hit.t :=
  match patterns with
  | [] => Ok hit
  | regEx :: rest =>
      match Hit.path hit with
      | VStr path =>
          match regEx path with
          | None => check_download_from cfg rest hit
          | Some (Raise e) => Raise e
          | Some (Ok group1) =>
              let finalOAIpmh :=
                oaipmh_preamble cfg ++ after_last "/"%char group1 in
              if bool_decide (finalOAIpmh = oaipmh_preamble cfg)
              then check_download_from cfg rest hit
              else
                match Hit.add_page_custom_var "oaipmhID" finalOAIpmh hit
                with
                | Raise e => Raise e
                | Ok hit1 => Ok (Hit.set_is_download true hit1)
                end
          end
      | _ => Raise TypeError
      end
  end.

Definition check_download (cfg : Config) (p : t) : Check :=
  fun hit st =>
    match check_download_from cfg (tracking_download p) hit with
    | Ok hit1 => Ok (true, hit1, st)
    | Raise e => Raise e
    end.

Definition check_user_agent (p : t) : Check :=
  fun hit st =>
    if existsb (fun robot => robot (Hit.user_agent hit)) (user_agents p)
    then Ok (true, Hit.set_is_robot true hit,
             Statistics.incr_skipped_user_agent st)
    else Ok (true, hit, st).

(** [hit.status[0]] *)
Definition first_char (v : Val) : Res ascii :=
  match v with
  | VStr (String c _) => Ok c
  | VStr EmptyString => Raise IndexError
  | _ => Raise TypeError
  end.

Definition check_http_error : Check :=
  fun hit st =>
    match first_char (Hit.status hit) with
    | Raise e => Raise e
    | Ok c =>
        match int_of_char c with
        | Raise e => Raise e
        | Ok d =>
            if (4 <=? d)%Z && (d <=? 5)%Z
            then Ok (true, Hit.set_is_error true hit, st)
            else Ok (true, hit, st)
        end
    end.

Definition is_text (s : string) (v : Val) : bool :=
  match v with
  | VStr x => bool_decide (x = s)
  | _ => false
  end.

Definition check_http_redirect : Check :=
  fun hit st =>
    match first_char (Hit.status hit) with
    | Raise e => Raise e
    | Ok c =>
        if bool_decide (c = "3"%char) && negb (is_text "304" (Hit.status hit))
        then Ok (true, Hit.set_is_redirect true hit, st)
        else Ok (true, hit, st)
    end.

(** [self.check_methods]: the bound methods whose name starts with
    [check_], in the name order of [inspect.getmembers]; the static
    method [check_format] is not among them. *)
Definition check_methods (cfg : Config) (p : t) : list Check :=
  [ check_download cfg p; check_http_error; check_http_redirect;
    check_static cfg p; check_user_agent p ].

(** [all(method(hit) for method in self.check_methods)] *)
Fixpoint all_checks (methods : list Check) (hit : Hit.t)
    (st : Statistics.t) : Res (bool * Hit.t * Statistics.t) :=
  match methods with
  | [] => Ok (true, hit, st)
  | method :: rest =>
      match method hit st with
      | Raise e => Raise e
      | Ok (true, hit1, st1) => all_checks rest hit1 st1
      | Ok (false, hit1, st1) => Ok (false, hit1, st1)
      end
  end.

(** *** Date and time zone *)

Definition int_of_text (s : string) : Res Z :=
  match py_int_str s with
  | Some z => Ok z
  | None => Raise (ValueError "invalid literal for int()")
  end.

(** [BaseFormat._parseTimeFast] *)
Definition parseTimeFast (date_string : Val) : Res Date :=
  match date_string with
  | VStr s =>
      match int_of_text (slice 7 11 s) with
      | Raise e => Raise e
      | Ok year =>
      match month_of (slice 3 6 s) MONTHS with
      | Raise e => Raise e
      | Ok month =>
      match int_of_text (slice 0 2 s) with
      | Raise e => Raise e
      | Ok day =>
      match int_of_text (slice 12 14 s) with
      | Raise e => Raise e
      | Ok hour =>
      match int_of_text (slice 15 17 s) with
      | Raise e => Raise e
      | Ok minute =>
      match int_of_text (slice 18 20 s) with
      | Raise e => Raise e
      | Ok second => datetime year month day hour minute second
      end end end end end end
  | _ => Raise TypeError
  end.

(** [BaseFormat._parseTimeSlow] *)
Definition parseTimeSlow (f : Format) (date_string : Val) : Res Date :=
  match date_string with
  | VStr s => strptime s (date_format f)
  | _ => Raise TypeError
  end.

(** [format.parseTime(date_string)] *)
Definition format_parseTime (f : Format) (date_string : Val) : Res Date :=
  match parseTime f with
  | _parseTimeFast => parseTimeFast date_string
  | _parseTimeSlow => parseTimeSlow f date_string
  end.

(** *** One line *)

Inductive LineResult :=
| Skipped
| Invalid (reason : string)
| Excluded
| Filtered (reason : option string)
| Accepted (hit : Hit.t).

(** [Parser.is_filtered] *)
Definition is_filtered (hit : Hit.t) : bool * option string :=
  (false, None).

(** The test that guards [Recorder.add_hit]. *)
Definition eligible (hit : Hit.t) : bool :=
  negb (Hit.is_robot hit)
  && (Hit.is_meta hit || Hit.is_download hit)
  && negb (Hit.is_redirect hit).

(** The end of the loop body: the veto, the queue, the counters. *)
Definition deliver (hit : Hit.t) (w : World Request)
  : LineResult * World Request :=
  let '(filtered, reason) := is_filtered hit in
  if filtered then (Filtered reason, w)
  else
    let w1 := if eligible hit then Recorder.add_hit hit w else w in
    let w2 :=
      if negb (Hit.is_robot hit) && negb (Hit.is_redirect hit)
         && Hit.is_meta hit
      then set_stats (Statistics.incr_static (stats w1)) w1 else w1 in
    let w3 :=
      if negb (Hit.is_robot hit) && negb (Hit.is_redirect hit)
         && Hit.is_download hit
      then set_stats (Statistics.incr_downloads (stats w2)) w2 else w2 in
    (Accepted hit, w3).

(** The date of an accepted hit: [inl] carries the reason of an
    invalid line. *)
Definition read_date (hit : Hit.t) : M (string + Hit.t) :=
  let! date_string := get "date" in
  fun f =>
    match format_parseTime f date_string with
    | Raise (ValueError msg) =>
        (Ok (inl ("invalid date or invalid format: " ++ msg)), f)
    | Raise e => (Raise e, f)
    | Ok date =>
        match read_float "timezone" f with
        | (Raise (ValueError _), g) => (Ok (inl "invalid timezone"), g)
        | (Raise BaseFormatException, g) =>
            (Ok (inr (Hit.set_date date hit)), g)
        | (Raise e, g) => (Raise e, g)
        | (Ok timezone, g) =>
            if float_truthy timezone then
              match sub_hours date
                      (PrimFloat.div timezone (float_of_Z 100)) with
              | Ok date1 => (Ok (inr (Hit.set_date date1 hit)), g)
              | Raise e => (Raise e, g)
              end
            else (Ok (inr (Hit.set_date date hit)), g)
        end
    end.

(** A line as [format.match] reads it: no match, or the groups it
    captured (for the JSON format, the decoded object). *)
Definition Line : Type := option (gmap string Val).

(** The body of the [while] loop of [Parser.parse] for one line. *)
Definition parse_line (cfg : Config) (p : t) (filename : string)
    (lineno : Z) (line : Line) (f : Format) (w : World Request)
  : Res LineResult * Format * World Request :=
  let w1 := set_stats (Statistics.incr_parsed (stats w)) w in
  if (Z.of_nat (Statistics.value (Statistics.count_lines_parsed (stats w1)))
      <=? skip cfg)%Z
  then (Ok Skipped, f, w1)
  else
    match line with
    | None => (Ok (Invalid "line did not match"), f, w1)
    | Some groups =>
        match normalize cfg filename lineno (with_store groups f) with
        | (Raise e, f1) => (Raise e, f1, w1)
        | (Ok hit, f1) =>
            match all_checks (check_methods cfg p) hit (stats w1) with
            | Raise e => (Raise e, f1, w1)
            | Ok (false, _, st) => (Ok Excluded, f1, set_stats st w1)
            | Ok (true, hit1, st) =>
                let w2 := set_stats st w1 in
                match read_date hit1 f1 with
                | (Raise e, f2) => (Raise e, f2, w2)
                | (Ok (inl reason), f2) => (Ok (Invalid reason), f2, w2)
                | (Ok (inr hit2), f2) =>
                    let '(result, w3) := deliver hit2 w2 in
                    (Ok result, f2, w3)
                end
            end
        end
    end.

(** The [while] loop of [Parser.parse] over the lines of the file:
    what became of each line read, and the exception that ended the
    loop if one did. *)
Fixpoint parse_lines (cfg : Config) (p : t) (filename : string)
    (lineno : Z) (lines : list Line) (f : Format) (w : World Request)
  : list LineResult * option Exc * Format * World Request :=
  if State.is_stopped (state w) then ([], None, f, w)
  else
    match lines with
    | [] => ([], None, f, w)
    | line :: rest =>
        match parse_line cfg p filename (lineno + 1) line f w with
        | (Raise e, f1, w1) => ([], Some e, f1, w1)
        | (Ok result, f1, w1) =>
            let '(results, e, f2, w2) :=
              parse_lines cfg p filename (lineno + 1) rest f1 w1 in
            (result :: results, e, f2, w2)
        end
    end.

(** [Parser.parse(filename)] for a file that exists, given the format
    [detect_format] found for it and the lines its loop reads: all the
    lines of a file that seeks back to its start after detection, the
    lines detection left of a stream that cannot. *)
Definition parse (cfg : Config) (p : t) (filename : string)
    (format : option Format) (lines : list Line) (w : World Request)
  : list LineResult * option Exc * World Request :=
  match format with
  | None => ([], None, w)
  | Some f =>
      let '(results, e, _, w1) :=
        parse_lines cfg p (if bool_decide (filename = "-") then "(stdin)"
                           else filename) (-1) lines f w in
      (results, e, w1)
  end.

End WithBuiltins.
Arguments t : clear implicits.

End Parser.

(** ** An instance of the library functions

    Plain decimal literals, with or without a sign in front, read the
    way [int()] and [float()] read them (for [float()], up to 15
    significant digits: the quotient of two exactly represented
    integers is the correctly rounded value), replies
    decoded from a short table, and dates kept as the six numbers given.
    Used to run the definitions on concrete lines. *)

Module Sample.

Definition unsigned_float (s : string) : option float :=
  match split "."%char s with
  | [whole] =>
      match decimal_value whole with
      | Some n => Some (float_of_Z n)
      | None => None
      end
  | [whole; frac] =>
      match decimal_value (whole ++ frac) with
      | Some n =>
          Some (PrimFloat.div (float_of_Z n)
                  (float_of_Z (10 ^ Z.of_nat (String.length frac))))
      | None => None
      end
  | _ => None
  end.

Definition decimal_float (s : string) : option float :=
  match s with
  | String "+" rest => unsigned_float rest
  | String "-" rest => option_map PrimFloat.opp (unsigned_float rest)
  | _ => unsigned_float s
  end.

Definition decimal_int (s : string) : option Z :=
  match s with
  | String "+" rest => decimal_value rest
  | String "-" rest => option_map Z.opp (decimal_value rest)
  | _ => decimal_value s
  end.

(** A collector reply that reports four tracked requests, and the
    empty object. *)
Definition partial_reply : string :=
  "{'status':'error','tracked':4,'message':'Unable to track'}".

Definition decode (body : string) : option Val :=
  if bool_decide (body = "{}") then Some (VDict [])
  else if bool_decide (body = partial_reply)
  then Some (VDict [("status", VStr "error"); ("tracked", VInt 4);
                    ("message", VStr "Unable to track")])
  else None.

Definition text_of (v : Val) : string :=
  match v with
  | VStr s => s
  | VInt z => str_of_Z z
  | VNone => "None"
  | VBool true => "True"
  | VBool false => "False"
  | _ => "?"
  end.

Definition builtins : Builtins := {|
  py_float_str := decimal_float;
  py_int_str := decimal_int;
  unquote := fun s => s;
  lower := fun s => s;
  json_loads := decode;
  str_of_bytes := fun b => "b'" ++ b ++ "'";
  str_of_val := text_of;
  datetime := fun y mo d h mi sec => Ok (mkDate y mo d h mi sec 0);
  strptime := fun _ _ => Raise (ValueError "unsupported layout");
  sub_hours := fun d _ => Ok d;
|}.

(** A line in the common log format, as its groups. *)
Definition common_line (ip status path : string) : gmap string Val :=
  {[ "ip" := VStr ip; "userid" := VStr "-";
     "date" := VStr "10/Oct/2000:13:55:36"; "timezone" := VStr "0000";
     "method" := VStr "GET"; "path" := VStr path;
     "status" := VStr status; "length" := VStr "2326" ]}.

(** A line in the NCSA extended format. *)
Definition ncsa_line (referrer user_agent : string) : gmap string Val :=
  <["referrer" := VStr referrer]>
    (<["user_agent" := VStr user_agent]>
       (common_line "203.0.113.77" "200" "/index.html")).

Definition common : Format := new_RegexFormat "common" None.

Definition ncsa_extended : Format := new_RegexFormat "ncsa_extended" None.

Definition config : Config :=
  mkConfig false "oai:example.org:" 0 "secret" 10 3 200 false.

Definition config_anonymizing : Config :=
  mkConfig true "oai:example.org:" 0 "secret" 10 3 200 false.

(** The hit [Parser.parse] builds from such a line, before the checks. *)
Definition plain_hit (referrer user_agent ip : string) : Hit.t :=
  Hit.mk "access.log" 0 (VStr "200") (VStr "/index.html")
    false false false false false ∅ "" (VStr "/index.html")
    referrer user_agent (VStr ip) 2326 (float_of_Z 0) None
    VNone VNone VNone VNone None.

(** A line that also has a time-taken field in seconds, and its hit. *)
Definition timed_line (secs : string) : gmap string Val :=
  <["generation_time_secs" := VStr secs]>
    (common_line "203.0.113.77" "200" "/index.html").

Definition timed_hit (ms : float) : Hit.t :=
  Hit.mk "access.log" 0 (VStr "200") (VStr "/index.html")
    false false false false false ∅ "" (VStr "/index.html")
    "" "" (VStr "203.0.113.77") 2326 ms None
    VNone VNone VNone VNone None.

(** A hit with the given status, as [Parser.parse] creates it. *)
Definition hit_with_status (s : string) : Hit.t :=
  Hit.mk "access.log" 0 (VStr s) (VStr "/") false false false false false
    ∅ "" (VStr "/") "" "" (VStr "203.0.113.77") 0 (float_of_Z 0) None
    VNone VNone VNone VNone None.

(** Requests stand for themselves: the line number of the hit. *)
Definition hit_args (h : Hit.t) : Res (Z * Hit.t) :=
  Ok (Hit.lineno h, h).

Definition hit_on_line (n : Z) : Hit.t :=
  Hit.mk "access.log" n (VStr "200") (VStr "/") false true false false false
    ∅ "" (VStr "/") "" "" (VStr "203.0.113.77") 0 (float_of_Z 0) None
    VNone VNone VNone VNone None.

Definition world : World Z :=
  mkWorld (State.start State.init) Statistics.init [] [] [].

End Sample.

(** * What the claims speak of *)

Local Open Scope Z_scope.

(** ** Delivery *)

(** The hits that reached the end of the loop body. *)
Definition accepted_hits (results : list Parser.LineResult)
  : list Hit.t :=
  flat_map (fun r => match r with
                     | Parser.Accepted h => [h]
                     | _ => []
                     end) results.

Definition enqueued (results : list Parser.LineResult)
  : list (option Hit.t) :=
  map Some (List.filter Parser.eligible (accepted_hits results)).

(** ** Status codes, for stating the HTTP checks *)

(** The number a status text spells in decimal digits. *)
Definition status_code (v : Val) : option Z :=
  match v with
  | VStr s => decimal_value s
  | _ => None
  end.

(** The status is a number between [lo] and [hi]. *)
Definition status_between (lo hi : Z) (v : Val) : bool :=
  match status_code v with
  | Some n => (lo <=? n) && (n <=? hi)
  | None => false
  end.

Definition digit_char (d : Z) : ascii := ascii_of_nat (Z.to_nat (48 + d)).

(** The text of a three-digit status. *)
Definition three_digits (x y z : Z) : string :=
  String (digit_char x) (String (digit_char y)
    (String (digit_char z) EmptyString)).

(** ** Generation time, for stating its derivation *)

Section GenerationTimeSpec.
Context {B : Builtins}.

(** The number a captured field holds: the field is there, is text, and
    [float()] reads it. *)
Definition numeric_field (f : Format) (key : string) : option float :=
  match store f !! key with
  | Some (VStr s) => py_float_str s
  | _ => None
  end.

(** First of milliseconds, microseconds (over 1000), seconds (times
    1000) that is numeric, 0 when none is. *)
Definition generation_time_of (f : Format) : float :=
  match numeric_field f "generation_time_milli" with
  | Some ms => ms
  | None =>
      match numeric_field f "generation_time_micro" with
      | Some us => PrimFloat.div us (float_of_Z 1000)
      | None =>
          match numeric_field f "generation_time_secs" with
          | Some secs => PrimFloat.mul secs (float_of_Z 1000)
          | None => float_of_Z 0
          end
      end
  end.

(** Every captured time field is text. *)
Definition time_fields_are_text (f : Format) : Prop :=
  forall key v,
    store f !! key = Some v ->
    key = "generation_time_milli" \/ key = "generation_time_micro"
    \/ key = "generation_time_secs" ->
    exists s, v = VStr s.

End GenerationTimeSpec.

(** ** Format detection, as the specification words it *)

(** The first pair with the greatest count: a later pair replaces an
    earlier one only with a strictly greater count. *)
Fixpoint first_greatest {A} (l : list (nat * A)) : option (nat * A) :=
  match l with
  | [] => None
  | (n, a) :: rest =>
      match first_greatest rest with
      | Some (m, b) => if (n <? m)%nat then Some (m, b) else Some (n, a)
      | None => Some (n, a)
      end
  end.

(** The number of captured fields of a match; [json_fields] is the
    number the reader gives to a match that has no [groups]. *)
Definition captured_fields (json_fields : nat) (p : Probe) : option nat :=
  match p with
  | Falsy => None
  | ReMatch n => Some n
  | Truthy => Some json_fields
  end.

(** The variants that match, the OVH one left out, with their counts. *)
Definition matching_variants (json_fields : nat)
    (catalog : list (string * Format)) (probe : string -> Probe)
  : list (nat * Format) :=
  flat_map (fun entry : string * Format =>
              if bool_decide (entry.1 = "ovh") then []
              else match captured_fields json_fields (probe entry.1) with
                   | Some n => [(n, entry.2)]
                   | None => []
                   end) catalog.

(** Among all variants that match, the one with the greatest number of
    captured fields, the first of them on a tie. *)
Definition best_match (json_fields : nat) (probe : string -> Probe)
  : option Format :=
  option_map snd (first_greatest (matching_variants json_fields FORMATS probe)).

(** The variants whose match is a regex match, with their group counts. *)
Definition regex_matches (catalog : list (string * Format))
    (probe : string -> Probe) : list (nat * Format) :=
  flat_map (fun entry : string * Format =>
              if bool_decide (entry.1 = "ovh") then []
              else match probe entry.1 with
                   | ReMatch n => [(n, entry.2)]
                   | _ => []
                   end) catalog.

(** The first regex match with the greatest group count, if that count
    is not zero. *)
Definition best_regex_match (catalog : list (string * Format))
    (probe : string -> Probe) : option Format :=
  match first_greatest (regex_matches catalog probe) with
  | Some (n, f) => if (0 <? n)%nat then Some f else None
  | None => None
  end.

(** What the candidates answer on a line that only the four W3C
    variants match, with a pattern that has no group. *)
Definition probe_without_groups (name : string) : Probe :=
  if bool_decide (name ∈ ["w3c_extended"; "amazon_cloudfront"; "iis";
                          "shoutcast"])
  then ReMatch 0 else Falsy.

(** What the candidates answer on a line that is a JSON document and
    that the W3C variants match with one group. *)
Definition probe_json_and_w3c (name : string) : Probe :=
  if bool_decide (name ∈ ["w3c_extended"; "amazon_cloudfront"; "iis";
                          "shoutcast"])
  then ReMatch 1
  else if bool_decide (name = "nginx_json") then Truthy else Falsy.

(** What the candidates answer on a line of the NCSA extended format;
    the OVH variant is given an answer too, which detection never asks
    for. *)
Definition probe_ncsa (name : string) : Probe :=
  if bool_decide (name = "common") then ReMatch 8
  else if bool_decide (name = "ncsa_extended") then ReMatch 10
  else if bool_decide (name = "ovh") then ReMatch 10
  else Falsy.

(** ** Failing transports *)

Section Failing.
Context {B : Builtins} {Request : Type}.

(** A call of the transport that fails: it raises an exception the
    wrapper catches, with this message and code, and leaves the world
    [w1]. *)
Definition fails
    (func : Data Request -> World Request -> Res string * World Request)
    (data : Data Request) (w : World Request)
    (message : string) (code : option Z) (w1 : World Request) : Prop :=
  exists e, func data w = (Raise e, w1)
            /\ Matomo.caught e = Some (message, code).

(** A network that fails on every request. *)
Definition network_down (network : nat -> Data Request -> Res string)
  : Prop :=
  forall n data,
    exists e message code,
      network n data = Raise e /\ Matomo.caught e = Some (message, code).

(** The world after three requests with [data] sent in vain: two
    delays slept, nothing else touched. *)
Definition after_three_failures (cfg : Config) (data : Data Request)
    (w : World Request) : World Request :=
  mkWorld (state w) (stats w) (queue w)
    (sent w ++ [data; data; data])%list
    (slept w ++ [delay_after_failure cfg; delay_after_failure cfg])%list.

End Failing.

(** The reason a worker gives when it stops the run. *)
Definition stop_reason (message : string) (h : Hit.t) : string :=
  "Encountered error " ++ message ++ " in file " ++ Hit.filename h.

(** A network that refuses every connection. *)
Definition refusing {Request : Type} : nat -> Data Request -> Res string :=
  fun _ _ => Raise (URLError "Connection refused").

(** ** A partial failure of the collector *)

(** The collector tracks four requests of the first body it is sent and
    answers with an HTTP error whose body says so; it accepts every later
    body. *)
Definition partly_failing : nat -> Data Z -> Res string :=
  fun n _ =>
    match n with
    | O => Raise (HTTPError 500 "Internal Server Error" Sample.partial_reply)
    | S _ => Ok "{}"
    end.

(** The same reply, sent with the status of a success. *)
Definition partly_tracking : nat -> Data Z -> Res string :=
  fun _ _ => Ok Sample.partial_reply.

(** A recorder that holds the hits of lines 1 to 10. *)
Definition ten_hits : Recorder.t :=
  Recorder.mk 0 (map Sample.hit_on_line [1; 2; 3; 4; 5; 6; 7; 8; 9; 10]) 200.

Definition ten_requests : Data Z :=
  mkData "secret" [1; 2; 3; 4; 5; 6; 7; 8; 9; 10].

(** ** Custom variables and the checks *)

(** The page custom variables of a hit: the entries of
    [hit.args['cvar']], none when the key is missing. *)
Definition cvars (h : Hit.t) : list (nat * (string * string)) :=
  match Hit.args h !! "cvar" with
  | Some (Hit.ArgVars vars) => vars
  | _ => []
  end.

(** The custom variables are numbered 1, 2, ... in the order they were
    added, and [cvar] holds nothing else. *)
Definition cvar_ready (h : Hit.t) : Prop :=
  match Hit.args h !! "cvar" with
  | None => True
  | Some (Hit.ArgVars vars) => vars.*1 = seq 1 (List.length vars)
  | Some (Hit.ArgVal _) => False
  end.

(** [count] pairs numbered from [start]. *)
Fixpoint numbered {A} (start : nat) (l : list A) : list (nat * A) :=
  match l with
  | [] => []
  | a :: rest => (start, a) :: numbered (S start) rest
  end.

(** The identifier a pattern gives for a path: the preamble followed by
    what comes after the last slash of the first group, when the pattern
    matches and that tail is not empty. *)
Definition identifier_of (cfg : Config) (path : string)
    (regEx : string -> option (Res string)) : option string :=
  match regEx path with
  | Some (Ok group1) =>
      if bool_decide (after_last "/"%char group1 = "") then None
      else Some (oaipmh_preamble cfg ++ after_last "/"%char group1)
  | _ => None
  end.

(** The identifiers the patterns of a list give for a path, in the
    order of the list. *)
Definition identifiers (cfg : Config) (path : string)
    (patterns : list (string -> option (Res string))) : list string :=
  omap (identifier_of cfg path) patterns.

(** No pattern of the list raises when its first group is read. *)
Definition patterns_behave (path : string)
    (patterns : list (string -> option (Res string))) : Prop :=
  Forall (fun regEx => forall e, regEx path <> Some (Raise e)) patterns.

(** What a check may change in a hit: flags go up, the custom variables
    change, everything else stays. *)
Definition only_classified (h h' : Hit.t) : Prop :=
  Hit.filename h' = Hit.filename h /\ Hit.lineno h' = Hit.lineno h
  /\ Hit.status h' = Hit.status h /\ Hit.full_path h' = Hit.full_path h
  /\ Hit.query_string h' = Hit.query_string h /\ Hit.path h' = Hit.path h
  /\ Hit.referrer h' = Hit.referrer h /\ Hit.user_agent h' = Hit.user_agent h
  /\ Hit.ip h' = Hit.ip h /\ Hit.length h' = Hit.length h
  /\ Hit.generation_time_milli h' = Hit.generation_time_milli h
  /\ Hit.host h' = Hit.host h /\ Hit.userid h' = Hit.userid h
  /\ Hit.event_category h' = Hit.event_category h
  /\ Hit.event_action h' = Hit.event_action h
  /\ Hit.event_name h' = Hit.event_name h /\ Hit.date h' = Hit.date h
  /\ (forall key, key <> "cvar" -> Hit.args h' !! key = Hit.args h !! key)
  /\ (Hit.is_meta h = true -> Hit.is_meta h' = true)
  /\ (Hit.is_download h = true -> Hit.is_download h' = true)
  /\ (Hit.is_robot h = true -> Hit.is_robot h' = true)
  /\ (Hit.is_error h = true -> Hit.is_error h' = true)
  /\ (Hit.is_redirect h = true -> Hit.is_redirect h' = true).

(** A hit for the given path, as [Parser.parse] creates it. *)
Definition hit_at (status path : string) : Hit.t :=
  Hit.mk "access.log" 0 (VStr status) (VStr path) false false false false false
    ∅ "" (VStr path) "" "Mozilla/5.0" (VStr "203.0.113.77") 0 (float_of_Z 0)
    None VNone VNone VNone VNone None.

(** A pattern that matches the paths under [/record/] and one that
    matches those under [/record/] or [/file/], each with the whole path
    as its first group. *)
Definition record_pattern : string -> option (Res string) :=
  fun path => if is_prefix "/record/" path then Some (Ok path) else None.

Definition any_pattern : string -> option (Res string) :=
  fun path =>
    if is_prefix "/record/" path || is_prefix "/file/" path
    then Some (Ok path) else None.

(** What every check method guarantees when it returns. *)
Definition accepting (check : Parser.Check) : Prop :=
  forall h st b h' st',
    check h st = Ok (b, h', st') ->
    b = true /\ only_classified h h'
    /\ Statistics.count_lines_parsed st' = Statistics.count_lines_parsed st
    /\ Statistics.count_lines_recorded st' = Statistics.count_lines_recorded st
    /\ Statistics.count_lines_static st' = Statistics.count_lines_static st
    /\ Statistics.count_lines_downloads st'
       = Statistics.count_lines_downloads st.

(** ** Any number of attempts *)

Section Attempts.
Context {B : Builtins} {Request : Type}.

(** The world after [n] more requests with [data] and [k] more delays:
    nothing else is touched. *)
Definition after_attempts (cfg : Config) (n k : nat) (data : Data Request)
    (w : World Request) : World Request :=
  mkWorld (state w) (stats w) (queue w)
    (sent w ++ replicate n data)%list
    (slept w ++ replicate k (delay_after_failure cfg))%list.

(** The requests the wrapper makes when every one of them fails: the
    test of the error count comes after the first request. *)
Definition attempts_allowed (cfg : Config) : nat :=
  Z.to_nat (Z.max 1 (default_max_attempts cfg)).

(** The network fails on [k] requests in a row, from its request number
    [first] on, with exceptions the wrapper catches. *)
Definition down_for (network : nat -> Data Request -> Res string)
    (first k : nat) : Prop :=
  forall i data,
    (first <= i < first + k)%nat ->
    exists e message code,
      network i data = Raise e /\ Matomo.caught e = Some (message, code).

End Attempts.

(** A network that refuses the first two connections and answers the
    third request. *)
Definition recovering {Request : Type} : nat -> Data Request -> Res string :=
  fun n _ =>
    match n with
    | O | 1%nat => Raise (URLError "Connection refused")
    | _ => Ok "{}"
    end.

(** ** What a worker sends *)

Section Batches.
Context {Request : Type}.

(** The bodies handed to the network between two worlds. *)
Definition bodies_since (w w' : World Request) : list (Data Request) :=
  drop (List.length (sent w)) (sent w').

(** The requests of the bodies, in the order they were sent. *)
Definition requests_of (bodies : list (Data Request)) : list Request :=
  concat (map requests bodies).

(** A body as a worker with this threshold builds it: the token of the
    configuration, and at least one request but no more than the
    threshold. *)
Definition well_formed_body (cfg : Config) (threshold : nat)
    (body : Data Request) : Prop :=
  data_token_auth body = token_auth cfg
  /\ (1 <= List.length (requests body) <= threshold)%nat.

(** A collector that answers every request with an empty object. *)
Definition accepting_network : nat -> Data Request -> Res string :=
  fun _ _ => Ok "{}".

(** The world after a worker has sent [bodies] and counted their
    requests as recorded: nothing else is touched. *)
Definition after_bodies (bodies : list (Data Request)) (w : World Request)
  : World Request :=
  mkWorld (state w)
    (Statistics.advance_recorded (List.length (requests_of bodies)) (stats w))
    (queue w) (sent w ++ bodies)%list (slept w).

(** The body a worker builds from a batch of hits. *)
Definition body_of (cfg : Config) (request_of : Hit.t -> Request)
    (batch : list Hit.t) : Data Request :=
  mkData (token_auth cfg) (map request_of batch).

End Batches.

(** [index] is an index of a list of [n] elements, counted from the
    front or, when negative, from the back. *)
Definition in_range (n : nat) (index : Z) : bool :=
  (- Z.of_nat n <=? index) && (index <? Z.of_nat n).

(** The reply of a collector that reports the given indices as
    invalid, decoded. *)
Definition reporting (indices : list Z) : list (string * Val) :=
  [("status", VStr "success"); ("tracked", VInt 3);
   ("invalid", VInt (Z.of_nat (List.length indices)));
   ("invalid_indices", VList (map VInt indices))].

(** The library functions of the sample, with a decoder for such a
    reply. *)
Definition builtins_decoding (indices : list Z) : Builtins :=
  Build_Builtins (@py_float_str Sample.builtins) (@py_int_str Sample.builtins)
    (@unquote Sample.builtins) (@lower Sample.builtins)
    (fun body => if bool_decide (body = "invalid")
                 then Some (VDict (reporting indices))
                 else @json_loads Sample.builtins body)
    (@str_of_bytes Sample.builtins) (@str_of_val Sample.builtins)
    (@datetime Sample.builtins) (@strptime Sample.builtins)
    (@sub_hours Sample.builtins).


(** A recorder with a threshold of two that holds nothing yet, and one
    that holds the hits of lines 1 to 3. *)
Definition recorder_of_two : Recorder.t := Recorder.mk 0 [] 2.

Definition three_hits : Recorder.t :=
  Recorder.mk 0 (map Sample.hit_on_line [1; 2; 3]) 200.

(** ** The counters of the parse loop *)

(** The hits the summary counts as metadata and as downloads. *)
Definition counted_static (h : Hit.t) : bool :=
  negb (Hit.is_robot h) && negb (Hit.is_redirect h) && Hit.is_meta h.

Definition counted_download (h : Hit.t) : bool :=
  negb (Hit.is_robot h) && negb (Hit.is_redirect h) && Hit.is_download h.

(** The line on which an exception ended the loop, if one did. *)
Definition raised (e : option Exc) : nat :=
  match e with
  | Some _ => 1
  | None => 0
  end.

(** What one turn of the loop does, for a line read when
    [count_lines_parsed] stood at [c]. *)
Definition line_outcome (cfg : Config) (filename : string) (lineno : Z)
    (st st1 : Statistics.t) (result : Res Parser.LineResult) : Prop :=
  let c := Statistics.value (Statistics.count_lines_parsed st) in
  let same :=
    Statistics.count_lines_static st1 = Statistics.count_lines_static st
    /\ Statistics.count_lines_downloads st1
       = Statistics.count_lines_downloads st in
  Statistics.value (Statistics.count_lines_parsed st1) = S c
  /\ Statistics.count_lines_recorded st1 = Statistics.count_lines_recorded st
  /\ match result with
     | Raise _ => same
     | Ok Parser.Skipped => Z.of_nat (S c) <= skip cfg /\ same
     | Ok (Parser.Invalid _) => skip cfg < Z.of_nat (S c) /\ same
     | Ok Parser.Excluded | Ok (Parser.Filtered _) => False
     | Ok (Parser.Accepted h) =>
         skip cfg < Z.of_nat (S c)
         /\ Hit.lineno h = lineno /\ Hit.filename h = filename
         /\ Statistics.value (Statistics.count_lines_static st1)
            = (Statistics.value (Statistics.count_lines_static st)
               + if counted_static h then 1 else 0)%nat
         /\ Statistics.value (Statistics.count_lines_downloads st1)
            = (Statistics.value (Statistics.count_lines_downloads st)
               + if counted_download h then 1 else 0)%nat
     end.

(** * UrlHelper: PHP array parameters *)

Module UrlHelper.

(** A dictionary with text keys is kept as the list of its items in
    insertion order, each key once; [d[key] = value] keeps the place of
    a key that is there and appends a new one. *)
Fixpoint dict_set (key : string) (value : Val) (d : list (string * Val))
  : list (string * Val) :=
  match d with
  | [] => [(key, value)]
  | (k, v) :: rest =>
      if bool_decide (k = key) then (k, value) :: rest
      else (k, v) :: dict_set key value rest
  end.

(** [str(i)] for an index. *)
Definition str_of_nat (i : nat) : string := str_of_Z (Z.of_nat i).

(** [UrlHelper._has_contiguous_int_keys] *)
Definition _has_contiguous_int_keys (d : list (string * Val)) : bool :=
  forallb (fun i => bool_decide (is_Some (dict_get (str_of_nat i) d)))
    (seq 0 (List.length d)).

(** [d[str(i)]] for the indices of a list, in order. *)
Fixpoint items_at (d : list (string * Val)) (indices : list nat)
  : Res (list Val) :=
  match indices with
  | [] => Ok []
  | i :: rest =>
      match dict_get (str_of_nat i) d with
      | None => Raise (KeyError (str_of_nat i))
      | Some v =>
          match items_at d rest with
          | Ok l => Ok (v :: l)
          | Raise e => Raise e
          end
      end
  end.

(** [UrlHelper._convert_dict_to_array] *)
Definition _convert_dict_to_array (d : list (string * Val))
  : Res (list Val) :=
  items_at d (seq 0 (List.length d)).

(** The loop of [_convert_dicts_to_arrays] over the items of [d], given
    what becomes of a value that is a dictionary. *)
Definition convert_items (convert : Val -> Res Val)
  : list (string * Val) -> Res (list (string * Val)) :=
  fix go (d : list (string * Val)) : Res (list (string * Val)) :=
    match d with
    | [] => Ok []
    | (key, value) :: rest =>
        match convert value with
        | Raise e => Raise e
        | Ok value' =>
            match go rest with
            | Ok rest' => Ok ((key, value') :: rest')
            | Raise e => Raise e
            end
        end
    end.

(** What [_convert_dicts_to_arrays] stores under a key: an array for a
    dictionary with contiguous integer keys, the converted dictionary
    for another one, the value itself when it is no dictionary. *)
Fixpoint convert_value (value : Val) : Res Val :=
  match value with
  | VDict d =>
      if _has_contiguous_int_keys d then
        match _convert_dict_to_array d with
        | Ok l => Ok (VList l)
        | Raise e => Raise e
        end
      else
        match convert_items convert_value d with
        | Ok d' => Ok (VDict d')
        | Raise e => Raise e
        end
  | _ => Ok value
  end.

(** [UrlHelper._convert_dicts_to_arrays] *)
Definition _convert_dicts_to_arrays (d : list (string * Val))
  : Res (list (string * Val)) :=
  convert_items convert_value d.

(** The walk of [convert_array_args] from [element] along the indices
    [idx :: rest], and the assignment at its end; it gives the element
    as the walk leaves it.  A list met on the way has no text index. *)
Fixpoint navigate (idx : string) (rest : list string) (value : Val)
    (element : Val) : Res Val :=
  match rest with
  | [] =>
      if bool_decide (idx = "") then
        match element with
        | VList l => Ok (VList (l ++ [value]))
        | _ => Raise AttributeError
        end
      else
        match element with
        | VDict d => Ok (VDict (dict_set idx value d))
        | _ => Raise TypeError
        end
  | next :: rest' =>
      match element with
      | VDict d =>
          let fresh := if bool_decide (next = "") then VList [] else VDict [] in
          let current :=
            match dict_get idx d with
            | Some (VList l) =>
                if bool_decide (next = "") then VList l else fresh
            | Some (VDict inner) =>
                if bool_decide (next = "") then fresh else VDict inner
            | _ => fresh
            end in
          match navigate next rest' value current with
          | Ok v => Ok (VDict (dict_set idx v d))
          | Raise e => Raise e
          end
      | _ => Raise TypeError
      end
  end.

(** [key.split('[')] with every part stripped of its closing
    brackets. *)
Definition indices_of (key : string) : list string :=
  map (rstrip_char "]") (split "[" key).

(** One turn of the loop of [convert_array_args]. *)
Definition convert_array_args_step (final_args : list (string * Val))
    (item : string * Val) : Res (list (string * Val)) :=
  let '(key, value) := item in
  if lacks "[" key then Ok (dict_set key value final_args)
  else
    match indices_of key with
    | idx :: rest =>
        match navigate idx rest value (VDict final_args) with
        | Ok (VDict d) => Ok d
        | Ok _ => Raise TypeError
        | Raise e => Raise e
        end
    | [] => Raise IndexError
    end.

Fixpoint convert_array_args_from (final_args : list (string * Val))
    (items : list (string * Val)) : Res (list (string * Val)) :=
  match items with
  | [] => Ok final_args
  | item :: rest =>
      match convert_array_args_step final_args item with
      | Ok final_args' => convert_array_args_from final_args' rest
      | Raise e => Raise e
      end
  end.

(** [UrlHelper.convert_array_args] *)
Definition convert_array_args (args : list (string * Val))
  : Res (list (string * Val)) :=
  match convert_array_args_from [] args with
  | Ok final_args => _convert_dicts_to_arrays final_args
  | Raise e => Raise e
  end.

End UrlHelper.

(** The indices after the first are well placed: none but the last is
    empty. *)
Fixpoint well_indexed (rest : list string) : bool :=
  match rest with
  | [] => true
  | next :: rest' =>
      if bool_decide (next = "") then bool_decide (rest' = [])
      else well_indexed rest'
  end.

(** A key [convert_array_args] can place: it has no bracket, or no
    empty pair of brackets before its last index. *)
Definition placeable (key : string) : bool :=
  lacks "[" key || well_indexed (tail (UrlHelper.indices_of key)).

(** ** Arrays on the way to the API and back *)

(** The name [Matomo._call_api] gives the element [index] of a list
    argument: ['%s[%d]' % (key, index)]. *)
Definition indexed (key : string) (index : nat) : string :=
  key ++ "[" ++ UrlHelper.str_of_nat index ++ "]".

(** [enumerate(value)] under such names, counting from [index]. *)
Fixpoint indexed_items (key : string) (index : nat) (value : list Val)
  : list (string * Val) :=
  match value with
  | [] => []
  | obj :: rest => (indexed key index, obj) :: indexed_items key (S index) rest
  end.

(** [final_args] of [Matomo._call_api]: the arguments in their order,
    each list spread over one argument per element. *)
Definition _call_api_final_args (args : list (string * Val))
  : list (string * Val) :=
  flat_map (fun item =>
              match item.2 with
              | VList value => indexed_items item.1 0 value
              | _ => [item]
              end) args.

(** An argument that survives the way there and back: its name has no
    opening bracket; a list is not empty and its name does not end in a
    closing bracket; a dictionary is none. *)
Definition spreadable (item : string * Val) : Prop :=
  lacks "[" item.1 = true
  /\ match item.2 with
     | VDict _ => False
     | VList value => value <> [] /\ rstrip_char "]" item.1 = item.1
     | _ => True
     end.

(** The dictionary [convert_array_args] builds for a list before it
    turns it into an array: the elements under their indices. *)
Fixpoint numbered_dict (index : nat) (value : list Val)
  : list (string * Val) :=
  match value with
  | [] => []
  | obj :: rest =>
      (UrlHelper.str_of_nat index, obj) :: numbered_dict (S index) rest
  end.

(** What [convert_array_args] holds for an argument when its loop is
    over. *)
Definition staged (item : string * Val) : string * Val :=
  match item.2 with
  | VList value => (item.1, VDict (numbered_dict 0 value))
  | _ => item
  end.

(** ** Dates and time zones *)

(** The library functions of the sample, with a [strptime] that reads
    every text as the same moment. *)
Definition builtins_reading_dates : Builtins :=
  Build_Builtins (@py_float_str Sample.builtins) (@py_int_str Sample.builtins)
    (@unquote Sample.builtins) (@lower Sample.builtins)
    (@json_loads Sample.builtins) (@str_of_bytes Sample.builtins)
    (@str_of_val Sample.builtins) (@datetime Sample.builtins)
    (fun _ _ => Ok (mkDate 2023 1 2 3 4 5 0))
    (@sub_hours Sample.builtins).

(** A decoded line of the JSON format with this date. *)
Definition json_line (date : string) : gmap string Val :=
  {[ "ip" := VStr "203.0.113.77"; "date" := VStr date;
     "timezone" := VStr "+0200"; "status" := VStr "200";
     "path" := VStr "/index.html" ]}.

(** A format whose [get] only looks a key up. *)
Definition regex_based (f : Format) : Prop :=
  kind f = RegexFormat \/ kind f = W3cExtendedFormat \/ kind f = IisFormat.

(** Every group the match captured is text. *)
Definition text_groups (f : Format) : Prop :=
  forall key v, store f !! key = Some v -> exists s, v = VStr s.

Definition holds_text (v : Val) : bool :=
  match v with
  | VStr _ => true
  | _ => false
  end.

(** A line of the common log format whose month is spelled in
    German. *)
Definition line_of_october : gmap string Val :=
  <["date" := VStr "10/Okt/2000:13:55:36"]>
    (Sample.common_line "203.0.113.77" "200" "/index.html").

(** ** Format detection over a file *)

(** [limit] of [Parser.detect_format]. *)
Definition limit : Z := 100000.

(** The loop of [Parser.detect_format], entered with [lineno] lines
    read; a line is given by what the candidates answer on it. *)
Fixpoint detect_format_from (lineno : Z) (lines : list (string -> Probe))
  : option Format :=
  match lines with
  | [] => None
  | line :: rest =>
      if lineno <? limit then
        match Parser.check_format line with
        | Some format => Some format
        | None => detect_format_from (lineno + 1) rest
        end
      else None
  end.

(** [Parser.detect_format(file)]: the check on the file first, then on
    its lines. *)
Definition detect_format (file : string -> Probe)
    (lines : list (string -> Probe)) : option Format :=
  match Parser.check_format file with
  | Some format => Some format
  | None => detect_format_from 0 lines
  end.

(** ** The host of a hit *)

(** [Recorder._get_host_with_protocol]; [scheme_of] stands for
    [urllib.parse.urlparse(main_url).scheme]. *)
Definition _get_host_with_protocol (scheme_of : string -> string)
    (host main_url : string) : string :=
  if is_substring "://" host then host
  else scheme_of main_url ++ "://" ++ host.

(** ** From the file to the collector *)

(** [Recorder.wait_empty] for [recorders] launched recorders: one
    sentinel each.  The polling that follows only waits until the queue
    is empty or the run is stopped; it is left out. *)
Definition wait_empty {Request : Type} (recorders : nat)
    (w : World Request) : World Request :=
  set_queue (queue w ++ replicate recorders None)%list w.

(** A file of three lines in the common log format: a record, a line
    that does not match, and a page that is neither metadata nor a
    download. *)
Definition three_lines : list Parser.Line :=
  [ Some (Sample.common_line "203.0.113.77" "200" "/record/42");
    None;
    Some (Sample.common_line "203.0.113.77" "200" "/index.html") ].

(** ** A delay that [time.sleep] refuses *)

(** The configuration of the sample with a delay of minus one second. *)
Definition config_negative_delay : Config :=
  mkConfig false "oai:example.org:" 0 "secret" (-1) 3 200%nat false.

(** * Properties *)

(** ** Run state *)

Lemma stop_stopped why (s : State.t) :
  State._stopped s = true -> State.stop why s = s.
Proof. unfold State.stop. intros ->. reflexivity. Qed.

Lemma stop_all_stopped whys (s : State.t) :
  State._stopped s = true -> State.stop_all whys s = s.
Proof.
  revert s. induction whys as [|why whys IH]; intros s Hs; [reflexivity|].
  unfold State.stop_all in *. cbn [fold_left].
  rewrite (stop_stopped why s Hs). apply IH, Hs.
Qed.

(** C9: after [start], whatever the state was before, only the first of a
    sequence of [stop] calls changes the state: it sets the stopped flag
    from false to true and records its reason; every later call, and so
    every longer run of calls, leaves the flag and the reason as the
    first call left them. *)
Theorem C9_first_stop_wins (s0 : State.t) (why : option string)
    (later : list (option string)) :
  State.is_stopped (State.start s0) = false /\
  State.stop why (State.start s0) = State.mk true why /\
  State.stop_all (why :: later) (State.start s0) = State.mk true why /\
  (forall again, State.stop again (State.mk true why) = State.mk true why) /\
  (forall k, State.stop_all (why :: take k later) (State.start s0)
             = State.mk true why).
Proof.
  repeat split.
  - apply (stop_all_stopped later (State.mk true why)). reflexivity.
  - intros k. apply (stop_all_stopped (take k later) (State.mk true why)).
    reflexivity.
Qed.

(** ** Recorder: an empty batch *)

(** C10: when the recorder holds no hit, [_record_hits] returns at once:
    the world (requests sent, delays slept, counters, run state, queue)
    and the recorder are what they were. *)
Theorem C10_empty_flush_is_noop {B : Builtins} {Request : Type}
    (_get_hit_args : Hit.t -> Res (Request * Hit.t)) (cfg : Config)
    (m : Matomo.t Request) (r : Recorder.t) (w : World Request) :
  Recorder.hits r = [] ->
  Recorder._record_hits _get_hit_args cfg m r w = (Ok tt, r, w).
Proof.
  intros Hempty. unfold Recorder._record_hits. rewrite Hempty. reflexivity.
Qed.

Lemma C10_empty_flush_witness :
  Recorder._record_hits (B := Sample.builtins) Sample.hit_args Sample.config
    (Matomo.init Sample.config (fun _ _ => Raise (URLError "unreachable")))
    (Recorder.init Sample.config 0) Sample.world
  = (Ok tt, Recorder.init Sample.config 0, Sample.world).
Proof.
  apply (C10_empty_flush_is_noop (B := Sample.builtins)). reflexivity.
Defined.

(** ** Parser: which hits reach the queue *)

Section Delivery.
Context {B : Builtins} {Request : Type}.

Lemma enqueued_cons result results :
  enqueued (result :: results)
  = (enqueued [result] ++ enqueued results)%list.
Proof.
  unfold enqueued, accepted_hits. cbn [flat_map].
  rewrite app_nil_r, List.filter_app, List.map_app. reflexivity.
Qed.

Lemma eligible_spec (h : Hit.t) :
  Parser.eligible h = true <->
  Hit.is_robot h = false /\ Hit.is_redirect h = false /\
  (Hit.is_meta h = true \/ Hit.is_download h = true).
Proof.
  unfold Parser.eligible.
  destruct (Hit.is_robot h), (Hit.is_redirect h), (Hit.is_meta h),
    (Hit.is_download h); cbn; intuition congruence.
Qed.

Lemma deliver_queue (hit : Hit.t) (w : World Request) :
  (Parser.deliver hit w).1 = Parser.Accepted hit /\
  queue (Parser.deliver hit w).2
  = (queue w ++ enqueued [(Parser.deliver hit w).1])%list.
Proof.
  unfold Parser.deliver, Parser.is_filtered, enqueued, accepted_hits.
  cbn -[Parser.eligible].
  destruct (Parser.eligible hit) eqn:He;
    destruct (negb (Hit.is_robot hit) && negb (Hit.is_redirect hit)
              && Hit.is_meta hit);
    destruct (negb (Hit.is_robot hit) && negb (Hit.is_redirect hit)
              && Hit.is_download hit);
    cbn -[Parser.eligible]; rewrite ?He; cbn;
    rewrite ?app_nil_r; split; reflexivity.
Qed.

Lemma parse_line_queue cfg p filename lineno line f (w : World Request) :
  queue (Parser.parse_line cfg p filename lineno line f w).2
  = match (Parser.parse_line cfg p filename lineno line f w).1.1 with
    | Ok result => (queue w ++ enqueued [result])%list
    | Raise _ => queue w
    end.
Proof.
  unfold Parser.parse_line.
  destruct (_ <=? skip cfg)%Z; [cbn; rewrite app_nil_r; reflexivity|].
  destruct line as [groups|]; [|cbn; rewrite app_nil_r; reflexivity].
  destruct (Parser.normalize _ _ _ _) as [[hit|e] f1]; [|reflexivity].
  destruct (Parser.all_checks _ _ _) as [[[[|] hit1] st]|e];
    [| cbn; rewrite app_nil_r; reflexivity | reflexivity].
  destruct (Parser.read_date _ _) as [[[reason|hit2]|e] f2];
    [cbn; rewrite app_nil_r; reflexivity | | reflexivity].
  match goal with
  | |- context [Parser.deliver ?h ?w0] =>
      pose proof (deliver_queue h w0) as [_ Hq];
      destruct (Parser.deliver h w0) as [result w3]
  end.
  exact Hq.
Qed.

Lemma parse_lines_queue cfg p filename lines :
  forall lineno f (w : World Request),
    queue (Parser.parse_lines cfg p filename lineno lines f w).2
    = (queue w
       ++ enqueued (Parser.parse_lines cfg p filename lineno lines f w).1.1.1)%list.
Proof.
  induction lines as [|line rest IH]; intros lineno f w; cbn [Parser.parse_lines].
  - destruct (State.is_stopped (state w)); cbn; rewrite app_nil_r; reflexivity.
  - destruct (State.is_stopped (state w)); [cbn; rewrite app_nil_r; reflexivity|].
    pose proof (parse_line_queue cfg p filename (lineno + 1) line f w) as Hline.
    destruct (Parser.parse_line cfg p filename (lineno + 1) line f w)
      as [[[result|e] f1] w1]; cbn [fst snd] in Hline.
    + specialize (IH (lineno + 1) f1 w1).
      destruct (Parser.parse_lines cfg p filename (lineno + 1) rest f1 w1)
        as [[[results e] f2] w2]; cbn [fst snd] in *.
      rewrite IH, Hline, (enqueued_cons result results), app_assoc.
      reflexivity.
    + cbn. rewrite app_nil_r. exact Hline.
Qed.

End Delivery.

(** C1: the hits [Parser.parse] puts on the recorder queue are, in file
    order, the hits that came through the checks and the date parsing
    and that are not robot hits, not redirects, and metadata or
    downloads: such a hit is enqueued exactly when it passes that test,
    and nothing else is enqueued. *)
Theorem C1_enqueued_iff_eligible {B : Builtins} {Request : Type}
    (cfg : Config) (p : Parser.t) (filename : string)
    (format : option Format) (lines : list Parser.Line)
    (w : World Request) :
  queue (Parser.parse cfg p filename format lines w).2
  = (queue w
     ++ map Some
          (List.filter Parser.eligible
             (accepted_hits (Parser.parse cfg p filename format lines w).1.1)))%list
  /\ (forall h : Hit.t,
        In (Some h)
           (drop (List.length (queue w))
              (queue (Parser.parse cfg p filename format lines w).2))
        <-> In h (accepted_hits
                    (Parser.parse cfg p filename format lines w).1.1)
            /\ Hit.is_robot h = false /\ Hit.is_redirect h = false
            /\ (Hit.is_meta h = true \/ Hit.is_download h = true))
  /\ (forall (hit : Hit.t) (w0 : World Request),
        (Parser.deliver hit w0).1 = Parser.Accepted hit
        /\ queue (Parser.deliver hit w0).2
           = if Parser.eligible hit then (queue w0 ++ [Some hit])%list
             else queue w0).
Proof.
  assert (Hq : queue (Parser.parse cfg p filename format lines w).2
               = (queue w
                  ++ enqueued
                       (Parser.parse cfg p filename format lines w).1.1)%list).
  { unfold Parser.parse. destruct format as [f|].
    - pose proof (parse_lines_queue cfg p
                    (if bool_decide (filename = "-") then "(stdin)" else filename)
                    lines (-1) f w) as H.
      destruct (Parser.parse_lines _ _ _ _ _ _ _) as [[[results e] f2] w2].
      exact H.
    - cbn. rewrite app_nil_r. reflexivity. }
  split; [exact Hq|]. split.
  - intros h. rewrite Hq, drop_app_length. unfold enqueued.
    rewrite in_map_iff. split.
    + intros [h' [Heq Hin]]. inversion Heq; subst h'.
      apply filter_In in Hin as [Hin He]. split; [exact Hin|].
      apply eligible_spec, He.
    + intros [Hin He]. exists h. split; [reflexivity|].
      apply filter_In. split; [exact Hin|]. apply eligible_spec, He.
  - intros hit w0. pose proof (deliver_queue hit w0) as [Hr Hq0].
    split; [exact Hr|]. rewrite Hq0, Hr. unfold enqueued, accepted_hits.
    cbn [flat_map app List.filter]. destruct (Parser.eligible hit);
      cbn [map]; rewrite ?app_nil_r; reflexivity.
Qed.

(** ** Parser: the fields of a hit *)

Section Fields.
Context {B : Builtins}.

(** Only the two patched keys of the JSON format write to a format. *)
Lemma get_keeps key (f : Format) :
  key <> "generation_time_milli" -> key <> "date" -> (get key f).2 = f.
Proof.
  intros H1 H2. unfold get. destruct (kind f); try reflexivity.
  unfold JsonFormat_get.
  rewrite !bool_decide_eq_false_2 by assumption. reflexivity.
Qed.

Lemma get_split key (f : Format) :
  key <> "generation_time_milli" -> key <> "date" ->
  get key f = ((get key f).1, f).
Proof.
  intros H1 H2. rewrite <- (get_keeps key f H1 H2) at 3.
  destruct (get key f); reflexivity.
Qed.

Ltac read_keeps key :=
  rewrite (get_split key) by discriminate;
  destruct (get key _).1 as [v|e]; cbn;
  repeat match goal with
         | |- context [match ?x with _ => _ end] =>
             lazymatch x with
             | context [match _ with _ => _ end] => fail
             | _ => destruct x; cbn
             end
         end; reflexivity.

Lemma read_or_empty_keeps key (f : Format) :
  key <> "generation_time_milli" -> key <> "date" ->
  (Parser.read_or_empty key f).2 = f.
Proof.
  intros H1 H2. unfold Parser.read_or_empty, Parser.try_except, Parser.ret.
  rewrite (get_split key f H1 H2). destruct (get key f).1; reflexivity.
Qed.

Lemma read_referrer_keeps (f : Format) : (Parser.read_referrer f).2 = f.
Proof.
  unfold Parser.read_referrer, Parser.bind, Parser.try_except, Parser.ret,
    Parser.lift.
  read_keeps "referrer".
Qed.

Lemma read_user_agent_keeps (f : Format) : (Parser.read_user_agent f).2 = f.
Proof.
  unfold Parser.read_user_agent, Parser.bind, Parser.try_except, Parser.ret,
    Parser.lift.
  read_keeps "user_agent".
Qed.

Lemma read_ip_keeps cfg (f : Format) : (Parser.read_ip cfg f).2 = f.
Proof.
  unfold Parser.read_ip, Parser.bind, Parser.ret, Parser.lift.
  read_keeps "ip".
Qed.

Lemma read_length_keeps (f : Format) : (Parser.read_length f).2 = f.
Proof.
  unfold Parser.read_length, Parser.bind, Parser.try_except, Parser.ret,
    Parser.lift.
  read_keeps "length".
Qed.

(** The hit of a matched line holds what the single reads give on the
    format as the match left it, and starts with every flag down. *)
Lemma normalize_fields cfg filename lineno (f g : Format) (hit : Hit.t) :
  Parser.normalize cfg filename lineno f = (Ok hit, g) ->
  (Parser.read_referrer f).1 = Ok (Hit.referrer hit)
  /\ (Parser.read_user_agent f).1 = Ok (Hit.user_agent hit)
  /\ (Parser.read_ip cfg f).1 = Ok (Hit.ip hit)
  /\ (Parser.read_generation_time f).1 = Ok (Hit.generation_time_milli hit)
  /\ Hit.is_meta hit = false /\ Hit.is_download hit = false
  /\ Hit.is_robot hit = false /\ Hit.is_error hit = false
  /\ Hit.is_redirect hit = false.
Proof.
  unfold Parser.normalize. unfold Parser.bind at 1.
  pose proof (read_or_empty_keeps "status" f ltac:(discriminate)
                ltac:(discriminate)) as K1.
  destruct (Parser.read_or_empty "status" f) as [[v1|e] f1];
    cbn in K1; subst f1; [|discriminate].
  unfold Parser.bind at 1.
  pose proof (read_or_empty_keeps "path" f ltac:(discriminate)
                ltac:(discriminate)) as K2.
  destruct (Parser.read_or_empty "path" f) as [[v2|e] f1];
    cbn in K2; subst f1; [|discriminate].
  unfold Parser.bind at 1.
  pose proof (read_referrer_keeps f) as K3.
  destruct (Parser.read_referrer f) as [[v3|e] f1];
    cbn in K3; subst f1; [|discriminate].
  unfold Parser.bind at 1.
  pose proof (read_user_agent_keeps f) as K4.
  destruct (Parser.read_user_agent f) as [[v4|e] f1];
    cbn in K4; subst f1; [|discriminate].
  unfold Parser.bind at 1.
  pose proof (read_ip_keeps cfg f) as K5.
  destruct (Parser.read_ip cfg f) as [[v5|e] f1];
    cbn in K5; subst f1; [|discriminate].
  unfold Parser.bind at 1.
  pose proof (read_length_keeps f) as K6.
  destruct (Parser.read_length f) as [[v6|e] f1];
    cbn in K6; subst f1; [|discriminate].
  unfold Parser.bind at 1.
  destruct (Parser.read_generation_time f) as [[v7|e] f1]; [|discriminate].
  unfold Parser.bind at 1.
  destruct (Parser.read_host f1) as [[v8|e] f2]; [|discriminate].
  unfold Parser.bind at 1.
  destruct (Parser.read_userid f2) as [[v9|e] f3]; [|discriminate].
  unfold Parser.bind at 1.
  destruct (Parser.read_event f3) as [[v10|e] f4]; [|discriminate].
  unfold Parser.ret. intros [= <- _]. cbn. repeat split.
Qed.

End Fields.

(** *** Text lemmas *)

Lemma split_first (sep : ascii) (a rest : string) :
  lacks sep a = true ->
  split sep (a ++ String sep rest) = a :: split sep rest.
Proof.
  induction a as [|d a IH]; simpl; intros Ha.
  - rewrite bool_decide_eq_true_2 by reflexivity. reflexivity.
  - apply andb_prop in Ha as [Hd Ha].
    destruct (bool_decide (d = sep)); [discriminate|].
    rewrite (IH Ha). reflexivity.
Qed.

Lemma drop_last_app (s : string) (c : ascii) :
  drop_last (s ++ String c EmptyString) = s.
Proof.
  induction s as [|d s IH]; [reflexivity|].
  simpl. rewrite IH. destruct s; reflexivity.
Qed.

Lemma strip_quotes_quoted (s : string) :
  Parser.strip_quotes (VStr (quoted s)) = Ok s.
Proof.
  unfold Parser.strip_quotes, quoted, startswith_quote, slice_1_m1.
  rewrite bool_decide_eq_true_2 by reflexivity.
  rewrite drop_last_app. reflexivity.
Qed.

Lemma strip_quotes_plain (s : string) :
  startswith_quote s = false -> Parser.strip_quotes (VStr s) = Ok s.
Proof. unfold Parser.strip_quotes. intros ->. reflexivity. Qed.

Section FieldClaims.
Context {B : Builtins}.

Lemma read_referrer_value (f : Format) :
  (Parser.read_referrer f).1
  = match (get "referrer" f).1 with
    | Ok v =>
        match Parser.strip_quotes v with
        | Ok s => Ok (if bool_decide (s = "-") then "" else s)
        | Raise e => Raise e
        end
    | Raise e => if is_BaseFormatException e then Ok "" else Raise e
    end.
Proof.
  unfold Parser.read_referrer, Parser.bind, Parser.try_except, Parser.ret,
    Parser.lift.
  rewrite (get_split "referrer") by discriminate.
  destruct (get "referrer" f).1 as [v|e]; cbn.
  - destruct (Parser.strip_quotes v) as [s|e] eqn:Hs; cbn; [reflexivity|].
    destruct (is_BaseFormatException e) eqn:He; cbn; [|reflexivity].
    destruct v; cbn in Hs; inversion Hs; subst e; discriminate.
  - destruct (is_BaseFormatException e); reflexivity.
Qed.

Lemma read_user_agent_value (f : Format) :
  (Parser.read_user_agent f).1
  = match (get "user_agent" f).1 with
    | Ok v => Parser.strip_quotes v
    | Raise e => if is_BaseFormatException e then Ok "" else Raise e
    end.
Proof.
  unfold Parser.read_user_agent, Parser.bind, Parser.try_except, Parser.ret,
    Parser.lift.
  rewrite (get_split "user_agent") by discriminate.
  destruct (get "user_agent" f).1 as [v|e]; cbn.
  - destruct (Parser.strip_quotes v) as [s|e] eqn:Hs; cbn; [reflexivity|].
    destruct (is_BaseFormatException e) eqn:He; cbn; [|reflexivity].
    destruct v; cbn in Hs; inversion Hs; subst e; discriminate.
  - destruct (is_BaseFormatException e); reflexivity.
Qed.

Lemma read_ip_value cfg (f : Format) :
  (Parser.read_ip cfg f).1
  = match (get "ip" f).1 with
    | Ok v => if ip_anonymization cfg then Parser.anonymize v else Ok v
    | Raise e => Raise e
    end.
Proof.
  unfold Parser.read_ip, Parser.bind, Parser.ret, Parser.lift.
  rewrite (get_split "ip") by discriminate.
  destruct (get "ip" f).1 as [v|e]; [|reflexivity].
  destruct (ip_anonymization cfg); reflexivity.
Qed.

Lemma anonymize_dotted (a b rest : string) :
  lacks "."%char a = true -> lacks "."%char b = true ->
  Parser.anonymize (VStr (a ++ "." ++ b ++ "." ++ rest))
  = Ok (VStr (a ++ "." ++ b ++ ".0.0")).
Proof.
  intros Ha Hb. unfold Parser.anonymize.
  change (a ++ "." ++ b ++ "." ++ rest)
    with (a ++ String "."%char (b ++ String "."%char rest)).
  rewrite (split_first _ a _ Ha), (split_first _ b _ Hb). reflexivity.
Qed.

Lemma anonymize_example :
  Parser.anonymize (VStr "203.0.113.77") = Ok (VStr "203.0.0.0").
Proof. vm_compute. reflexivity. Qed.

End FieldClaims.

(** C7 (as the code has it): in the hit of a parsed line, a referrer or
    user agent enclosed in double quotes has that one layer removed and
    one that does not start with a quote is taken as it is; a referrer
    that is then the placeholder [-] becomes the empty string; a missing
    referrer or user agent field gives the empty string.  The user agent
    [-] is kept as it is. *)
Theorem C7_referrer_and_user_agent {B : Builtins} (cfg : Config)
    (filename : string) (lineno : Z) (f g : Format) (hit : Hit.t) :
  Parser.normalize cfg filename lineno f = (Ok hit, g) ->
  (forall s, (get "referrer" f).1 = Ok (VStr (quoted s)) ->
             Hit.referrer hit = if bool_decide (s = "-") then "" else s)
  /\ (forall s, (get "referrer" f).1 = Ok (VStr s) ->
                startswith_quote s = false ->
                Hit.referrer hit = if bool_decide (s = "-") then "" else s)
  /\ ((get "referrer" f).1 = Raise BaseFormatException ->
      Hit.referrer hit = "")
  /\ (forall s, (get "user_agent" f).1 = Ok (VStr (quoted s)) ->
                Hit.user_agent hit = s)
  /\ (forall s, (get "user_agent" f).1 = Ok (VStr s) ->
                startswith_quote s = false -> Hit.user_agent hit = s)
  /\ ((get "user_agent" f).1 = Raise BaseFormatException ->
      Hit.user_agent hit = "").
Proof.
  intros Hn.
  destruct (normalize_fields cfg filename lineno f g hit Hn)
    as (Hr & Hu & _).
  rewrite read_referrer_value in Hr. rewrite read_user_agent_value in Hu.
  repeat split.
  - intros s Hs. rewrite Hs, strip_quotes_quoted in Hr. congruence.
  - intros s Hs Hq. rewrite Hs, (strip_quotes_plain s Hq) in Hr. congruence.
  - intros Hs. rewrite Hs in Hr. cbn in Hr. congruence.
  - intros s Hs. rewrite Hs, strip_quotes_quoted in Hu. congruence.
  - intros s Hs Hq. rewrite Hs, (strip_quotes_plain s Hq) in Hu. congruence.
  - intros Hs. rewrite Hs in Hu. cbn in Hu. congruence.
Qed.

(** C8: with IP anonymization on, the client address 203.0.113.77 becomes
    203.0.0.0 in the hit, and every address of at least three dotted
    parts keeps its first two parts followed by two zero parts; with
    anonymization off the hit holds the extracted value unchanged. *)
Theorem C8_ip_anonymization {B : Builtins} (cfg : Config)
    (filename : string) (lineno : Z) (f g : Format) (hit : Hit.t)
    (v : Val) :
  Parser.normalize cfg filename lineno f = (Ok hit, g) ->
  (get "ip" f).1 = Ok v ->
  (ip_anonymization cfg = false -> Hit.ip hit = v)
  /\ (ip_anonymization cfg = true -> v = VStr "203.0.113.77" ->
      Hit.ip hit = VStr "203.0.0.0")
  /\ (ip_anonymization cfg = true ->
      forall a b rest,
        lacks "."%char a = true -> lacks "."%char b = true ->
        v = VStr (a ++ "." ++ b ++ "." ++ rest) ->
        Hit.ip hit = VStr (a ++ "." ++ b ++ ".0.0")).
Proof.
  intros Hn Hv.
  destruct (normalize_fields cfg filename lineno f g hit Hn)
    as (_ & _ & Hi & _).
  rewrite read_ip_value, Hv in Hi.
  repeat split.
  - intros Hoff. rewrite Hoff in Hi. congruence.
  - intros Hon ->. rewrite Hon, anonymize_example in Hi. congruence.
  - intros Hon a b rest Ha Hb ->. rewrite Hon in Hi.
    rewrite (anonymize_dotted a b rest Ha Hb) in Hi. congruence.
Qed.

Lemma C7_referrer_and_user_agent_witness :
  let f :=
    with_store
      (Sample.ncsa_line (quoted "http://example.org/") (quoted "Mozilla/5.0"))
      Sample.ncsa_extended in
  let hit := Sample.plain_hit "http://example.org/" "Mozilla/5.0"
               "203.0.113.77" in
  Parser.normalize (B := Sample.builtins) Sample.config "access.log" 0 f
  = (Ok hit, f)
  /\ (get (B := Sample.builtins) "referrer" f).1
     = Ok (VStr (quoted "http://example.org/"))
  /\ (get (B := Sample.builtins) "user_agent" f).1
     = Ok (VStr (quoted "Mozilla/5.0"))
  /\ Hit.referrer hit = "http://example.org/"
  /\ Hit.user_agent hit = "Mozilla/5.0".
Proof.
  intros f hit.
  assert (Hn : Parser.normalize (B := Sample.builtins) Sample.config
                 "access.log" 0 f = (Ok hit, f))
    by (vm_compute; reflexivity).
  assert (Hr : (get (B := Sample.builtins) "referrer" f).1
               = Ok (VStr (quoted "http://example.org/")))
    by (vm_compute; reflexivity).
  assert (Hu : (get (B := Sample.builtins) "user_agent" f).1
               = Ok (VStr (quoted "Mozilla/5.0")))
    by (vm_compute; reflexivity).
  destruct (C7_referrer_and_user_agent _ _ _ _ _ _ Hn)
    as (Cr & _ & _ & Cu & _).
  exact (conj Hn (conj Hr (conj Hu
           (conj (Cr "http://example.org/" Hr) (Cu "Mozilla/5.0" Hu))))).
Defined.

(** C7, as stated, fails for the user agent: on a line whose referrer and
    user agent are both the placeholder [-], the hit has the empty
    referrer but the user agent [-]. *)
Lemma C7_user_agent_placeholder_is_kept :
  let line := Sample.ncsa_line "-" "-" in
  exists (hit : Hit.t) (g : Format),
    Parser.normalize (B := Sample.builtins) Sample.config "access.log" 0
      (with_store line Sample.ncsa_extended) = (Ok hit, g)
    /\ Hit.referrer hit = ""
    /\ Hit.user_agent hit = "-"
    /\ Hit.user_agent hit <> "".
Proof.
  intros line. eexists. eexists.
  split; [vm_compute; reflexivity|].
  repeat split. discriminate.
Qed.

Lemma C8_ip_anonymization_witness :
  let f :=
    with_store (Sample.common_line "203.0.113.77" "200" "/index.html")
      Sample.common in
  let hit := Sample.plain_hit "" "" "203.0.0.0" in
  Parser.normalize (B := Sample.builtins) Sample.config_anonymizing
    "access.log" 0 f = (Ok hit, f)
  /\ (get (B := Sample.builtins) "ip" f).1 = Ok (VStr "203.0.113.77")
  /\ Hit.ip hit = VStr "203.0.0.0".
Proof.
  intros f hit.
  assert (Hn : Parser.normalize (B := Sample.builtins)
                 Sample.config_anonymizing "access.log" 0 f = (Ok hit, f))
    by (vm_compute; reflexivity).
  assert (Hv : (get (B := Sample.builtins) "ip" f).1
               = Ok (VStr "203.0.113.77"))
    by (vm_compute; reflexivity).
  destruct (C8_ip_anonymization _ _ _ _ _ _ _ Hn Hv) as (_ & Hex & _).
  exact (conj Hn (conj Hv (Hex eq_refl eq_refl))).
Defined.

(** ** Parser: the HTTP status checks *)

Lemma digit_cases (x : Z) :
  0 <= x <= 9 ->
  x = 0 \/ x = 1 \/ x = 2 \/ x = 3 \/ x = 4 \/ x = 5 \/ x = 6 \/ x = 7
  \/ x = 8 \/ x = 9.
Proof. lia. Qed.

Ltac each_digit H :=
  apply digit_cases in H;
  repeat (destruct H as [H|H]); subst.

Section StatusChecks.

(** What the two checks do for any status that is text: only its first
    character counts, plus the comparison with [304]. *)
Lemma check_http_error_first_char (h : Hit.t) st c rest d :
  Hit.status h = VStr (String c rest) -> int_of_char c = Ok d ->
  Parser.check_http_error h st
  = Ok (true,
        if (4 <=? d) && (d <=? 5) then Hit.set_is_error true h else h, st).
Proof.
  intros Hs Hd. unfold Parser.check_http_error. rewrite Hs. cbn.
  rewrite Hd. destruct ((4 <=? d) && (d <=? 5)); reflexivity.
Qed.

Lemma check_http_redirect_first_char (h : Hit.t) st c rest :
  Hit.status h = VStr (String c rest) ->
  Parser.check_http_redirect h st
  = Ok (true,
        if bool_decide (c = "3"%char)
           && negb (bool_decide (String c rest = "304"))
        then Hit.set_is_redirect true h else h, st).
Proof.
  intros Hs. unfold Parser.check_http_redirect. rewrite Hs. cbn.
  destruct (bool_decide (c = "3"%char)
            && negb (bool_decide (String c rest = "304"))); reflexivity.
Qed.

Lemma three_digits_code x y z :
  0 <= x <= 9 -> 0 <= y <= 9 -> 0 <= z <= 9 ->
  decimal_value (three_digits x y z) = Some (100 * x + 10 * y + z)
  /\ int_of_char (digit_char x) = Ok x
  /\ bool_decide (digit_char x = "3"%char) = (x =? 3)
  /\ bool_decide (three_digits x y z = "304")
     = (100 * x + 10 * y + z =? 304).
Proof.
  intros Hx Hy Hz. each_digit Hx; each_digit Hy; each_digit Hz;
    vm_compute; repeat split.
Qed.

End StatusChecks.

(** A line of a format without a status field gets the empty status,
    on which both checks raise instead of answering. *)
Lemma checks_raise_on_empty_status :
  Parser.check_http_error (Sample.hit_with_status "") Statistics.init
  = Raise IndexError
  /\ Parser.check_http_redirect (Sample.hit_with_status "") Statistics.init
     = Raise IndexError.
Proof. split; reflexivity. Qed.

(** C6 (as the code has it): for a hit whose status is a three-digit
    code, [check_http_error] raises [is_error] exactly when the code is
    between 400 and 599 and [check_http_redirect] raises [is_redirect]
    exactly when it is between 300 and 399 and is not 304; they change
    nothing else and both answer [True].  For any status text the tests
    read the first character only: a 4 or a 5 there marks an error, a 3
    (the text not being 304) a redirect. *)
Theorem C6_http_status_checks (h : Hit.t)
    (st : Statistics.t) (x y z : Z) :
  0 <= x <= 9 -> 0 <= y <= 9 -> 0 <= z <= 9 ->
  Hit.status h = VStr (three_digits x y z) ->
  status_code (Hit.status h) = Some (100 * x + 10 * y + z)
  /\ Parser.check_http_error h st
     = Ok (true,
           if status_between 400 599 (Hit.status h)
           then Hit.set_is_error true h else h, st)
  /\ Parser.check_http_redirect h st
     = Ok (true,
           if status_between 300 399 (Hit.status h)
              && negb (100 * x + 10 * y + z =? 304)
           then Hit.set_is_redirect true h else h, st)
  /\ (forall c rest d (h' : Hit.t),
        Hit.status h' = VStr (String c rest) -> int_of_char c = Ok d ->
        Parser.check_http_error h' st
        = Ok (true,
              if (4 <=? d) && (d <=? 5) then Hit.set_is_error true h'
              else h', st))
  /\ (forall c rest (h' : Hit.t),
        Hit.status h' = VStr (String c rest) ->
        Parser.check_http_redirect h' st
        = Ok (true,
              if bool_decide (c = "3"%char)
                 && negb (bool_decide (String c rest = "304"))
              then Hit.set_is_redirect true h' else h', st)).
Proof.
  intros Hx Hy Hz Hs.
  destruct (three_digits_code x y z Hx Hy Hz) as (Hcode & Hint & H3 & H304).
  split; [rewrite Hs; exact Hcode|].
  split.
  { rewrite (check_http_error_first_char h st _ _ x Hs Hint).
    unfold status_between, status_code. rewrite Hs, Hcode.
    replace ((400 <=? 100 * x + 10 * y + z) && (100 * x + 10 * y + z <=? 599))
      with ((4 <=? x) && (x <=? 5)); [reflexivity|].
    destruct (Z.leb_spec 4 x), (Z.leb_spec x 5),
      (Z.leb_spec 400 (100 * x + 10 * y + z)),
      (Z.leb_spec (100 * x + 10 * y + z) 599); cbn; lia. }
  split.
  { rewrite (check_http_redirect_first_char h st _ _ Hs).
    fold (three_digits x y z). rewrite H3, H304.
    unfold status_between, status_code. rewrite Hs, Hcode.
    replace ((300 <=? 100 * x + 10 * y + z) && (100 * x + 10 * y + z <=? 399))
      with (x =? 3); [reflexivity|].
    destruct (Z.eqb_spec x 3),
      (Z.leb_spec 300 (100 * x + 10 * y + z)),
      (Z.leb_spec (100 * x + 10 * y + z) 399); cbn; lia. }
  split.
  - intros c rest d h' Hs' Hd. apply (check_http_error_first_char h' st c rest d Hs' Hd).
  - intros c rest h' Hs'. apply (check_http_redirect_first_char h' st c rest Hs').
Qed.

Lemma C6_http_status_checks_witness :
  let h := Sample.hit_with_status "404" in
  Hit.status h = VStr (three_digits 4 0 4)
  /\ Parser.check_http_error h Statistics.init
     = Ok (true, Hit.set_is_error true h, Statistics.init)
  /\ Parser.check_http_redirect h Statistics.init
     = Ok (true, h, Statistics.init).
Proof.
  intros h.
  assert (Hs : Hit.status h = VStr (three_digits 4 0 4)) by reflexivity.
  destruct (C6_http_status_checks h Statistics.init 4 0 4
              ltac:(lia) ltac:(lia) ltac:(lia) Hs)
    as (_ & He & Hr & _).
  exact (conj Hs (conj He Hr)).
Defined.

(** C6, as stated, fails outside the three-digit codes: the status text
    4000 is not between 400 and 599, yet [check_http_error] marks the
    hit as an error. *)
Lemma C6_first_digit_only :
  let h := Sample.hit_with_status "4000" in
  Parser.check_http_error h Statistics.init
  = Ok (true, Hit.set_is_error true h, Statistics.init)
  /\ Hit.is_error (Hit.set_is_error true h) = true
  /\ status_code (Hit.status h) = Some 4000
  /\ status_between 400 599 (Hit.status h) = false.
Proof. intros h. vm_compute. repeat split. Qed.

(** ** Parser: the generation time *)

Section GenerationTime.
Context {B : Builtins}.

Lemma get_regex_based key (f : Format) :
  kind f <> JsonFormat ->
  key <> "user_agent" -> key <> "status" -> key <> "event_category" ->
  get key f = (RegexFormat_get key f, f).
Proof.
  intros Hk H1 H2 H3. unfold get.
  destruct (kind f); try reflexivity; [| |congruence].
  - unfold ShoutcastFormat_get.
    rewrite bool_decide_eq_false_2 by assumption. reflexivity.
  - unfold AmazonCloudFrontFormat_get.
    rewrite (bool_decide_eq_false_2 (key = "event_category")),
      (bool_decide_eq_false_2 (key = "status")),
      (bool_decide_eq_false_2 (key = "user_agent")) by assumption.
    reflexivity.
Qed.

Lemma read_float_text key (f : Format) :
  kind f <> JsonFormat -> time_fields_are_text f ->
  key = "generation_time_milli" \/ key = "generation_time_micro"
  \/ key = "generation_time_secs" ->
  exists r,
    Parser.read_float key f = (r, f)
    /\ match numeric_field f key with
       | Some x => r = Ok x
       | None => exists e, r = Raise e
                           /\ is_ValueError_or_BaseFormatException e = true
       end.
Proof.
  intros Hk Ht Hkey.
  unfold Parser.read_float, Parser.bind, Parser.lift.
  rewrite get_regex_based
    by (try assumption; destruct Hkey as [->|[->| ->]]; discriminate).
  unfold RegexFormat_get, numeric_field.
  destruct (store f !! key) as [v|] eqn:Hv.
  - destruct (Ht key v Hv Hkey) as [s ->]. cbn.
    destruct (py_float_str s) as [x|]; eexists; split; try reflexivity.
    eexists; split; reflexivity.
  - eexists; split; [reflexivity|]. eexists; split; reflexivity.
Qed.

Lemma read_generation_time_regex (f : Format) :
  kind f <> JsonFormat -> time_fields_are_text f ->
  Parser.read_generation_time f = (Ok (generation_time_of f), f).
Proof.
  intros Hk Ht.
  destruct (read_float_text "generation_time_milli" f Hk Ht ltac:(auto))
    as (r1 & E1 & S1).
  destruct (read_float_text "generation_time_micro" f Hk Ht ltac:(auto))
    as (r2 & E2 & S2).
  destruct (read_float_text "generation_time_secs" f Hk Ht ltac:(auto))
    as (r3 & E3 & S3).
  unfold Parser.read_generation_time, Parser.try_except, Parser.bind,
    Parser.ret, generation_time_of.
  rewrite E1.
  destruct (numeric_field f "generation_time_milli") as [ms|];
    [subst r1; reflexivity|].
  destruct S1 as (e1 & -> & ->). rewrite E2.
  destruct (numeric_field f "generation_time_micro") as [us|];
    [subst r2; reflexivity|].
  destruct S2 as (e2 & -> & ->). rewrite E3.
  destruct (numeric_field f "generation_time_secs") as [secs|];
    [subst r3; reflexivity|].
  destruct S3 as (e3 & -> & ->). reflexivity.
Qed.

(** [float(n)] of an integer raises nothing the normaliser handles. *)
Lemma float_of_val_int_handled (n : Z) (e : Exc) :
  float_of_val (VInt n) = Raise e ->
  is_ValueError_or_BaseFormatException e = false.
Proof.
  unfold float_of_val. cbv zeta.
  destruct (Prim2SF (float_of_Z n)); intros [= <-]; reflexivity.
Qed.

(** The JSON format scales its [generation_time_milli] field by 1000
    and truncates before the hit reads it: the field is overwritten
    with [int(float(v) * 1000)], and the hit reads the [float] of that
    integer. *)
Lemma read_generation_time_json (f : Format) (v : Val) (x : float) (n : Z) :
  kind f = JsonFormat ->
  store f !! "generation_time_milli" = Some v ->
  float_of_val v = Ok x ->
  int_of_float (PrimFloat.mul x (float_of_Z 1000)) = Ok n ->
  Parser.read_generation_time f
  = (float_of_val (VInt n),
     with_store (<["generation_time_milli" := VInt n]> (store f)) f).
Proof.
  intros Hk Hv Hx Hn.
  unfold Parser.read_generation_time, Parser.try_except, Parser.read_float,
    Parser.bind, Parser.lift, get.
  rewrite Hk. unfold JsonFormat_get.
  rewrite bool_decide_eq_true_2 by reflexivity.
  rewrite Hv, Hx, Hn. cbv zeta.
  replace (store (with_store (<["generation_time_milli" := VInt n]> (store f)) f)
           !! "generation_time_milli") with (Some (VInt n))
    by (destruct f; cbn; rewrite lookup_insert_eq; reflexivity).
  destruct (float_of_val (VInt n)) as [r|e] eqn:Hr; [reflexivity|].
  rewrite (float_of_val_int_handled n e Hr). reflexivity.
Qed.

Lemma read_generation_time_json_150 :
  (Parser.read_generation_time
     (with_store {[ "generation_time_milli" := VInt 150 ]}
        (new_JsonFormat "nginx_json"))).1
  = Ok (float_of_Z 150000).
Proof. vm_compute. reflexivity. Qed.

End GenerationTime.

(** A JSON line without the field: the patch looks it up before the
    [try] of the lookup proper, and the [KeyError] is not one the hit
    normaliser handles. *)
Lemma json_without_generation_time_raises {B : Builtins} :
  (Parser.read_generation_time
     (with_store ∅ (new_JsonFormat "nginx_json"))).1
  = Raise (KeyError "generation_time_milli").
Proof. reflexivity. Qed.

(** C5 (as the code has it): for the formats that read their fields from
    regex groups, the generation time of the hit is the milliseconds
    field when it is there and numeric, else the microseconds field over
    1000 when that one is there and numeric, else the seconds field times
    1000 when that one is, else 0: 150 milliseconds give 150, 150000
    microseconds give 150, 0.15 seconds give 150, no field gives 0.  The
    JSON format multiplies its [generation_time_milli] field by 1000
    and truncates the product to an integer first (150 gives 150000):
    whatever the field [v] of a JSON line, when [float(v)] is [x] and
    [int(x * 1000)] is [n], the field is overwritten with [n], the
    generation time read is [float(n)], and that is the generation time
    of the hit of the line. *)
Theorem C5_generation_time {B : Builtins} (cfg : Config)
    (filename : string) (lineno : Z) (f g : Format) (hit : Hit.t) :
  kind f <> JsonFormat -> time_fields_are_text f ->
  Parser.normalize cfg filename lineno f = (Ok hit, g) ->
  Hit.generation_time_milli hit = generation_time_of f
  /\ Parser.read_generation_time f = (Ok (generation_time_of f), f)
  /\ generation_time_of (B := Sample.builtins)
       (with_store {[ "generation_time_milli" := VStr "150" ]} Sample.common)
     = float_of_Z 150
  /\ generation_time_of (B := Sample.builtins)
       (with_store {[ "generation_time_micro" := VStr "150000" ]}
          Sample.common)
     = float_of_Z 150
  /\ generation_time_of (B := Sample.builtins)
       (with_store {[ "generation_time_secs" := VStr "0.15" ]} Sample.common)
     = float_of_Z 150
  /\ generation_time_of (with_store ∅ Sample.common) = float_of_Z 0
  /\ (Parser.read_generation_time
        (with_store {[ "generation_time_milli" := VInt 150 ]}
           (new_JsonFormat "nginx_json"))).1
     = Ok (float_of_Z 150000)
  /\ (forall (j j' : Format) (v : Val) (x : float) (n : Z) (hit' : Hit.t),
        kind j = JsonFormat ->
        store j !! "generation_time_milli" = Some v ->
        float_of_val v = Ok x ->
        int_of_float (PrimFloat.mul x (float_of_Z 1000)) = Ok n ->
        Parser.read_generation_time j
        = (float_of_val (VInt n),
           with_store (<["generation_time_milli" := VInt n]> (store j)) j)
        /\ (Parser.normalize cfg filename lineno j = (Ok hit', j') ->
            float_of_val (VInt n) = Ok (Hit.generation_time_milli hit'))).
Proof.
  intros Hk Ht Hn.
  pose proof (read_generation_time_regex f Hk Ht) as Hg.
  destruct (normalize_fields cfg filename lineno f g hit Hn)
    as (_ & _ & _ & Hh & _).
  rewrite Hg in Hh. cbn in Hh.
  split; [congruence|]. split; [exact Hg|].
  split; [vm_compute; reflexivity|].
  split; [vm_compute; reflexivity|].
  split; [vm_compute; reflexivity|].
  split; [vm_compute; reflexivity|].
  split; [apply read_generation_time_json_150|].
  intros j j' v x n hit' Hj Hv Hx Hi.
  pose proof (read_generation_time_json j v x n Hj Hv Hx Hi) as Hr.
  split; [exact Hr|]. intros Hnj.
  destruct (normalize_fields cfg filename lineno j j' hit' Hnj)
    as (_ & _ & _ & Hhj & _).
  rewrite Hr in Hhj. exact Hhj.
Qed.

(** C5, as stated, fails for the JSON format: a line whose
    [generation_time_milli] field is 150 gives a hit with a generation
    time of 150000, not 150. *)
Lemma C5_json_milliseconds_are_scaled :
  (Parser.read_generation_time (B := Sample.builtins)
     (with_store {[ "generation_time_milli" := VInt 150 ]}
        (new_JsonFormat "nginx_json"))).1
  = Ok (float_of_Z 150000)
  /\ float_of_Z 150000 <> float_of_Z 150.
Proof.
  split; [vm_compute; reflexivity|].
  intros H. apply (f_equal int_of_float) in H. vm_compute in H. discriminate.
Qed.

Lemma timed_line_fields_are_text :
  time_fields_are_text (with_store (Sample.timed_line "0.15") Sample.common).
Proof.
  intros key v Hl [->|[->| ->]]; vm_compute in Hl; try discriminate.
  injection Hl as <-. eexists. reflexivity.
Defined.

Lemma C5_generation_time_witness :
  let f := with_store (Sample.timed_line "0.15") Sample.common in
  let hit := Sample.timed_hit (float_of_Z 150) in
  kind f <> JsonFormat
  /\ time_fields_are_text f
  /\ Parser.normalize (B := Sample.builtins) Sample.config "access.log" 0 f
     = (Ok hit, f)
  /\ Hit.generation_time_milli hit
     = generation_time_of (B := Sample.builtins) f
  /\ Parser.read_generation_time (B := Sample.builtins)
       (with_store {[ "generation_time_milli" := VFloat 0x1p-9 ]}
          (new_JsonFormat "nginx_json"))
     = (Ok (float_of_Z 1),
        with_store {[ "generation_time_milli" := VInt 1 ]}
          (new_JsonFormat "nginx_json")).
Proof.
  intros f hit.
  assert (Hk : kind f <> JsonFormat) by discriminate.
  assert (Hn : Parser.normalize (B := Sample.builtins) Sample.config
                 "access.log" 0 f = (Ok hit, f))
    by (vm_compute; reflexivity).
  destruct (C5_generation_time (B := Sample.builtins) Sample.config
              "access.log" 0 f f hit Hk timed_line_fields_are_text Hn)
    as (Hh & _ & _ & _ & _ & _ & _ & Hj).
  set (j := with_store {[ "generation_time_milli" := VFloat 0x1p-9 ]}
              (new_JsonFormat "nginx_json")).
  assert (Hv : store j !! "generation_time_milli" = Some (VFloat 0x1p-9))
    by (vm_compute; reflexivity).
  assert (Hi : int_of_float (PrimFloat.mul 0x1p-9 (float_of_Z 1000)) = Ok 1)
    by (vm_compute; reflexivity).
  destruct (Hj j j (VFloat 0x1p-9) 0x1p-9%float 1 hit eq_refl Hv eq_refl Hi)
    as [Hr _].
  assert (Hr' : Parser.read_generation_time (B := Sample.builtins) j
                = (Ok (float_of_Z 1),
                   with_store {[ "generation_time_milli" := VInt 1 ]}
                     (new_JsonFormat "nginx_json")))
    by (rewrite Hr; vm_compute; reflexivity).
  exact (conj Hk (conj timed_line_fields_are_text (conj Hn (conj Hh Hr')))).
Defined.

(** ** Parser: format detection *)

Lemma first_greatest_none {A} (l : list (nat * A)) :
  first_greatest l = None -> l = [].
Proof.
  destruct l as [|[n a] rest]; [reflexivity|]. cbn [first_greatest].
  destruct (first_greatest rest) as [[m b]|]; [|discriminate].
  destruct (n <? m)%nat; discriminate.
Qed.

Lemma first_greatest_spec {A} (l : list (nat * A)) n a :
  first_greatest l = Some (n, a) ->
  exists before after,
    l = (before ++ (n, a) :: after)%list
    /\ Forall (fun x => (x.1 < n)%nat) before
    /\ Forall (fun x => (x.1 <= n)%nat) after.
Proof.
  revert n a. induction l as [|[m b] rest IH]; intros n a H; [discriminate|].
  cbn [first_greatest] in H.
  destruct (first_greatest rest) as [[k c]|] eqn:Hrest.
  - destruct (Nat.ltb_spec m k).
    + injection H as <- <-.
      destruct (IH k c eq_refl) as (before & after & -> & Hb & Ha).
      exists ((m, b) :: before), after. repeat split; [|exact Ha].
      constructor; [exact H0|exact Hb].
    + injection H as <- <-.
      destruct (IH k c eq_refl) as (before & after & -> & Hb & Ha).
      exists [], (before ++ (k, c) :: after)%list.
      repeat split; [constructor|].
      apply Forall_app. split.
      * eapply Forall_impl; [exact Hb|]. cbn. intros; lia.
      * constructor; [cbn; lia|].
        eapply Forall_impl; [exact Ha|]. cbn. intros; lia.
  - injection H as <- <-. exists [], rest. repeat split; [constructor|].
    rewrite (first_greatest_none rest Hrest). constructor.
Qed.

Lemma check_format_fold (probe : string -> Probe)
    (catalog : list (string * Format)) :
  (forall entry, In entry catalog -> entry.1 <> "ovh" ->
                 probe entry.1 <> Truthy) ->
  forall (cur : option Format) (g : nat),
    fold_left (Parser.check_format_step probe) catalog (cur, g)
    = match first_greatest (regex_matches catalog probe) with
      | Some (m, f) => if (g <? m)%nat then (Some f, m) else (cur, g)
      | None => (cur, g)
      end.
Proof.
  induction catalog as [|[name fmt] rest IH]; intros Hno cur g;
    [reflexivity|].
  assert (Hrest : forall entry, In entry rest -> entry.1 <> "ovh" ->
                                probe entry.1 <> Truthy)
    by (intros entry Hin; apply Hno; right; exact Hin).
  cbn [fold_left]. unfold Parser.check_format_step at 2.
  unfold regex_matches. cbn [flat_map fst snd]. fold (regex_matches rest probe).
  destruct (bool_decide (name = "ovh")) eqn:Hovh.
  - cbn [app]. apply IH, Hrest.
  - apply bool_decide_eq_false in Hovh.
    pose proof (Hno (name, fmt) (or_introl eq_refl) Hovh) as Hnt. cbn in Hnt.
    destruct (probe name) as [|n|]; [| |congruence].
    + cbn [app]. apply IH, Hrest.
    + cbn [app first_greatest].
      destruct (Nat.ltb_spec g n) as [Hlt|Hge].
      * rewrite (IH Hrest).
        destruct (first_greatest (regex_matches rest probe)) as [[m f]|].
        -- destruct (Nat.ltb_spec n m) as [H1|H1].
           ++ rewrite (proj2 (Nat.ltb_lt g m)) by lia. reflexivity.
           ++ rewrite (proj2 (Nat.ltb_lt g n)) by lia. reflexivity.
        -- rewrite (proj2 (Nat.ltb_lt g n)) by lia. reflexivity.
      * rewrite (IH Hrest).
        destruct (first_greatest (regex_matches rest probe)) as [[m f]|].
        -- destruct (Nat.ltb_spec n m) as [H1|H1]; [reflexivity|].
           rewrite (proj2 (Nat.ltb_ge g n)) by lia.
           rewrite (proj2 (Nat.ltb_ge g m)) by lia. reflexivity.
        -- rewrite (proj2 (Nat.ltb_ge g n)) by lia. reflexivity.
Qed.

Lemma check_format_in_regex (probe : string -> Probe)
    (catalog : list (string * Format)) :
  (forall entry, In entry catalog -> entry.1 <> "ovh" ->
                 probe entry.1 <> Truthy) ->
  Parser.check_format_in catalog probe = best_regex_match catalog probe.
Proof.
  intros Hno. unfold Parser.check_format_in, best_regex_match.
  rewrite (check_format_fold probe catalog Hno).
  destruct (first_greatest (regex_matches catalog probe)) as [[m f]|];
    [|reflexivity].
  destruct (0 <? m)%nat; reflexivity.
Qed.

(** The catalog ends with the JSON variant and the OVH one. *)
Lemma FORMATS_ends :
  FORMATS = (take 11 FORMATS
             ++ [("nginx_json", new_JsonFormat "nginx_json");
                 ("ovh", new_RegexFormat "ovh" None)])%list.
Proof. reflexivity. Qed.

Lemma check_format_json (probe : string -> Probe) :
  probe "nginx_json" = Truthy ->
  Parser.check_format probe = Some (new_JsonFormat "nginx_json").
Proof.
  intros Hj. unfold Parser.check_format, Parser.check_format_in.
  rewrite FORMATS_ends, fold_left_app.
  destruct (fold_left (Parser.check_format_step probe) (take 11 FORMATS)
              (None, 0%nat)) as [cur g].
  cbn [fold_left]. unfold Parser.check_format_step.
  rewrite bool_decide_eq_false_2 by discriminate. rewrite Hj.
  rewrite bool_decide_eq_true_2 by reflexivity. reflexivity.
Qed.

Lemma check_format_ignores_ovh (probe probe' : string -> Probe) :
  (forall name, name <> "ovh" -> probe name = probe' name) ->
  Parser.check_format probe = Parser.check_format probe'.
Proof.
  intros Hsame. unfold Parser.check_format, Parser.check_format_in.
  f_equal. generalize (@None Format, 0%nat).
  induction FORMATS as [|[name fmt] rest IH]; intros acc; [reflexivity|].
  cbn [fold_left]. rewrite <- IH. f_equal.
  unfold Parser.check_format_step. destruct acc as [cur g].
  destruct (bool_decide (name = "ovh")) eqn:Hovh; [reflexivity|].
  apply bool_decide_eq_false in Hovh. rewrite (Hsame name Hovh). reflexivity.
Qed.

(** C4 (as the code has it): detection goes through every catalog
    variant except the OVH one, whatever that one would answer.  When
    the JSON variant matches, it is the result, whatever else matches.
    Otherwise the result is the first variant, in catalog order, among
    those whose regex match has the greatest number of groups, provided
    that number is not zero; there is no result when no match has a
    group. *)
Theorem C4_check_format (probe : string -> Probe) :
  (forall name, probe name = Truthy -> name = "nginx_json") ->
  (probe "nginx_json" = Truthy ->
   Parser.check_format probe = Some (new_JsonFormat "nginx_json"))
  /\ (probe "nginx_json" <> Truthy ->
      Parser.check_format probe = best_regex_match FORMATS probe)
  /\ (forall probe' : string -> Probe,
        (forall name, name <> "ovh" -> probe name = probe' name) ->
        Parser.check_format probe = Parser.check_format probe')
  /\ (forall n f,
        first_greatest (regex_matches FORMATS probe) = Some (n, f) ->
        exists before after,
          regex_matches FORMATS probe = (before ++ (n, f) :: after)%list
          /\ Forall (fun x => (x.1 < n)%nat) before
          /\ Forall (fun x => (x.1 <= n)%nat) after).
Proof.
  intros Honly. split; [apply check_format_json|]. split.
  - intros Hj. apply check_format_in_regex.
    intros entry _ _ Ht. apply Hj. rewrite <- (Honly _ Ht). exact Ht.
  - split; [apply check_format_ignores_ovh|].
    intros n f. apply first_greatest_spec.
Qed.

Lemma probe_ncsa_never_truthy (name : string) :
  probe_ncsa name = Truthy -> name = "nginx_json".
Proof.
  unfold probe_ncsa. repeat case_bool_decide; discriminate.
Qed.

Lemma C4_check_format_witness :
  probe_ncsa "nginx_json" <> Truthy
  /\ Parser.check_format probe_ncsa
     = Some (new_RegexFormat "ncsa_extended" None).
Proof.
  assert (Hj : probe_ncsa "nginx_json" <> Truthy) by discriminate.
  split; [exact Hj|].
  exact (eq_trans
           (proj1 (proj2 (C4_check_format probe_ncsa probe_ncsa_never_truthy))
              Hj)
           eq_refl).
Defined.

(** C4, as stated, fails when the matches have no group: on a line that
    the four W3C variants match with a pattern without groups and no
    other variant matches, the words of the specification elect the
    first of them, and the code elects none. *)
Lemma C4_match_without_groups_is_dropped :
  Parser.check_format probe_without_groups = None
  /\ (forall json_fields,
        best_match json_fields probe_without_groups
        = Some (new_W3c "w3c_extended" W3cExtendedFormat)).
Proof. split; [reflexivity|]. intros json_fields. reflexivity. Qed.

(** A JSON line that a W3C pattern matches as well: the JSON variant is
    elected although the W3C match has a group. *)
Lemma check_format_json_overrides :
  Parser.check_format probe_json_and_w3c = Some (new_JsonFormat "nginx_json")
  /\ best_regex_match FORMATS probe_json_and_w3c
     = Some (new_W3c "w3c_extended" W3cExtendedFormat).
Proof. split; reflexivity. Qed.

(** ** Matomo: the retry wrapper *)

Section Retry.
Context {B : Builtins} {Request : Type}.

Lemma _call_wrapper_from_unfold (cfg : Config)
    (func : Data Request -> World Request -> Res string * World Request)
    expected_response on_failure errors data w :
  Matomo._call_wrapper_from cfg func expected_response on_failure errors
    data w
  = match Matomo.attempt func expected_response on_failure data w with
    | (Matomo.Returned response, data1, w1) => (Ok response, data1, w1)
    | (Matomo.Propagated e, data1, w1) => (Raise e, data1, w1)
    | (Matomo.Failed message code, data1, w1) =>
        if Z_lt_dec (Z.of_nat (S errors)) (default_max_attempts cfg)
        then
          match time_sleep (delay_after_failure cfg) w1 with
          | (Ok _, w2) =>
              Matomo._call_wrapper_from cfg func expected_response
                on_failure (S errors) data1 w2
          | (Raise e, w2) => (Raise e, data1, w2)
          end
        else (Raise (MatomoError message code), data1, w1)
    end.
Proof.
  rewrite Matomo._call_wrapper_from_equation_1.
  destruct (Matomo.attempt func expected_response on_failure data w)
    as [[[response|e|message code] data1] w1]; cbn; try reflexivity.
  destruct (Z_lt_dec (Z.of_nat (S errors)) (default_max_attempts cfg));
    cbn; [|reflexivity].
  destruct (time_sleep (delay_after_failure cfg) w1) as [[[]|e] w2];
    reflexivity.
Qed.

Lemma time_sleep_returns (secs : Z) (w : World Request) :
  0 <= secs ->
  time_sleep secs w = (Ok tt, set_slept (slept w ++ [secs])%list w).
Proof.
  intros Hs. unfold time_sleep. destruct (Z_lt_dec secs 0); [lia|reflexivity].
Qed.

Lemma time_sleep_raises (secs : Z) (w : World Request) :
  secs < 0 ->
  time_sleep secs w
  = (Raise (ValueError "sleep length must be non-negative"), w).
Proof.
  intros Hs. unfold time_sleep. destruct (Z_lt_dec secs 0); [reflexivity|lia].
Qed.

Lemma time_sleep_sent (secs : Z) (w : World Request) :
  sent (time_sleep secs w).2 = sent w
  /\ state (time_sleep secs w).2 = state w
  /\ stats (time_sleep secs w).2 = stats w
  /\ queue (time_sleep secs w).2 = queue w.
Proof.
  unfold time_sleep. destruct (Z_lt_dec secs 0); repeat split; reflexivity.
Qed.

Lemma attempt_fails func expected_response on_failure
    (data : Data Request) (w : World Request) message code w1 :
  fails func data w message code w1 ->
  Matomo.attempt func expected_response on_failure data w
  = (Matomo.Failed message code, data, w1).
Proof.
  intros (e & Hf & Hc). unfold Matomo.attempt, Matomo.classify.
  rewrite Hf, Hc. reflexivity.
Qed.

(** Three failures in a row with three attempts allowed: the wrapper
    calls the transport three times, sleeps after the first two
    failures, and raises with the message and code of the third. *)
Lemma _call_wrapper_three_failures (cfg : Config) func expected_response
    on_failure (data : Data Request) (w w1 w2 w3 : World Request)
    m1 c1 m2 c2 m3 c3 :
  default_max_attempts cfg = 3 ->
  0 <= delay_after_failure cfg ->
  fails func data w m1 c1 w1 ->
  fails func data
    (set_slept (slept w1 ++ [delay_after_failure cfg])%list w1) m2 c2 w2 ->
  fails func data
    (set_slept (slept w2 ++ [delay_after_failure cfg])%list w2) m3 c3 w3 ->
  Matomo._call_wrapper cfg func expected_response on_failure data w
  = (Raise (MatomoError m3 c3), data, w3).
Proof.
  intros Hmax Hdelay F1 F2 F3. unfold Matomo._call_wrapper.
  rewrite _call_wrapper_from_unfold, (attempt_fails _ _ _ _ _ _ _ _ F1), Hmax.
  destruct (Z_lt_dec (Z.of_nat 1) 3) as [_|Hn]; [|lia].
  rewrite (time_sleep_returns _ _ Hdelay).
  rewrite _call_wrapper_from_unfold, (attempt_fails _ _ _ _ _ _ _ _ F2), Hmax.
  destruct (Z_lt_dec (Z.of_nat 2) 3) as [_|Hn]; [|lia].
  rewrite (time_sleep_returns _ _ Hdelay).
  rewrite _call_wrapper_from_unfold, (attempt_fails _ _ _ _ _ _ _ _ F3), Hmax.
  destruct (Z_lt_dec (Z.of_nat 3) 3) as [Hn|_]; [lia|]. reflexivity.
Qed.

Lemma _call_fails (network : nat -> Data Request -> Res string)
    (data : Data Request) (w : World Request) e message code :
  network (List.length (sent w)) data = Raise e ->
  Matomo.caught e = Some (message, code) ->
  fails (Matomo._call (Matomo.mk (Matomo._real_request network))) data w
    message code (set_sent (sent w ++ [data])%list w).
Proof.
  intros Hn Hc. exists e. split; [|exact Hc].
  unfold Matomo._call. cbn. rewrite Hn. reflexivity.
Qed.

(** With the network down, a call gives up after the third request. *)
Lemma call_network_down (cfg : Config)
    (network : nat -> Data Request -> Res string) expected_content
    on_failure (data : Data Request) (w : World Request) :
  default_max_attempts cfg = 3 ->
  0 <= delay_after_failure cfg ->
  network_down network ->
  exists e message code,
    network (List.length (sent w) + 2)%nat data = Raise e
    /\ Matomo.caught e = Some (message, code)
    /\ Matomo.call cfg (Matomo.mk (Matomo._real_request network))
         expected_content on_failure data w
       = (Raise (MatomoError message code), data,
          after_three_failures cfg data w).
Proof.
  intros Hmax Hdelay Hdown.
  destruct (Hdown (List.length (sent w)) data) as (e1 & m1 & c1 & N1 & C1).
  destruct (Hdown (List.length (sent w) + 1)%nat data)
    as (e2 & m2 & c2 & N2 & C2).
  destruct (Hdown (List.length (sent w) + 2)%nat data)
    as (e3 & m3 & c3 & N3 & C3).
  exists e3, m3, c3. split; [exact N3|]. split; [exact C3|].
  unfold Matomo.call.
  pose proof (_call_fails network data w e1 m1 c1 N1 C1) as F1.
  set (w1 := set_slept
               (slept (set_sent (sent w ++ [data])%list w)
                ++ [delay_after_failure cfg])%list
               (set_sent (sent w ++ [data])%list w)).
  assert (F2 : fails (Matomo._call (Matomo.mk (Matomo._real_request network)))
                 data w1 m2 c2 (set_sent (sent w1 ++ [data])%list w1)).
  { apply (_call_fails network data w1 e2 m2 c2); [|exact C2].
    subst w1. cbn. rewrite length_app. exact N2. }
  set (w2 := set_slept
               (slept (set_sent (sent w1 ++ [data])%list w1)
                ++ [delay_after_failure cfg])%list
               (set_sent (sent w1 ++ [data])%list w1)).
  assert (F3 : fails (Matomo._call (Matomo.mk (Matomo._real_request network)))
                 data w2 m3 c3 (set_sent (sent w2 ++ [data])%list w2)).
  { apply (_call_fails network data w2 e3 m3 c3); [|exact C3].
    subst w2 w1. cbn. rewrite !length_app. cbn.
    replace (List.length (sent w) + 1 + 1)%nat
      with (List.length (sent w) + 2)%nat by lia.
    exact N3. }
  rewrite (_call_wrapper_three_failures cfg _ expected_content on_failure
             data w _ _ _ m1 c1 m2 c2 m3 c3 Hmax Hdelay F1 F2 F3).
  subst w2 w1. unfold set_sent, set_slept, after_three_failures. cbn.
  rewrite <- !app_assoc. reflexivity.
Qed.

End Retry.

(** ** Recorder: a worker that meets the fatal error *)

Section Worker.
Context {B : Builtins} {Request : Type}.
Context (_get_hit_args : Hit.t -> Res (Request * Hit.t)).

Lemma _record_hits_raises cfg m (r : Recorder.t) (w w1 : World Request)
    h hs reqs e :
  Recorder.all_hit_args _get_hit_args (Recorder.hits r)
  = (Ok reqs, h :: hs) ->
  Matomo.call cfg m None (Some Recorder._on_tracking_failure)
    (mkData (token_auth cfg) reqs) w
  = (Raise e, mkData (token_auth cfg) reqs, w1) ->
  Recorder._record_hits _get_hit_args cfg m r w
  = (Raise e, Recorder.set_hits (h :: hs) r, w1).
Proof.
  intros Hargs Hcall. unfold Recorder._record_hits.
  destruct (Recorder.hits r) as [|h0 hs0] eqn:Hhits;
    [cbn in Hargs; discriminate|].
  rewrite Hargs, Hcall. reflexivity.
Qed.

Lemma stop_is_stopped why (s : State.t) :
  State.is_stopped (State.stop why s) = true.
Proof.
  unfold State.stop, State.is_stopped.
  destruct (State._stopped s) eqn:Hs; [exact Hs|reflexivity].
Qed.

End Worker.

(** C3: with three attempts allowed, a delay that [time.sleep] accepts
    (it is not negative) and a transport that fails on every request, a
    flush sends the batch exactly three times, sleeping after the first
    two failures, and then raises the fatal error, which
    carries the message and the optional status code of the third
    failure.  The worker that flushed, on the sentinel or on a full
    batch, catches it, calls [stop] on the run state with a reason that
    names the error and the file of its first hit, and leaves its loop:
    the items still queued are not taken.  The run state is stopped
    afterwards, with that reason if the run was not stopped before. *)
Theorem C3_three_attempts_then_stop {B : Builtins} {Request : Type}
    (_get_hit_args : Hit.t -> Res (Request * Hit.t)) (cfg : Config)
    (network : nat -> Data Request -> Res string) (r : Recorder.t)
    (w : World Request) (h : Hit.t) (hs : list Hit.t)
    (reqs : list Request) (rest : list (option Hit.t)) :
  default_max_attempts cfg = 3 ->
  0 <= delay_after_failure cfg ->
  network_down network ->
  Recorder.all_hit_args _get_hit_args (Recorder.hits r) = (Ok reqs, h :: hs) ->
  exists e message code,
    network (List.length (sent w) + 2)%nat (mkData (token_auth cfg) reqs)
    = Raise e
    /\ Matomo.caught e = Some (message, code)
    /\ Matomo.call cfg (Matomo.mk (Matomo._real_request network)) None
         (Some Recorder._on_tracking_failure) (mkData (token_auth cfg) reqs) w
       = (Raise (MatomoError message code), mkData (token_auth cfg) reqs,
          after_three_failures cfg (mkData (token_auth cfg) reqs) w)
    /\ Recorder.run_items _get_hit_args cfg
         (Matomo.mk (Matomo._real_request network)) (None :: rest) r w
       = (Recorder.Stopped, Recorder.set_hits (h :: hs) r,
          set_state
            (State.stop (Some (stop_reason message h)) (state w))
            (after_three_failures cfg (mkData (token_auth cfg) reqs) w),
          rest)
    /\ (forall (r0 : Recorder.t) (hit : Hit.t),
          r = Recorder.set_hits (Recorder.hits r0 ++ [hit])%list r0 ->
          (Recorder.threshold r <=? List.length (Recorder.hits r))%nat = true ->
          Recorder.run_items _get_hit_args cfg
            (Matomo.mk (Matomo._real_request network)) (Some hit :: rest) r0 w
          = (Recorder.Stopped, Recorder.set_hits (h :: hs) r,
             set_state
               (State.stop (Some (stop_reason message h)) (state w))
               (after_three_failures cfg (mkData (token_auth cfg) reqs) w),
             rest))
    /\ State.is_stopped
         (State.stop (Some (stop_reason message h)) (state w)) = true
    /\ (State.is_stopped (state w) = false ->
        State.reason (State.stop (Some (stop_reason message h)) (state w))
        = Some (stop_reason message h)).
Proof.
  intros Hmax Hdelay Hdown Hargs.
  destruct (call_network_down cfg network None
              (Some Recorder._on_tracking_failure)
              (mkData (token_auth cfg) reqs) w Hmax Hdelay Hdown)
    as (e & message & code & N3 & C3 & Hcall).
  exists e, message, code.
  pose proof (_record_hits_raises _get_hit_args cfg _ r w _ h hs reqs _
                Hargs Hcall) as Hflush.
  split; [exact N3|]. split; [exact C3|]. split; [exact Hcall|].
  split; [|split; [|split]].
  - cbn [Recorder.run_items]. rewrite Hflush. reflexivity.
  - intros r0 hit Hr Hfull. cbn [Recorder.run_items].
    rewrite <- Hr, Hfull, Hflush. reflexivity.
  - apply stop_is_stopped.
  - unfold State.is_stopped, State.stop, State.reason. intros ->. reflexivity.
Qed.

Lemma C3_three_attempts_then_stop_witness :
  let r := Recorder.mk 0 [Sample.hit_on_line 1; Sample.hit_on_line 2] 200 in
  let data := mkData "secret" [1; 2] in
  default_max_attempts Sample.config = 3
  /\ 0 <= delay_after_failure Sample.config
  /\ network_down (B := Sample.builtins) (Request := Z) refusing
  /\ Recorder.all_hit_args Sample.hit_args (Recorder.hits r)
     = (Ok [1; 2], [Sample.hit_on_line 1; Sample.hit_on_line 2])
  /\ Recorder.run_items (B := Sample.builtins) Sample.hit_args Sample.config
       (Matomo.mk (Matomo._real_request refusing))
       [None; Some (Sample.hit_on_line 3)] r Sample.world
     = (Recorder.Stopped, r,
        mkWorld
          (State.mk true
             (Some "Encountered error Connection refused in file access.log"))
          Statistics.init [] [data; data; data] [10; 10],
        [Some (Sample.hit_on_line 3)]).
Proof.
  intros r data.
  assert (Hdelay : 0 <= delay_after_failure Sample.config)
    by (vm_compute; discriminate).
  assert (Hdown : network_down (B := Sample.builtins) (Request := Z) refusing).
  { intros n d. exists (URLError "Connection refused"), "Connection refused", None.
    split; reflexivity. }
  assert (Hargs : Recorder.all_hit_args Sample.hit_args (Recorder.hits r)
                  = (Ok [1; 2], [Sample.hit_on_line 1; Sample.hit_on_line 2]))
    by reflexivity.
  destruct (C3_three_attempts_then_stop (B := Sample.builtins)
              Sample.hit_args Sample.config refusing r Sample.world
              (Sample.hit_on_line 1) [Sample.hit_on_line 2] [1; 2]
              [Some (Sample.hit_on_line 3)] eq_refl Hdelay Hdown Hargs)
    as (e & message & code & N3 & C3 & _ & Hrun & _).
  injection N3 as <-. injection C3 as <- <-.
  exact (conj eq_refl (conj Hdelay (conj Hdown (conj Hargs Hrun)))).
Defined.

(** ** Recorder: partial failures *)

Section PartialFailure.
Context {B : Builtins} {Request : Type}.

(** The callback by itself: a reply that reports [k] tracked requests
    leaves the requests from index [k] on, in their order. *)
Lemma _on_tracking_failure_truncates (response : string)
    (data : Data Request) (d : list (string * Val)) (k : Z) (message : Val) :
  json_loads response = Some (VDict d) ->
  dict_get "tracked" d = Some (VInt k) -> 0 <= k ->
  dict_get "message" d = Some message ->
  Recorder._on_tracking_failure response data
  = (Ok (str_of_val message),
     mkData (data_token_auth data) (drop (Z.to_nat k) (requests data))).
Proof.
  intros Hj Ht Hk Hm. unfold Recorder._on_tracking_failure.
  rewrite Hj, Ht, Hm. unfold list_slice_from.
  rewrite (proj2 (Z.leb_le 0 k) Hk). reflexivity.
Qed.

(** Applied again to what it left, it cuts from there. *)
Lemma _on_tracking_failure_twice (r1 r2 : string) (data : Data Request)
    d1 d2 (k1 k2 : Z) m1 m2 :
  json_loads r1 = Some (VDict d1) -> dict_get "tracked" d1 = Some (VInt k1) ->
  0 <= k1 -> dict_get "message" d1 = Some m1 ->
  json_loads r2 = Some (VDict d2) -> dict_get "tracked" d2 = Some (VInt k2) ->
  0 <= k2 -> dict_get "message" d2 = Some m2 ->
  (Recorder._on_tracking_failure r2
     (Recorder._on_tracking_failure r1 data).2).2
  = mkData (data_token_auth data)
      (drop (Z.to_nat k1 + Z.to_nat k2) (requests data)).
Proof.
  intros J1 T1 K1 M1 J2 T2 K2 M2.
  rewrite (_on_tracking_failure_truncates r1 data d1 k1 m1 J1 T1 K1 M1).
  cbn [snd].
  rewrite (_on_tracking_failure_truncates r2 _ d2 k2 m2 J2 T2 K2 M2).
  cbn [snd data_token_auth requests]. rewrite drop_drop. reflexivity.
Qed.

Lemma attempt_without_expected
    (func : Data Request -> World Request -> Res string * World Request)
    on_failure (data : Data Request) (w : World Request) :
  Matomo.attempt func None on_failure data w
  = (match (func data w).1 with
     | Ok response => Matomo.Returned response
     | Raise e => Matomo.classify e
     end, data, (func data w).2).
Proof.
  unfold Matomo.attempt. destruct (func data w) as [[response|e] w1];
    reflexivity.
Qed.

Lemma _call_sent (m : Matomo.t Request) (data : Data Request)
    (w : World Request) :
  exists n, sent (Matomo._call m data w).2 = (sent w ++ repeat data n)%list.
Proof.
  unfold Matomo._call. destruct (Matomo._send_request m) as [network|].
  - exists 1%nat. reflexivity.
  - exists 0%nat. cbn. rewrite app_nil_r. reflexivity.
Qed.

(** Without an expected content the wrapper never calls the callback:
    whatever the transport answers, every body sent is the whole
    [data], and [data] comes back as it went in. *)
Lemma _call_wrapper_keeps_data (cfg : Config) (m : Matomo.t Request)
    on_failure (data : Data Request) :
  forall (k errors : nat) (w : World Request),
    (Z.to_nat (default_max_attempts cfg) - errors)%nat = k ->
    (Matomo._call_wrapper_from cfg (Matomo._call m) None on_failure errors
       data w).1.2 = data
    /\ exists n,
         sent (Matomo._call_wrapper_from cfg (Matomo._call m) None
                 on_failure errors data w).2
         = (sent w ++ repeat data n)%list.
Proof.
  induction k as [|k IH]; intros errors w Hk;
    rewrite _call_wrapper_from_unfold, attempt_without_expected;
    destruct (_call_sent m data w) as [n1 Hn1];
    (destruct (Matomo._call m data w).1 as [response|e];
     [split; [reflexivity|]; exists n1; exact Hn1|]);
    unfold Matomo.classify;
    (destruct (Matomo.caught e) as [[message code]|];
     [|split; [reflexivity|]; exists n1; exact Hn1]);
    (destruct (Z_lt_dec _ _);
     [|split; [reflexivity|]; exists n1; exact Hn1]);
    pose proof (time_sleep_sent (delay_after_failure cfg)
                  (Matomo._call m data w).2) as [Hs _];
    (destruct (time_sleep (delay_after_failure cfg) (Matomo._call m data w).2)
       as [[[]|e'] w2];
     [|split; [reflexivity|]; exists n1; cbn in Hs |- *; rewrite Hs;
       exact Hn1]).
  - lia.
  - destruct (IH (S errors) w2 ltac:(lia)) as [Hd [n Hn]].
    split; [exact Hd|]. exists (n1 + n)%nat. rewrite Hn. cbn in Hs.
    rewrite Hs, Hn1, repeat_app, app_assoc. reflexivity.
Qed.

Lemma call_keeps_data (cfg : Config) (m : Matomo.t Request) on_failure
    (data : Data Request) (w : World Request) :
  (Matomo.call cfg m None on_failure data w).1.2 = data
  /\ exists n,
       sent (Matomo.call cfg m None on_failure data w).2
       = (sent w ++ repeat data n)%list.
Proof.
  unfold Matomo.call, Matomo._call_wrapper.
  apply (_call_wrapper_keeps_data cfg m on_failure data _ 0%nat w eq_refl).
Qed.

End PartialFailure.

(** C2, on the code: a batch of ten requests, a collector that tracks
    four of them and answers the first attempt with an HTTP error saying
    so, then accepts.  [_record_hits] passes no expected content, so the
    wrapper does not call [_on_tracking_failure]: the retry sends the ten
    requests again, the four tracked ones included, and not the six that
    were left.  When the same reply comes with the status of a success
    there is no retry at all and the ten hits count as recorded. *)
Theorem C2_retry_resends_tracked_requests :
  sent (Recorder._record_hits (B := Sample.builtins) Sample.hit_args
          Sample.config (Matomo.mk (Matomo._real_request partly_failing))
          ten_hits Sample.world).2
  = [ten_requests; ten_requests]
  /\ [ten_requests; ten_requests]
     <> [ten_requests;
         mkData "secret" (drop 4 (requests ten_requests))]
  /\ (Recorder._on_tracking_failure (B := Sample.builtins)
        Sample.partial_reply ten_requests).2
     = mkData "secret" [5; 6; 7; 8; 9; 10]
  /\ Recorder._record_hits (B := Sample.builtins) Sample.hit_args
       Sample.config (Matomo.mk (Matomo._real_request partly_tracking))
       ten_hits Sample.world
     = (Ok tt, Recorder.set_hits [] ten_hits,
        mkWorld (State.start State.init)
          (Statistics.advance_recorded 10 Statistics.init) []
          [ten_requests] []).
Proof.
  split; [vm_compute; reflexivity|].
  split; [discriminate|].
  split; vm_compute; reflexivity.
Qed.

(** ** Parser: what the checks do to a hit *)

Lemma only_classified_refl (h : Hit.t) : only_classified h h.
Proof. unfold only_classified. repeat split; auto. Qed.

Lemma only_classified_trans (h1 h2 h3 : Hit.t) :
  only_classified h1 h2 -> only_classified h2 h3 -> only_classified h1 h3.
Proof.
  unfold only_classified.
  intros (A1&A2&A3&A4&A5&A6&A7&A8&A9&A10&A11&A12&A13&A14&A15&A16&A17&A18&A19&A20&A21&A22&A23)
         (B1&B2&B3&B4&B5&B6&B7&B8&B9&B10&B11&B12&B13&B14&B15&B16&B17&B18&B19&B20&B21&B22&B23).
  repeat split; try congruence; auto.
  intros key Hk. rewrite (B18 key Hk). apply A18, Hk.
Qed.

Lemma only_classified_set_args (h : Hit.t) (a : gmap string Hit.Arg) :
  (forall key, key <> "cvar" -> a !! key = Hit.args h !! key) ->
  only_classified h (Hit.set_args a h).
Proof. intros Ha. unfold only_classified. cbn. repeat split; auto. Qed.

Lemma only_classified_flag (h : Hit.t) :
  only_classified h (Hit.set_is_meta true h)
  /\ only_classified h (Hit.set_is_download true h)
  /\ only_classified h (Hit.set_is_robot true h)
  /\ only_classified h (Hit.set_is_error true h)
  /\ only_classified h (Hit.set_is_redirect true h).
Proof. unfold only_classified. cbn. repeat split; auto. Qed.

Lemma _add_custom_var_classifies key value (h h' : Hit.t) :
  Hit._add_custom_var key value "cvar" h = Ok h' -> only_classified h h'.
Proof.
  unfold Hit._add_custom_var.
  destruct (Hit.args h !! "cvar") as [[v|vars]|] eqn:Hc.
  - destruct v; try discriminate. intros [= <-].
    apply only_classified_set_args. intros k Hk.
    rewrite lookup_insert_ne by congruence. reflexivity.
  - intros [= <-]. eapply only_classified_trans;
      apply only_classified_set_args; cbn; intros k Hk;
      rewrite lookup_insert_ne by congruence; reflexivity.
  - intros [= <-]. eapply only_classified_trans;
      apply only_classified_set_args; cbn; intros k Hk;
      rewrite lookup_insert_ne by congruence; reflexivity.
Qed.

(** Adding a custom variable to a hit whose variables are numbered
    1..n appends it under n+1. *)
Lemma _add_custom_var_appends key value (h : Hit.t) :
  cvar_ready h ->
  exists h',
    Hit._add_custom_var key value "cvar" h = Ok h'
    /\ cvars h' = (cvars h ++ [(S (List.length (cvars h)), (key, value))])%list
    /\ cvar_ready h'.
Proof.
  unfold cvar_ready, cvars, Hit._add_custom_var.
  destruct (Hit.args h !! "cvar") as [[v|vars]|] eqn:Hc; [intros []| |].
  - intros Hn. eexists. split; [reflexivity|].
    rewrite bool_decide_eq_false_2.
    2:{ rewrite Hn. intros Hi. apply elem_of_seq in Hi. lia. }
    cbn. rewrite !lookup_insert_eq. split; [reflexivity|].
    rewrite fmap_app, Hn, length_app. cbn.
    replace (List.length vars + 1)%nat with (S (List.length vars)) by lia.
    rewrite seq_S. reflexivity.
  - intros _. eexists. split; [reflexivity|].
    cbn. rewrite !lookup_insert_eq. split; reflexivity.
Qed.

Lemma append_same (s t : string) : s ++ t = s <-> t = "".
Proof.
  split.
  - induction s as [|c s IH]; [auto|].
    change (String c s ++ t) with (String c (s ++ t)). intros [= H]. auto.
  - intros ->. induction s as [|c s IH]; [reflexivity|].
    change (String c s ++ "") with (String c (s ++ "")).
    rewrite IH. reflexivity.
Qed.

Lemma identifier_of_match cfg path regEx group1 :
  regEx path = Some (Ok group1) ->
  identifier_of cfg path regEx
  = if bool_decide (oaipmh_preamble cfg ++ after_last "/"%char group1
                    = oaipmh_preamble cfg)
    then None
    else Some (oaipmh_preamble cfg ++ after_last "/"%char group1).
Proof.
  intros Hm. unfold identifier_of. rewrite Hm.
  destruct (bool_decide_reflect (after_last "/"%char group1 = "")) as [E|E].
  - rewrite bool_decide_eq_true_2 by (apply (proj2 (append_same _ _) E)).
    reflexivity.
  - rewrite bool_decide_eq_false_2; [reflexivity|].
    intros H. apply E. apply (proj1 (append_same _ _) H).
Qed.

Section CheckLoops.
Context (cfg : Config) (path : string).

Lemma check_static_from_spec patterns :
  forall h : Hit.t,
    Hit.path h = VStr path -> patterns_behave path patterns ->
    cvar_ready h ->
    exists h',
      Parser.check_static_from cfg patterns h = Ok h'
      /\ cvars h'
         = (cvars h
            ++ numbered (S (List.length (cvars h)))
                 (map (pair "oaipmhID") (identifiers cfg path patterns)))%list
      /\ Hit.is_meta h'
         = Hit.is_meta h || negb (bool_decide (identifiers cfg path patterns = []))
      /\ Hit.is_download h' = Hit.is_download h
      /\ Hit.is_robot h' = Hit.is_robot h
      /\ Hit.is_error h' = Hit.is_error h
      /\ Hit.is_redirect h' = Hit.is_redirect h
      /\ cvar_ready h' /\ only_classified h h'.
Proof.
  induction patterns as [|regEx rest IH]; intros h Hp Hb Hr;
    cbn [Parser.check_static_from].
  - exists h. split; [reflexivity|].
    split; [cbn; rewrite app_nil_r; reflexivity|].
    split; [destruct (Hit.is_meta h); reflexivity|].
    split; [reflexivity|]. split; [reflexivity|]. split; [reflexivity|].
    split; [reflexivity|]. split; [exact Hr|].
    apply only_classified_refl.
  - rewrite Hp. inversion Hb as [|? ? Hhead Hrest]; subst.
    unfold identifiers. cbn [omap list_omap].
    destruct (regEx path) as [[group1|e]|] eqn:Hm;
      [|exfalso; exact (Hhead e eq_refl)|].
    + rewrite (identifier_of_match cfg path regEx group1 Hm).
      destruct (bool_decide (_ ++ _ = oaipmh_preamble cfg)).
      * apply IH; assumption.
      * destruct (_add_custom_var_appends "oaipmhID"
                    (oaipmh_preamble cfg ++ after_last "/"%char group1)
                    h Hr) as (h1 & Ha & Hc & Hr1).
        unfold Hit.add_page_custom_var. rewrite Ha.
        pose proof (_add_custom_var_classifies _ _ _ _ Ha) as Hk.
        assert (Hk2 : only_classified h (Hit.set_is_meta true h1)).
        { eapply only_classified_trans; [exact Hk|].
          apply (only_classified_flag h1). }
        destruct (IH (Hit.set_is_meta true h1)) as (h' & Hs & Hv & Hm' & Hd & Hro & He & Hre & Hr' & Hc').
        { cbn. destruct Hk as (_&_&_&_&_&Hpath&_). congruence. }
        { exact Hrest. }
        { exact Hr1. }
        exists h'. split; [exact Hs|].
        change (cvars (Hit.set_is_meta true h1)) with (cvars h1) in Hv.
        rewrite Hv, Hc. cbn [map numbered].
        rewrite length_app. cbn [List.length].
        replace (List.length (cvars h) + 1)%nat
          with (S (List.length (cvars h))) by lia.
        rewrite <- app_assoc. cbn [app].
        split; [reflexivity|].
        split; [rewrite Hm'; cbn; rewrite orb_true_r; reflexivity|].
        assert (Hflags : Hit.is_download h1 = Hit.is_download h
                         /\ Hit.is_robot h1 = Hit.is_robot h
                         /\ Hit.is_error h1 = Hit.is_error h
                         /\ Hit.is_redirect h1 = Hit.is_redirect h).
        { clear -Ha. unfold Hit._add_custom_var in Ha.
          destruct (Hit.args h !! "cvar") as [[v|vars]|];
            [destruct v; try discriminate| |];
            injection Ha as <-; repeat split. }
        destruct Hflags as (F1 & F2 & F3 & F4).
        cbn in Hd, Hro, He, Hre.
        split; [congruence|]. split; [congruence|].
        split; [congruence|]. split; [congruence|].
        split; [exact Hr'|].
        eapply only_classified_trans; [exact Hk2|exact Hc'].
    + unfold identifier_of in *. rewrite Hm. apply IH; assumption.
Qed.

Lemma check_download_from_spec patterns :
  forall h : Hit.t,
    Hit.path h = VStr path -> patterns_behave path patterns ->
    cvar_ready h ->
    exists h',
      Parser.check_download_from cfg patterns h = Ok h'
      /\ cvars h'
         = (cvars h
            ++ numbered (S (List.length (cvars h)))
                 (map (pair "oaipmhID") (take 1 (identifiers cfg path patterns))))%list
      /\ Hit.is_download h'
         = Hit.is_download h || negb (bool_decide (identifiers cfg path patterns = []))
      /\ Hit.is_meta h' = Hit.is_meta h
      /\ Hit.is_robot h' = Hit.is_robot h
      /\ Hit.is_error h' = Hit.is_error h
      /\ Hit.is_redirect h' = Hit.is_redirect h
      /\ cvar_ready h' /\ only_classified h h'.
Proof.
  induction patterns as [|regEx rest IH]; intros h Hp Hb Hr;
    cbn [Parser.check_download_from].
  - exists h. split; [reflexivity|].
    split; [cbn; rewrite app_nil_r; reflexivity|].
    split; [destruct (Hit.is_download h); reflexivity|].
    split; [reflexivity|]. split; [reflexivity|]. split; [reflexivity|].
    split; [reflexivity|]. split; [exact Hr|].
    apply only_classified_refl.
  - rewrite Hp. inversion Hb as [|? ? Hhead Hrest]; subst.
    unfold identifiers. cbn [omap list_omap].
    destruct (regEx path) as [[group1|e]|] eqn:Hm;
      [|exfalso; exact (Hhead e eq_refl)|].
    + rewrite (identifier_of_match cfg path regEx group1 Hm).
      destruct (bool_decide (_ ++ _ = oaipmh_preamble cfg)).
      * apply IH; assumption.
      * destruct (_add_custom_var_appends "oaipmhID"
                    (oaipmh_preamble cfg ++ after_last "/"%char group1)
                    h Hr) as (h1 & Ha & Hc & Hr1).
        unfold Hit.add_page_custom_var. rewrite Ha.
        pose proof (_add_custom_var_classifies _ _ _ _ Ha) as Hk.
        exists (Hit.set_is_download true h1).
        split; [reflexivity|].
        change (cvars (Hit.set_is_download true h1)) with (cvars h1).
        rewrite Hc. cbn [take map numbered].
        split; [reflexivity|].
        split; [cbn; rewrite orb_true_r; reflexivity|].
        assert (Hflags : Hit.is_meta h1 = Hit.is_meta h
                         /\ Hit.is_robot h1 = Hit.is_robot h
                         /\ Hit.is_error h1 = Hit.is_error h
                         /\ Hit.is_redirect h1 = Hit.is_redirect h).
        { clear -Ha. unfold Hit._add_custom_var in Ha.
          destruct (Hit.args h !! "cvar") as [[v|vars]|];
            [destruct v; try discriminate| |];
            injection Ha as <-; repeat split. }
        destruct Hflags as (F1 & F2 & F3 & F4).
        cbn [Hit.is_meta Hit.is_robot Hit.is_error Hit.is_redirect
             Hit.set_is_download].
        split; [congruence|]. split; [congruence|].
        split; [congruence|]. split; [congruence|].
        split; [exact Hr1|].
        eapply only_classified_trans; [exact Hk|].
        apply (only_classified_flag h1).
    + unfold identifier_of in *. rewrite Hm. apply IH; assumption.
Qed.

End CheckLoops.

(** X1: on a hit whose path is text and whose custom variables are
    numbered 1..n, with patterns that do not raise, [check_static] adds
    one [oaipmhID] variable for every metadata pattern that matches with
    a non-empty identifier, numbered on from n+1 in pattern order, marks
    the hit as metadata exactly when there is such a pattern, leaves the
    other flags and the counters alone and answers [True]. *)
Theorem X1_check_static_adds_one_variable_per_match (cfg : Config)
    (p : Parser.t) (h : Hit.t) (st : Statistics.t) (path : string) :
  Hit.path h = VStr path ->
  patterns_behave path (Parser.tracking_metadata p) ->
  cvar_ready h ->
  exists h',
    Parser.check_static cfg p h st = Ok (true, h', st)
    /\ cvars h'
       = (cvars h
          ++ numbered (S (List.length (cvars h)))
               (map (pair "oaipmhID")
                  (identifiers cfg path (Parser.tracking_metadata p))))%list
    /\ Hit.is_meta h'
       = Hit.is_meta h
         || negb (bool_decide (identifiers cfg path (Parser.tracking_metadata p) = []))
    /\ Hit.is_download h' = Hit.is_download h
    /\ Hit.is_robot h' = Hit.is_robot h
    /\ Hit.is_error h' = Hit.is_error h
    /\ Hit.is_redirect h' = Hit.is_redirect h.
Proof.
  intros Hp Hb Hr.
  destruct (check_static_from_spec cfg path (Parser.tracking_metadata p) h
              Hp Hb Hr) as (h' & Hs & Hv & Hm & Hd & Hro & He & Hre & _).
  exists h'. unfold Parser.check_static. rewrite Hs.
  repeat split; assumption.
Qed.

Lemma X1_check_static_witness :
  let p := Parser.mk [record_pattern; any_pattern] [] [] in
  let h := hit_at "200" "/record/42" in
  Hit.path h = VStr "/record/42"
  /\ patterns_behave "/record/42" (Parser.tracking_metadata p)
  /\ cvar_ready h
  /\ exists h',
       Parser.check_static Sample.config p h Statistics.init
       = Ok (true, h', Statistics.init)
       /\ cvars h' = [(1%nat, ("oaipmhID", "oai:example.org:42"));
                      (2%nat, ("oaipmhID", "oai:example.org:42"))]
       /\ Hit.is_meta h' = true.
Proof.
  intros p h.
  assert (Hb : patterns_behave "/record/42" (Parser.tracking_metadata p))
    by (repeat constructor; discriminate).
  destruct (X1_check_static_adds_one_variable_per_match Sample.config p h
              Statistics.init "/record/42" eq_refl Hb I)
    as (h' & Hs & Hv & Hm & _).
  exact (conj eq_refl (conj Hb (conj I
           (ex_intro _ h' (conj Hs (conj Hv Hm)))))).
Defined.

(** X2: under the same conditions [check_download] stops at the first
    download pattern that matches with a non-empty identifier: it adds
    that one [oaipmhID] variable under n+1 and marks the hit as a
    download, however many later patterns match; without such a pattern
    the hit is unchanged. *)
Theorem X2_check_download_stops_at_first_match (cfg : Config)
    (p : Parser.t) (h : Hit.t) (st : Statistics.t) (path : string) :
  Hit.path h = VStr path ->
  patterns_behave path (Parser.tracking_download p) ->
  cvar_ready h ->
  exists h',
    Parser.check_download cfg p h st = Ok (true, h', st)
    /\ cvars h'
       = (cvars h
          ++ numbered (S (List.length (cvars h)))
               (map (pair "oaipmhID")
                  (take 1 (identifiers cfg path (Parser.tracking_download p)))))%list
    /\ Hit.is_download h'
       = Hit.is_download h
         || negb (bool_decide (identifiers cfg path (Parser.tracking_download p) = []))
    /\ Hit.is_meta h' = Hit.is_meta h
    /\ Hit.is_robot h' = Hit.is_robot h
    /\ Hit.is_error h' = Hit.is_error h
    /\ Hit.is_redirect h' = Hit.is_redirect h.
Proof.
  intros Hp Hb Hr.
  destruct (check_download_from_spec cfg path (Parser.tracking_download p) h
              Hp Hb Hr) as (h' & Hs & Hv & Hm & Hd & Hro & He & Hre & _).
  exists h'. unfold Parser.check_download. rewrite Hs.
  repeat split; assumption.
Qed.

Lemma X2_check_download_witness :
  let p := Parser.mk [] [record_pattern; any_pattern] [] in
  let h := hit_at "200" "/record/42" in
  Hit.path h = VStr "/record/42"
  /\ patterns_behave "/record/42" (Parser.tracking_download p)
  /\ cvar_ready h
  /\ exists h',
       Parser.check_download Sample.config p h Statistics.init
       = Ok (true, h', Statistics.init)
       /\ cvars h' = [(1%nat, ("oaipmhID", "oai:example.org:42"))]
       /\ Hit.is_download h' = true.
Proof.
  intros p h.
  assert (Hb : patterns_behave "/record/42" (Parser.tracking_download p))
    by (repeat constructor; discriminate).
  destruct (X2_check_download_stops_at_first_match Sample.config p h
              Statistics.init "/record/42" eq_refl Hb I)
    as (h' & Hs & Hv & Hm & _).
  exact (conj eq_refl (conj Hb (conj I
           (ex_intro _ h' (conj Hs (conj Hv Hm)))))).
Defined.

Lemma check_static_from_classifies cfg patterns :
  forall h h' : Hit.t,
    Parser.check_static_from cfg patterns h = Ok h' -> only_classified h h'.
Proof.
  induction patterns as [|regEx rest IH]; intros h h';
    cbn [Parser.check_static_from].
  - intros [= <-]. apply only_classified_refl.
  - destruct (Hit.path h) as [| | | |path| |]; try discriminate.
    destruct (regEx path) as [[group1|e]|]; [|discriminate|apply IH].
    destruct (bool_decide _); [apply IH|].
    unfold Hit.add_page_custom_var.
    destruct (Hit._add_custom_var _ _ _ h) as [h1|e] eqn:Ha; [|discriminate].
    intros Hs. eapply only_classified_trans;
      [exact (_add_custom_var_classifies _ _ _ _ Ha)|].
    eapply only_classified_trans;
      [exact (proj1 (only_classified_flag h1))|].
    apply IH, Hs.
Qed.

Lemma check_download_from_classifies cfg patterns :
  forall h h' : Hit.t,
    Parser.check_download_from cfg patterns h = Ok h' -> only_classified h h'.
Proof.
  induction patterns as [|regEx rest IH]; intros h h';
    cbn [Parser.check_download_from].
  - intros [= <-]. apply only_classified_refl.
  - destruct (Hit.path h) as [| | | |path| |]; try discriminate.
    destruct (regEx path) as [[group1|e]|]; [|discriminate|apply IH].
    destruct (bool_decide _); [apply IH|].
    unfold Hit.add_page_custom_var.
    destruct (Hit._add_custom_var _ _ _ h) as [h1|e] eqn:Ha; [|discriminate].
    intros [= <-]. eapply only_classified_trans;
      [exact (_add_custom_var_classifies _ _ _ _ Ha)|].
    exact (proj1 (proj2 (only_classified_flag h1))).
Qed.

Lemma check_methods_accepting cfg p :
  Forall accepting (Parser.check_methods cfg p).
Proof.
  unfold Parser.check_methods.
  repeat (apply Forall_cons_2; [intros h st b h' st'|]);
    [..|apply Forall_nil_2].
  - unfold Parser.check_download.
    destruct (Parser.check_download_from _ _ h) as [h1|e] eqn:Hc;
      [|discriminate].
    intros [= <- <- <-].
    split; [reflexivity|split; [|repeat split; reflexivity]].
    apply (check_download_from_classifies _ _ _ _ Hc).
  - unfold Parser.check_http_error.
    destruct (Parser.first_char _) as [c|e]; [|discriminate].
    destruct (int_of_char c) as [d|e]; [|discriminate].
    destruct (_ && _); intros [= <- <- <-];
      (split; [reflexivity|split; [|repeat split; reflexivity]]).
    + exact (proj1 (proj2 (proj2 (proj2 (only_classified_flag h))))).
    + apply only_classified_refl.
  - unfold Parser.check_http_redirect.
    destruct (Parser.first_char _) as [c|e]; [|discriminate].
    destruct (_ && _); intros [= <- <- <-];
      (split; [reflexivity|split; [|repeat split; reflexivity]]).
    + exact (proj2 (proj2 (proj2 (proj2 (only_classified_flag h))))).
    + apply only_classified_refl.
  - unfold Parser.check_static.
    destruct (Parser.check_static_from _ _ h) as [h1|e] eqn:Hc;
      [|discriminate].
    intros [= <- <- <-].
    split; [reflexivity|split; [|repeat split; reflexivity]].
    apply (check_static_from_classifies _ _ _ _ Hc).
  - unfold Parser.check_user_agent.
    destruct (existsb _ _); intros [= <- <- <-];
      (split; [reflexivity|split; [|repeat split; reflexivity]]).
    + exact (proj1 (proj2 (proj2 (only_classified_flag h)))).
    + apply only_classified_refl.
Qed.

Lemma all_checks_accepting (methods : list Parser.Check) :
  Forall accepting methods ->
  accepting (Parser.all_checks methods).
Proof.
  induction methods as [|check rest IH]; intros Hall h st b h' st';
    cbn [Parser.all_checks].
  - intros [= <- <- <-].
    split; [reflexivity|split; [|repeat split; reflexivity]].
    apply only_classified_refl.
  - inversion Hall as [|? ? Hc Hrest]; subst.
    destruct (check h st) as [[[b1 h1] st1]|e] eqn:Hcheck; [|discriminate].
    destruct (Hc h st b1 h1 st1 Hcheck) as (-> & K1 & P1 & R1 & S1 & D1).
    intros Hs.
    destruct (IH Hrest h1 st1 b h' st' Hs) as (-> & K2 & P2 & R2 & S2 & D2).
    split; [reflexivity|].
    split; [exact (only_classified_trans _ _ _ K1 K2)|].
    repeat split; congruence.
Qed.

Lemma numbered_app {A} (l1 l2 : list A) :
  forall start,
    numbered start (l1 ++ l2)
    = (numbered start l1 ++ numbered (start + List.length l1) l2)%list.
Proof.
  induction l1 as [|a l1 IH]; intros start; cbn.
  - rewrite Nat.add_0_r. reflexivity.
  - rewrite IH. replace (S start + List.length l1)%nat
      with (start + S (List.length l1))%nat by lia. reflexivity.
Qed.

Lemma numbered_length {A} (l : list A) :
  forall start, List.length (numbered start l) = List.length l.
Proof. induction l as [|a l IH]; intros start; cbn; [|rewrite IH]; reflexivity. Qed.

(** X3: the check methods never reject a hit.  Whenever the chain of
    checks returns, its answer is [True], the hit differs from the one
    it was given only in flags that were raised and in its custom
    variables, and no counter but the one of skipped user agents has
    moved. *)
Theorem X3_check_methods_only_classify (cfg : Config) (p : Parser.t)
    (h : Hit.t) (st : Statistics.t) :
  match Parser.all_checks (Parser.check_methods cfg p) h st with
  | Ok (answer, h', st') =>
      answer = true /\ only_classified h h'
      /\ Statistics.count_lines_parsed st' = Statistics.count_lines_parsed st
      /\ Statistics.count_lines_recorded st'
         = Statistics.count_lines_recorded st
      /\ Statistics.count_lines_static st' = Statistics.count_lines_static st
      /\ Statistics.count_lines_downloads st'
         = Statistics.count_lines_downloads st
  | Raise _ => True
  end.
Proof.
  destruct (Parser.all_checks _ h st) as [[[answer h'] st']|e] eqn:Hc;
    [|exact I].
  exact (all_checks_accepting _ (check_methods_accepting cfg p) _ _ _ _ _ Hc).
Qed.

(** X4: the whole chain on a hit whose path is text, whose status
    starts with a digit and whose custom variables are numbered 1..n,
    with patterns that do not raise.  It returns [True]; the variable of
    the first matching download pattern comes before those of the
    matching metadata patterns; the error flag is raised for a first
    digit 4 or 5, the redirect flag for a first digit 3 unless the
    status is 304, the robot flag when a configured user agent matches,
    and only then the counter of skipped user agents moves. *)
Theorem X4_check_chain (cfg : Config) (p : Parser.t) (h : Hit.t)
    (st : Statistics.t) (path : string) (c : ascii) (rest : string) (d : Z) :
  Hit.path h = VStr path ->
  Hit.status h = VStr (String c rest) ->
  int_of_char c = Ok d ->
  patterns_behave path (Parser.tracking_download p) ->
  patterns_behave path (Parser.tracking_metadata p) ->
  cvar_ready h ->
  let downloads :=
    take 1 (identifiers cfg path (Parser.tracking_download p)) in
  let metadata :=
    identifiers cfg path (Parser.tracking_metadata p) in
  let robot :=
    existsb (fun robot => robot (Hit.user_agent h)) (Parser.user_agents p) in
  exists h',
    Parser.all_checks (Parser.check_methods cfg p) h st
    = Ok (true, h',
          if robot then Statistics.incr_skipped_user_agent st else st)
    /\ cvars h'
       = (cvars h
          ++ numbered (S (List.length (cvars h)))
               (map (pair "oaipmhID") (downloads ++ metadata)))%list
    /\ Hit.is_download h'
       = Hit.is_download h || negb (bool_decide (downloads = []))
    /\ Hit.is_meta h' = Hit.is_meta h || negb (bool_decide (metadata = []))
    /\ Hit.is_error h' = Hit.is_error h || (4 <=? d) && (d <=? 5)
    /\ Hit.is_redirect h'
       = Hit.is_redirect h
         || bool_decide (c = "3"%char)
            && negb (bool_decide (String c rest = "304"))
    /\ Hit.is_robot h' = Hit.is_robot h || robot.
Proof.
  intros Hp Hs Hd Hbd Hbm Hr downloads metadata robot.
  destruct (check_download_from_spec cfg path (Parser.tracking_download p) h
              Hp Hbd Hr)
    as (h1 & E1 & V1 & D1 & M1 & Ro1 & Er1 & Re1 & R1 & K1).
  assert (Hp1 : Hit.path h1 = VStr path).
  { destruct K1 as (_&_&_&_&_&Hx&_). congruence. }
  assert (Hs1 : Hit.status h1 = VStr (String c rest)).
  { destruct K1 as (_&_&Hx&_). congruence. }
  assert (Hu1 : Hit.user_agent h1 = Hit.user_agent h).
  { destruct K1 as (_&_&_&_&_&_&_&Hx&_). exact Hx. }
  set (error := (4 <=? d) && (d <=? 5)).
  set (redirect := bool_decide (c = "3"%char)
                   && negb (bool_decide (String c rest = "304"))).
  set (h2 := if error then Hit.set_is_error true h1 else h1).
  set (h3 := if redirect then Hit.set_is_redirect true h2 else h2).
  assert (Hp3 : Hit.path h3 = VStr path).
  { unfold h3, h2. destruct redirect, error; exact Hp1. }
  assert (Hr3 : cvar_ready h3).
  { unfold h3, h2. destruct redirect, error; exact R1. }
  assert (V3 : cvars h3 = cvars h1).
  { unfold h3, h2. destruct redirect, error; reflexivity. }
  destruct (check_static_from_spec cfg path (Parser.tracking_metadata p) h3
              Hp3 Hbm Hr3)
    as (h4 & E4 & V4 & M4 & D4 & Ro4 & Er4 & Re4 & R4 & K4).
  assert (Hu4 : Hit.user_agent h4 = Hit.user_agent h).
  { destruct K4 as (_&_&_&_&_&_&_&Hx&_). rewrite Hx.
    unfold h3, h2. destruct redirect, error; exact Hu1. }
  exists (if robot then Hit.set_is_robot true h4 else h4).
  split.
  { unfold Parser.check_methods.
    cbn [Parser.all_checks].
    unfold Parser.check_download at 1. rewrite E1.
    unfold Parser.check_http_error at 1. rewrite Hs1.
    cbn [Parser.first_char]. rewrite Hd. fold error.
    assert (Hs2 : Hit.status h2 = VStr (String c rest)).
    { unfold h2. destruct error; exact Hs1. }
    replace (if error then Ok (true, Hit.set_is_error true h1, st)
             else Ok (true, h1, st))
      with (Ok (true, h2, st) : Res (bool * Hit.t * Statistics.t))
      by (unfold h2; destruct error; reflexivity).
    cbn iota.
    unfold Parser.check_http_redirect at 1. rewrite Hs2.
    cbn [Parser.first_char Parser.is_text]. fold redirect.
    replace (if redirect then Ok (true, Hit.set_is_redirect true h2, st)
             else Ok (true, h2, st))
      with (Ok (true, h3, st) : Res (bool * Hit.t * Statistics.t))
      by (unfold h3; destruct redirect; reflexivity).
    cbn iota.
    unfold Parser.check_static at 1. rewrite E4.
    unfold Parser.check_user_agent. rewrite Hu4. fold robot.
    destruct robot; reflexivity. }
  assert (V : cvars (if robot then Hit.set_is_robot true h4 else h4)
              = cvars h4) by (destruct robot; reflexivity).
  rewrite V, V4, V3, V1.
  split.
  { rewrite map_app, numbered_app, length_app, numbered_length, length_map.
    rewrite <- app_assoc. do 3 f_equal. cbn.
    unfold downloads. rewrite length_map. reflexivity. }
  fold downloads in D1. fold metadata in M4.
  split.
  { transitivity (Hit.is_download h4); [destruct robot; reflexivity|].
    rewrite D4. unfold h3, h2.
    replace (bool_decide (downloads = []))
      with (bool_decide (identifiers cfg path (Parser.tracking_download p) = []))
      by (apply bool_decide_ext; unfold downloads;
          unfold identifiers;
          destruct (omap _ _); cbn; split; congruence).
    destruct redirect, error; exact D1. }
  split.
  { transitivity (Hit.is_meta h4); [destruct robot; reflexivity|].
    rewrite M4. f_equal. unfold h3, h2.
    destruct redirect, error; exact M1. }
  split.
  { transitivity (Hit.is_error h4); [destruct robot; reflexivity|].
    rewrite Er4. unfold h3, h2.
    destruct redirect, error; cbn; rewrite ?Er1, ?orb_true_r, ?orb_false_r;
      reflexivity. }
  split.
  { transitivity (Hit.is_redirect h4); [destruct robot; reflexivity|].
    rewrite Re4. unfold h3, h2.
    destruct redirect, error; cbn; rewrite ?Re1, ?orb_true_r, ?orb_false_r;
      reflexivity. }
  destruct robot; cbn; rewrite ?Ro4, ?orb_true_r, ?orb_false_r;
    try reflexivity.
  unfold h3, h2. destruct redirect, error; exact Ro1.
Qed.

Lemma X4_check_chain_witness :
  let p := Parser.mk [record_pattern; any_pattern]
             [any_pattern; record_pattern] [is_substring "Mozilla"] in
  let h := hit_at "404" "/record/42" in
  Hit.path h = VStr "/record/42"
  /\ Hit.status h = VStr "404"
  /\ int_of_char "4" = Ok 4
  /\ patterns_behave "/record/42" (Parser.tracking_download p)
  /\ patterns_behave "/record/42" (Parser.tracking_metadata p)
  /\ cvar_ready h
  /\ exists h',
       Parser.all_checks (Parser.check_methods Sample.config p) h
         Statistics.init
       = Ok (true, h', Statistics.incr_skipped_user_agent Statistics.init)
       /\ cvars h' = [(1%nat, ("oaipmhID", "oai:example.org:42"));
                      (2%nat, ("oaipmhID", "oai:example.org:42"));
                      (3%nat, ("oaipmhID", "oai:example.org:42"))]
       /\ Hit.is_download h' = true /\ Hit.is_meta h' = true
       /\ Hit.is_error h' = true /\ Hit.is_redirect h' = false
       /\ Hit.is_robot h' = true.
Proof.
  intros p h.
  assert (Hd : patterns_behave "/record/42" (Parser.tracking_download p))
    by (repeat constructor; discriminate).
  assert (Hm : patterns_behave "/record/42" (Parser.tracking_metadata p))
    by (repeat constructor; discriminate).
  exact (conj eq_refl (conj eq_refl (conj eq_refl (conj Hd (conj Hm (conj I
           (X4_check_chain Sample.config p h Statistics.init "/record/42"
              "4" "04" 4 eq_refl eq_refl eq_refl Hd Hm I))))))).
Defined.

(** ** Matomo: the retry loop for any number of attempts *)

Section RetryLoop.
Context {B : Builtins} {Request : Type}.

Lemma after_attempts_none cfg (data : Data Request) (w : World Request) :
  after_attempts cfg 0 0 data w = w.
Proof.
  destruct w. unfold after_attempts. cbn. rewrite !app_nil_r. reflexivity.
Qed.

Lemma down_for_tail (network : nat -> Data Request -> Res string) first k :
  down_for network first (S k) -> down_for network (S first) k.
Proof. intros H i data Hi. apply H. lia. Qed.

(** [k] failures in a row that the error count allows: the wrapper
    makes [k] requests and sleeps [k] times, and goes on. *)
Lemma _call_wrapper_from_failures (cfg : Config)
    (network : nat -> Data Request -> Res string) expected_response
    on_failure (data : Data Request) :
  forall (k errors : nat) (w : World Request),
    down_for network (List.length (sent w)) k ->
    (k = 0%nat
     \/ (Z.of_nat (errors + k) < default_max_attempts cfg
         /\ 0 <= delay_after_failure cfg)) ->
    Matomo._call_wrapper_from cfg
      (Matomo._call (Matomo.mk (Matomo._real_request network)))
      expected_response on_failure errors data w
    = Matomo._call_wrapper_from cfg
        (Matomo._call (Matomo.mk (Matomo._real_request network)))
        expected_response on_failure (errors + k) data
        (after_attempts cfg k k data w).
Proof.
  induction k as [|k IH]; intros errors w Hdown Hmax.
  - rewrite Nat.add_0_r, after_attempts_none. reflexivity.
  - destruct Hmax as [Hmax|[Hmax Hdelay]]; [discriminate|].
    destruct (Hdown (List.length (sent w)) data) as (e & m & c & Hn & Hc);
      [lia|].
    rewrite _call_wrapper_from_unfold.
    rewrite (attempt_fails _ _ _ _ _ _ _ _ (_call_fails network data w e m c Hn Hc)).
    destruct (Z_lt_dec (Z.of_nat (S errors)) (default_max_attempts cfg))
      as [_|Hge]; [|lia].
    rewrite (time_sleep_returns _ _ Hdelay).
    rewrite IH.
    + replace (S errors + k)%nat with (errors + S k)%nat by lia.
      f_equal. unfold after_attempts, set_slept, set_sent. cbn.
      rewrite <- !app_assoc. reflexivity.
    + cbn. rewrite length_app. cbn.
      replace (List.length (sent w) + 1)%nat with (S (List.length (sent w)))
        by lia.
      apply down_for_tail, Hdown.
    + right. split; [lia|exact Hdelay].
Qed.

End RetryLoop.

(** X5: with a network that fails on every request and a delay that
    [time.sleep] accepts (it is not negative, or no retry is allowed),
    [Matomo.call] makes max(1, max_attempts) requests with the same
    body, sleeps the configured delay between two of them (one time
    fewer), and raises [Matomo.Error] with the message and code of the
    last failure, whatever the number of attempts configured, zero and
    negative numbers included. *)
Theorem X5_network_down_exhausts_attempts {B : Builtins} {Request : Type}
    (cfg : Config) (network : nat -> Data Request -> Res string)
    (expected_content : option string)
    (on_failure : option (string -> Data Request -> Res string * Data Request))
    (data : Data Request) (w : World Request) :
  network_down network ->
  default_max_attempts cfg <= 1 \/ 0 <= delay_after_failure cfg ->
  exists e message code,
    network (List.length (sent w) + (attempts_allowed cfg - 1))%nat data
    = Raise e
    /\ Matomo.caught e = Some (message, code)
    /\ Matomo.call cfg (Matomo.mk (Matomo._real_request network))
         expected_content on_failure data w
       = (Raise (MatomoError message code), data,
          after_attempts cfg (attempts_allowed cfg) (attempts_allowed cfg - 1)
            data w).
Proof.
  intros Hdown Hdelay.
  set (k := (attempts_allowed cfg - 1)%nat).
  destruct (Hdown (List.length (sent w) + k)%nat data)
    as (e & m & c & Hn & Hc).
  exists e, m, c. split; [exact Hn|]. split; [exact Hc|].
  unfold Matomo.call, Matomo._call_wrapper.
  rewrite (_call_wrapper_from_failures cfg network expected_content
             on_failure data k 0 w).
  - rewrite _call_wrapper_from_unfold.
    assert (Hlen : List.length (sent (after_attempts cfg k k data w))
                   = (List.length (sent w) + k)%nat).
    { cbn. rewrite length_app, length_replicate. reflexivity. }
    rewrite <- Hlen in Hn.
    rewrite (attempt_fails _ _ _ _ _ _ _ _
               (_call_fails network data _ e m c Hn Hc)).
    destruct (Z_lt_dec (Z.of_nat (S (0 + k))) (default_max_attempts cfg))
      as [Hlt|_].
    + exfalso. unfold k, attempts_allowed in Hlt. lia.
    + f_equal. unfold after_attempts, set_sent. cbn.
      rewrite <- !app_assoc. f_equal. f_equal.
      replace (attempts_allowed cfg) with (k + 1)%nat
        by (unfold k, attempts_allowed; lia).
      rewrite replicate_add. reflexivity.
  - intros i d _. apply Hdown.
  - unfold k, attempts_allowed. lia.
Qed.

Lemma X5_network_down_witness :
  let cfg := mkConfig false "oai:example.org:" 0 "secret" 10 5
               200%nat false in
  let data := mkData "secret" [7] in
  @network_down Sample.builtins Z refusing
  /\ (default_max_attempts cfg <= 1 \/ 0 <= delay_after_failure cfg)
  /\ exists e message code,
       @refusing Z 4%nat data = Raise e
       /\ @Matomo.caught Sample.builtins e = Some (message, code)
       /\ @Matomo.call Sample.builtins Z cfg
            (Matomo.mk (Matomo._real_request refusing)) None None data
            Sample.world
          = (Raise (MatomoError message code), data,
             mkWorld (State.start State.init) Statistics.init []
               [data; data; data; data; data] [10; 10; 10; 10]).
Proof.
  intros cfg data.
  assert (Hdown : @network_down Sample.builtins Z refusing).
  { intros n d. exists (URLError "Connection refused"), "Connection refused",
      None. split; reflexivity. }
  assert (Hdelay : default_max_attempts cfg <= 1
                   \/ 0 <= delay_after_failure cfg)
    by (right; vm_compute; discriminate).
  exact (conj Hdown (conj Hdelay
           (@X5_network_down_exhausts_attempts Sample.builtins Z cfg refusing
              None None data Sample.world Hdown Hdelay))).
Defined.

(** X6: when the network fails [k] times in a row, with [k] below
    max(1, max_attempts), and then answers, [Matomo.call] returns that
    answer after [k + 1] requests with the same body and [k] delays,
    provided no other content is expected and [time.sleep] accepts the
    delay (it is not negative, or the first request is answered). *)
Theorem X6_call_returns_after_failures {B : Builtins} {Request : Type}
    (cfg : Config) (network : nat -> Data Request -> Res string)
    (expected_content : option string)
    (on_failure : option (string -> Data Request -> Res string * Data Request))
    (data : Data Request) (w : World Request) (k : nat)
    (response : string) :
  down_for network (List.length (sent w)) k ->
  (k < attempts_allowed cfg)%nat ->
  k = 0%nat \/ 0 <= delay_after_failure cfg ->
  network (List.length (sent w) + k)%nat data = Ok response ->
  expected_content = None \/ expected_content = Some response ->
  Matomo.call cfg (Matomo.mk (Matomo._real_request network))
    expected_content on_failure data w
  = (Ok response, data, after_attempts cfg (S k) k data w).
Proof.
  intros Hdown Hk Hdelay Hn Hexp.
  unfold Matomo.call, Matomo._call_wrapper.
  rewrite (_call_wrapper_from_failures cfg network expected_content
             on_failure data k 0 w Hdown).
  - rewrite _call_wrapper_from_unfold.
    unfold Matomo.attempt, Matomo._call. cbn [Matomo._send_request].
    assert (Hlen : List.length (sent (after_attempts cfg k k data w))
                   = (List.length (sent w) + k)%nat).
    { cbn. rewrite length_app, length_replicate. reflexivity. }
    rewrite Hlen, Hn.
    assert (Hw : set_sent (sent (after_attempts cfg k k data w) ++ [data])%list
                   (after_attempts cfg k k data w)
                 = after_attempts cfg (S k) k data w).
    { unfold after_attempts, set_sent.
      cbn [sent state stats queue slept].
      rewrite replicate_S_end, app_assoc. reflexivity. }
    rewrite Hw.
    destruct Hexp as [->| ->]; [reflexivity|].
    rewrite bool_decide_eq_true_2 by reflexivity. reflexivity.
  - unfold attempts_allowed in Hk. lia.
Qed.

Lemma X6_call_returns_witness :
  let data := mkData "secret" [7] in
  @down_for Sample.builtins Z recovering (List.length (sent Sample.world)) 2
  /\ (2 < attempts_allowed Sample.config)%nat
  /\ (2%nat = 0%nat \/ 0 <= delay_after_failure Sample.config)
  /\ @recovering Z (List.length (sent Sample.world) + 2)%nat data = Ok "{}"
  /\ @Matomo.call Sample.builtins Z Sample.config
       (Matomo.mk (Matomo._real_request recovering)) (Some "{}") None data
       Sample.world
     = (Ok "{}", data,
        mkWorld (State.start State.init) Statistics.init []
          [data; data; data] [10; 10]).
Proof.
  intros data.
  assert (Hdown : @down_for Sample.builtins Z recovering
                    (List.length (sent Sample.world)) 2).
  { intros i d Hi. cbn in Hi.
    exists (URLError "Connection refused"), "Connection refused", None.
    destruct i as [|[|i]]; [split; reflexivity..|lia]. }
  assert (Hk : (2 < attempts_allowed Sample.config)%nat)
    by (vm_compute; lia).
  assert (Hdelay : 2%nat = 0%nat \/ 0 <= delay_after_failure Sample.config)
    by (right; vm_compute; discriminate).
  exact (conj Hdown (conj Hk (conj Hdelay (conj eq_refl
           (@X6_call_returns_after_failures Sample.builtins Z Sample.config
              recovering (Some "{}") None data Sample.world 2 "{}"
              Hdown Hk Hdelay eq_refl (or_intror eq_refl)))))).
Defined.

(** ** Recorder: the worker's loop *)

Section Worker.
Context {B : Builtins} {Request : Type}.
Context (_get_hit_args : Hit.t -> Res (Request * Hit.t)).

Lemma all_hit_args_length (hs : list Hit.t) :
  List.length (Recorder.all_hit_args _get_hit_args hs).2 = List.length hs.
Proof.
  induction hs as [|h rest IH]; cbn; [reflexivity|].
  destruct (_get_hit_args h) as [[request h']|e]; cbn; [|reflexivity].
  destruct (Recorder.all_hit_args _get_hit_args rest) as [[reqs|e] rest'];
    cbn in *; congruence.
Qed.

(** When [_record_hits] raises, the worker still holds hits. *)
Lemma _record_hits_raise_keeps_hits cfg (m : Matomo.t Request)
    (r r1 : Recorder.t) (w w1 : World Request) e :
  Recorder._record_hits _get_hit_args cfg m r w = (Raise e, r1, w1) ->
  Recorder.hits r1 <> [].
Proof.
  unfold Recorder._record_hits.
  destruct (Recorder.hits r) as [|h hs] eqn:Hh; [discriminate|].
  pose proof (all_hit_args_length (h :: hs)) as Hlen.
  destruct (Recorder.all_hit_args _get_hit_args (h :: hs))
    as [[reqs|e'] hs'] eqn:Ha; cbn in Hlen.
  - destruct (Matomo.call _ _ _ _ _ _) as [[[response|e''] data1] w2].
    + destruct (Recorder.inspect_reply _ _); [discriminate|].
      intros [= <- <- <-]. cbn. destruct hs'; [discriminate|discriminate].
    + intros [= <- <- <-]. cbn. destruct hs'; [discriminate|discriminate].
  - intros [= <- <- <-]. cbn. destruct hs'; [discriminate|discriminate].
Qed.

Lemma on_error_never_dies (r : Recorder.t) (w : World Request) e :
  Recorder.hits r <> [] ->
  match (Recorder.on_error e r w).1 with
  | Recorder.Died _ => False
  | _ => True
  end.
Proof.
  intros Hr. unfold Recorder.on_error.
  destruct e; cbn; try exact I.
  destruct (Recorder.hits r); [contradiction|exact I].
Qed.

End Worker.

(** X7: a worker's loop never ends on an exception of its own
    handlers.  When [_record_hits] raises, the worker still holds the
    hits of the batch, so [self.hits[0]] in the handler of
    [Matomo.Error] finds a hit: whatever the queue holds and whatever
    the network and [_get_hit_args] do, the worker terminates on the
    sentinel, stops the run, or waits for the next item. *)
Theorem X7_worker_handlers_never_raise {B : Builtins} {Request : Type}
    (_get_hit_args : Hit.t -> Res (Request * Hit.t)) (cfg : Config)
    (m : Matomo.t Request) (items : list (option Hit.t)) (r : Recorder.t)
    (w : World Request) :
  match (Recorder.run_items _get_hit_args cfg m items r w).1.1.1 with
  | Recorder.Died _ => False
  | _ => True
  end.
Proof.
  revert r w. induction items as [|[hit|] rest IH]; intros r w;
    cbn [Recorder.run_items].
  - exact I.
  - destruct (_ <=? _)%nat; [|apply IH].
    destruct (Recorder._record_hits _ _ _ _ _) as [[[u|e'] r2] w1] eqn:Hr;
      [apply IH|].
    pose proof (on_error_never_dies r2 w1 e'
                  (_record_hits_raise_keeps_hits _ _ _ _ _ _ _ _ Hr)) as Hd.
    destruct (Recorder.on_error e' r2 w1) as [o w2]. exact Hd.
  - destruct (Recorder._record_hits _ _ _ _ _) as [[[u|e'] r2] w1] eqn:Hr;
      [exact I|].
    pose proof (on_error_never_dies r2 w1 e'
                  (_record_hits_raise_keeps_hits _ _ _ _ _ _ _ _ Hr)) as Hd.
    destruct (Recorder.on_error e' r2 w1) as [o w2]. exact Hd.
Qed.

Section Batching.
Context {B : Builtins} {Request : Type}.
Context (_get_hit_args : Hit.t -> Res (Request * Hit.t)).
Context (request_of : Hit.t -> Request) (rewrite_of : Hit.t -> Hit.t).
Hypothesis _get_hit_args_returns :
  forall h, _get_hit_args h = Ok (request_of h, rewrite_of h).
Context (cfg : Config) (network : nat -> Data Request -> Res string).
Hypothesis network_accepts : forall n data, network n data = Ok "{}".
Hypothesis empty_object : json_loads "{}" = Some (VDict []).

Lemma all_hit_args_returns (hs : list Hit.t) :
  Recorder.all_hit_args _get_hit_args hs
  = (Ok (map request_of hs), map rewrite_of hs).
Proof.
  induction hs as [|h rest IH]; cbn; [reflexivity|].
  rewrite _get_hit_args_returns, IH. reflexivity.
Qed.

Lemma advance_value n (c : Statistics.Counter) :
  Statistics.value (Statistics.advance n c) = (Statistics.value c + n)%nat.
Proof.
  revert c. induction n as [|n IH]; intros c; cbn; [lia|].
  rewrite IH. cbn. lia.
Qed.

Lemma advance_add n k (c : Statistics.Counter) :
  Statistics.advance k (Statistics.advance n c) = Statistics.advance (n + k) c.
Proof.
  revert c. induction n as [|n IH]; intros c; cbn; [reflexivity|]. apply IH.
Qed.

Lemma after_bodies_nil (w : World Request) : after_bodies [] w = w.
Proof.
  destruct w as [st [p rec s u d] q se sl]. unfold after_bodies. cbn.
  rewrite app_nil_r. reflexivity.
Qed.

Lemma after_bodies_cons (body : Data Request) bodies (w : World Request) :
  after_bodies bodies (after_bodies [body] w) = after_bodies (body :: bodies) w.
Proof.
  unfold after_bodies, requests_of, Statistics.advance_recorded. cbn.
  rewrite app_nil_r, length_app, advance_add, <- app_assoc. reflexivity.
Qed.

Lemma call_accepted on_failure (data : Data Request) (w : World Request) :
  Matomo.call cfg (Matomo.mk (Matomo._real_request network)) None on_failure
    data w
  = (Ok "{}", data, set_sent (sent w ++ [data])%list w).
Proof.
  unfold Matomo.call, Matomo._call_wrapper.
  rewrite _call_wrapper_from_unfold.
  unfold Matomo.attempt, Matomo._call. cbn. rewrite network_accepts.
  reflexivity.
Qed.

(** A flush of a batch that the collector accepts. *)
Lemma _record_hits_accepted (r : Recorder.t) (w : World Request) :
  Recorder.hits r <> [] ->
  Recorder._record_hits _get_hit_args cfg
    (Matomo.mk (Matomo._real_request network)) r w
  = (Ok tt, Recorder.set_hits [] r,
     after_bodies [body_of cfg request_of (Recorder.hits r)] w).
Proof.
  intros Hr. unfold Recorder._record_hits.
  destruct (Recorder.hits r) as [|h hs] eqn:Hh; [contradiction|].
  rewrite all_hit_args_returns, call_accepted, empty_object. cbn.
  unfold after_bodies, requests_of, body_of, set_stats, set_sent. cbn.
  rewrite app_nil_r, !length_map. reflexivity.
Qed.

Lemma run_items_app (m : Matomo.t Request) items1 items2 :
  forall (r r' : Recorder.t) (w w' : World Request),
    Recorder.run_items _get_hit_args cfg m items1 r w
    = (Recorder.Blocked, r', w', []) ->
    Recorder.run_items _get_hit_args cfg m (items1 ++ items2) r w
    = Recorder.run_items _get_hit_args cfg m items2 r' w'.
Proof.
  induction items1 as [|[hit|] rest IH]; intros r r' w w';
    cbn [Recorder.run_items app].
  - intros [= <- <-]. reflexivity.
  - destruct (_ <=? _)%nat; [|apply IH].
    destruct (Recorder._record_hits _ _ _ _ _) as [[[u|e] r2] w1];
      [apply IH|].
    destruct (Recorder.on_error e r2 w1) as [o w2] eqn:Ho.
    intros [= -> _ _ _]. exfalso.
    unfold Recorder.on_error in Ho.
    destruct e, (Recorder.hits r2); discriminate.
  - destruct (Recorder._record_hits _ _ _ _ _) as [[[u|e] r2] w1];
      [discriminate|].
    destruct (Recorder.on_error e r2 w1) as [o w2] eqn:Ho.
    intros [= -> _ _ _]. exfalso.
    unfold Recorder.on_error in Ho.
    destruct e, (Recorder.hits r2); discriminate.
Qed.

(** The hits a worker takes from the queue before any sentinel: it
    sends full batches only and keeps the rest. *)
Lemma run_items_hits (hs : list Hit.t) :
  forall (r : Recorder.t) (w : World Request),
    (List.length (Recorder.hits r) < Recorder.threshold r)%nat ->
    exists batches pending,
      Recorder.run_items _get_hit_args cfg
        (Matomo.mk (Matomo._real_request network)) (map Some hs) r w
      = (Recorder.Blocked, Recorder.set_hits pending r,
         after_bodies (map (body_of cfg request_of) batches) w, [])
      /\ (Recorder.hits r ++ hs = concat batches ++ pending)%list
      /\ Forall (fun batch => List.length batch = Recorder.threshold r)
           batches
      /\ (List.length pending < Recorder.threshold r)%nat.
Proof.
  induction hs as [|hit rest IH]; intros r w Hlt;
    cbn [map Recorder.run_items].
  - exists [], (Recorder.hits r). cbn [map concat].
    rewrite after_bodies_nil, app_nil_r.
    split; [destruct r; reflexivity|]. split; [reflexivity|].
    split; [constructor|exact Hlt].
  - set (r1 := Recorder.set_hits (Recorder.hits r ++ [hit])%list r).
    destruct (Recorder.threshold r1 <=? List.length (Recorder.hits r1))%nat
      eqn:Hfull.
    + apply Nat.leb_le in Hfull. cbn in Hfull. rewrite length_app in Hfull.
      cbn in Hfull.
      rewrite (_record_hits_accepted r1 w)
        by (cbn; destruct (Recorder.hits r); discriminate).
      destruct (IH (Recorder.set_hits [] r1)
                  (after_bodies [body_of cfg request_of (Recorder.hits r1)] w))
        as (batches & pending & Hrun & Hall & Hsize & Hpend);
        [cbn; lia|].
      exists ((Recorder.hits r ++ [hit])%list :: batches), pending.
      rewrite Hrun. cbn [map]. rewrite after_bodies_cons.
      split; [reflexivity|].
      split; [cbn in Hall |- *; rewrite Hall, <- !app_assoc; reflexivity|].
      split; [|exact Hpend].
      constructor; [rewrite length_app; cbn; lia|exact Hsize].
    + apply Nat.leb_gt in Hfull. cbn in Hfull.
      destruct (IH r1 w) as (batches & pending & Hrun & Hall & Hsize & Hpend);
        [exact Hfull|].
      exists batches, pending. rewrite Hrun.
      split; [reflexivity|].
      split; [cbn in Hall; rewrite <- Hall, <- app_assoc; reflexivity|].
      split; [exact Hsize|exact Hpend].
Qed.

End Batching.

(** X8: what a worker does with the hits it takes from the queue when
    no sentinel follows, the collector accepting every body and
    [_get_hit_args] returning for every hit.  It sends full batches
    only, each of exactly [threshold] hits with the configured token,
    in the order of the queue, counts them as recorded, and keeps the
    fewer than [threshold] hits that are left, waiting for the next
    item. *)
Theorem X8_worker_sends_full_batches {B : Builtins} {Request : Type}
    (_get_hit_args : Hit.t -> Res (Request * Hit.t))
    (request_of : Hit.t -> Request) (rewrite_of : Hit.t -> Hit.t)
    (cfg : Config) (network : nat -> Data Request -> Res string)
    (hs : list Hit.t) (r : Recorder.t) (w : World Request) :
  (forall h, _get_hit_args h = Ok (request_of h, rewrite_of h)) ->
  (forall n data, network n data = Ok "{}") ->
  json_loads "{}" = Some (VDict []) ->
  (List.length (Recorder.hits r) < Recorder.threshold r)%nat ->
  exists batches pending,
    Recorder.run_items _get_hit_args cfg
      (Matomo.mk (Matomo._real_request network)) (map Some hs) r w
    = (Recorder.Blocked, Recorder.set_hits pending r,
       after_bodies (map (body_of cfg request_of) batches) w, [])
    /\ (Recorder.hits r ++ hs = concat batches ++ pending)%list
    /\ Forall (fun batch => List.length batch = Recorder.threshold r) batches
    /\ (List.length pending < Recorder.threshold r)%nat.
Proof.
  intros Hargs Hnet Hjson Hlt.
  exact (run_items_hits _get_hit_args request_of rewrite_of Hargs cfg network
           Hnet Hjson hs r w Hlt).
Qed.

(** The hits a worker takes from the queue up to the sentinel. *)
Lemma run_items_to_sentinel {B : Builtins} {Request : Type}
    (_get_hit_args : Hit.t -> Res (Request * Hit.t))
    (request_of : Hit.t -> Request) (rewrite_of : Hit.t -> Hit.t)
    (cfg : Config) (network : nat -> Data Request -> Res string)
    (hs : list Hit.t) (rest : list (option Hit.t)) (r : Recorder.t)
    (w : World Request) :
  (forall h, _get_hit_args h = Ok (request_of h, rewrite_of h)) ->
  (forall n data, network n data = Ok "{}") ->
  json_loads "{}" = Some (VDict []) ->
  (List.length (Recorder.hits r) < Recorder.threshold r)%nat ->
  exists bodies,
    Recorder.run_items _get_hit_args cfg
      (Matomo.mk (Matomo._real_request network))
      (map Some hs ++ None :: rest) r w
    = (Recorder.Terminated, Recorder.set_hits [] r, after_bodies bodies w,
       rest)
    /\ requests_of bodies = map request_of (Recorder.hits r ++ hs)
    /\ Forall (well_formed_body cfg (Recorder.threshold r)) bodies
    /\ Statistics.value
         (Statistics.count_lines_recorded (stats (after_bodies bodies w)))
       = (Statistics.value (Statistics.count_lines_recorded (stats w))
          + List.length (Recorder.hits r ++ hs))%nat.
Proof.
  intros Hargs Hnet Hjson Hlt.
  destruct (run_items_hits _get_hit_args request_of rewrite_of Hargs cfg
              network Hnet Hjson hs r w Hlt)
    as (batches & pending & Hrun & Hall & Hsize & Hpend).
  rewrite (run_items_app _get_hit_args cfg _ _ (None :: rest) _ _ _ _ Hrun).
  cbn [Recorder.run_items].
  assert (Hreq : forall bs : list (list Hit.t),
            requests_of (map (body_of cfg request_of) bs)
            = map request_of (concat bs)).
  { induction bs as [|b bs IHb]; [reflexivity|].
    unfold requests_of in *. cbn. rewrite IHb, map_app. reflexivity. }
  assert (Hwf : Forall (well_formed_body cfg (Recorder.threshold r))
                  (map (body_of cfg request_of) batches)).
  { apply Forall_map. eapply Forall_impl; [exact Hsize|].
    intros batch Hb. split; [reflexivity|]. cbn. rewrite length_map. cbn beta in Hb. lia. }
  assert (Hcount : forall bodies,
            Statistics.value
              (Statistics.count_lines_recorded (stats (after_bodies bodies w)))
            = (Statistics.value (Statistics.count_lines_recorded (stats w))
               + List.length (requests_of bodies))%nat).
  { intros bodies. cbn. apply advance_value. }
  destruct pending as [|p pending].
  - exists (map (body_of cfg request_of) batches).
    split; [unfold Recorder._record_hits; cbn; reflexivity|].
    rewrite Hcount, Hreq, Hall, app_nil_r, length_map.
    split; [reflexivity|]. split; [exact Hwf|reflexivity].
  - rewrite (_record_hits_accepted _get_hit_args request_of rewrite_of Hargs
               cfg network Hnet Hjson) by (cbn; discriminate).
    exists (map (body_of cfg request_of) (batches ++ [p :: pending])).
    split.
    { cbn [Recorder.hits Recorder.set_hits].
      replace (after_bodies [body_of cfg request_of (p :: pending)]
                 (after_bodies (map (body_of cfg request_of) batches) w))
        with (after_bodies
                (map (body_of cfg request_of) (batches ++ [p :: pending])) w);
        [reflexivity|].
      rewrite map_app. cbn [map].
      unfold after_bodies, requests_of, Statistics.advance_recorded.
      cbn [state stats queue sent slept Statistics.count_lines_parsed
           Statistics.count_lines_recorded Statistics.count_lines_static
           Statistics.count_lines_skipped_user_agent
           Statistics.count_lines_downloads].
      rewrite map_app, concat_app, length_app, advance_add, <- app_assoc.
      reflexivity. }
    rewrite Hcount, Hreq, Hall, concat_app, length_map. cbn [concat].
    rewrite app_nil_r.
    split; [reflexivity|]. split; [|reflexivity].
    rewrite map_app. apply Forall_app. split; [exact Hwf|].
    constructor; [|constructor]. split; [reflexivity|].
    cbn [body_of requests]. rewrite length_map. cbn in Hpend |- *. lia.
Qed.

(** X9: with the sentinel behind them, every hit is sent exactly once
    and in order.  The worker terminates with no hit left, the
    requests of the bodies it sent are those of the hits it held and
    took, every body carries the configured token and between one and
    [threshold] requests, the counter of recorded lines has advanced
    by the number of hits, and the items behind the sentinel stay in
    the queue. *)
Theorem X9_worker_sends_every_hit_once {B : Builtins} {Request : Type}
    (_get_hit_args : Hit.t -> Res (Request * Hit.t))
    (request_of : Hit.t -> Request) (rewrite_of : Hit.t -> Hit.t)
    (cfg : Config) (network : nat -> Data Request -> Res string)
    (hs : list Hit.t) (rest : list (option Hit.t)) (r : Recorder.t)
    (w : World Request) :
  (forall h, _get_hit_args h = Ok (request_of h, rewrite_of h)) ->
  (forall n data, network n data = Ok "{}") ->
  json_loads "{}" = Some (VDict []) ->
  (List.length (Recorder.hits r) < Recorder.threshold r)%nat ->
  exists bodies,
    Recorder.run_items _get_hit_args cfg
      (Matomo.mk (Matomo._real_request network))
      (map Some hs ++ None :: rest) r w
    = (Recorder.Terminated, Recorder.set_hits [] r, after_bodies bodies w,
       rest)
    /\ requests_of bodies = map request_of (Recorder.hits r ++ hs)
    /\ Forall (well_formed_body cfg (Recorder.threshold r)) bodies
    /\ Statistics.value
         (Statistics.count_lines_recorded (stats (after_bodies bodies w)))
       = (Statistics.value (Statistics.count_lines_recorded (stats w))
          + List.length (Recorder.hits r ++ hs))%nat.
Proof.
  intros Hargs Hnet Hjson Hlt.
  exact (run_items_to_sentinel _get_hit_args request_of rewrite_of cfg
           network hs rest r w Hargs Hnet Hjson Hlt).
Qed.

Lemma X8_worker_sends_full_batches_witness :
  (forall h, Sample.hit_args h = Ok (Hit.lineno h, h))
  /\ (forall n data, @accepting_network Z n data = Ok "{}")
  /\ @json_loads Sample.builtins "{}" = Some (VDict [])
  /\ (List.length (Recorder.hits recorder_of_two)
      < Recorder.threshold recorder_of_two)%nat
  /\ exists batches pending,
       @Recorder.run_items Sample.builtins Z Sample.hit_args Sample.config
         (Matomo.mk (Matomo._real_request accepting_network))
         (map Some (map Sample.hit_on_line [1; 2; 3; 4; 5]))
         recorder_of_two Sample.world
       = (Recorder.Blocked, Recorder.set_hits pending recorder_of_two,
          after_bodies (map (body_of Sample.config Hit.lineno) batches)
            Sample.world, [])
       /\ (Recorder.hits recorder_of_two
           ++ map Sample.hit_on_line [1; 2; 3; 4; 5]
           = concat batches ++ pending)%list
       /\ Forall (fun batch => List.length batch
                               = Recorder.threshold recorder_of_two) batches
       /\ (List.length pending < Recorder.threshold recorder_of_two)%nat.
Proof.
  assert (Hlt : (List.length (Recorder.hits recorder_of_two)
                 < Recorder.threshold recorder_of_two)%nat) by (cbn; lia).
  exact (conj (fun h => eq_refl) (conj (fun n data => eq_refl) (conj eq_refl
           (conj Hlt
              (@X8_worker_sends_full_batches Sample.builtins Z Sample.hit_args
                 Hit.lineno (fun h => h) Sample.config accepting_network
                 (map Sample.hit_on_line [1; 2; 3; 4; 5]) recorder_of_two
                 Sample.world (fun h => eq_refl) (fun n data => eq_refl)
                 eq_refl Hlt))))).
Defined.

Lemma X9_worker_sends_every_hit_once_witness :
  (forall h, Sample.hit_args h = Ok (Hit.lineno h, h))
  /\ (forall n data, @accepting_network Z n data = Ok "{}")
  /\ @json_loads Sample.builtins "{}" = Some (VDict [])
  /\ (List.length (Recorder.hits recorder_of_two)
      < Recorder.threshold recorder_of_two)%nat
  /\ exists bodies,
       @Recorder.run_items Sample.builtins Z Sample.hit_args Sample.config
         (Matomo.mk (Matomo._real_request accepting_network))
         (map Some (map Sample.hit_on_line [1; 2; 3; 4; 5]) ++ None :: [None])
         recorder_of_two Sample.world
       = (Recorder.Terminated, Recorder.set_hits [] recorder_of_two,
          after_bodies bodies Sample.world, [None])
       /\ requests_of bodies = [1; 2; 3; 4; 5]
       /\ Forall (well_formed_body Sample.config 2) bodies
       /\ Statistics.value
            (Statistics.count_lines_recorded
               (stats (after_bodies bodies Sample.world)))
          = 5%nat.
Proof.
  assert (Hlt : (List.length (Recorder.hits recorder_of_two)
                 < Recorder.threshold recorder_of_two)%nat) by (cbn; lia).
  exact (conj (fun h => eq_refl) (conj (fun n data => eq_refl) (conj eq_refl
           (conj Hlt
              (@X9_worker_sends_every_hit_once Sample.builtins Z
                 Sample.hit_args Hit.lineno (fun h => h) Sample.config
                 accepting_network (map Sample.hit_on_line [1; 2; 3; 4; 5])
                 [None] recorder_of_two Sample.world (fun h => eq_refl)
                 (fun n data => eq_refl) eq_refl Hlt))))).
Defined.

Section DryRun.
Context {B : Builtins} {Request : Type}.
Context (_get_hit_args : Hit.t -> Res (Request * Hit.t)).





End DryRun.



Section InvalidIndices.
Context {B : Builtins} {Request : Type}.
Context (_get_hit_args : Hit.t -> Res (Request * Hit.t)).
Context (request_of : Hit.t -> Request) (rewrite_of : Hit.t -> Hit.t).
Hypothesis _get_hit_args_returns :
  forall h, _get_hit_args h = Ok (request_of h, rewrite_of h).

Lemma list_index_in_range {A} (k : Z) (l : list A) :
  match list_index k l with
  | Ok _ => in_range (List.length l) k = true
  | Raise e => e = IndexError /\ in_range (List.length l) k = false
  end.
Proof.
  unfold list_index, in_range.
  destruct (0 <=? k) eqn:Hk.
  - apply Z.leb_le in Hk.
    destruct (k <? 0) eqn:Hn; [apply Z.ltb_lt in Hn; lia|].
    destruct (l !! Z.to_nat k) as [a|] eqn:Hl.
    + apply lookup_lt_Some in Hl.
      apply andb_true_intro. split; [apply Z.leb_le|apply Z.ltb_lt]; lia.
    + apply lookup_ge_None in Hl. split; [reflexivity|].
      apply andb_false_intro2, Z.ltb_ge. lia.
  - apply Z.leb_gt in Hk.
    destruct (Z.of_nat (List.length l) + k <? 0) eqn:Hn.
    + apply Z.ltb_lt in Hn. split; [reflexivity|].
      apply andb_false_intro1, Z.leb_gt. lia.
    + apply Z.ltb_ge in Hn.
      destruct (l !! Z.to_nat (Z.of_nat (List.length l) + k)) as [a|] eqn:Hl.
      * apply andb_true_intro. split; [apply Z.leb_le|apply Z.ltb_lt]; lia.
      * apply lookup_ge_None in Hl. lia.
Qed.

Lemma invalid_lines_in_range (indices : list Z) (hs : list Hit.t) :
  match Recorder.invalid_lines (map VInt indices) hs with
  | Ok _ => forallb (in_range (List.length hs)) indices = true
  | Raise e =>
      e = IndexError /\ forallb (in_range (List.length hs)) indices = false
  end.
Proof.
  induction indices as [|k ks IH]; cbn [map Recorder.invalid_lines forallb];
    [reflexivity|].
  pose proof (list_index_in_range k hs) as Hk.
  destruct (list_index k hs) as [h|e].
  - rewrite Hk. cbn [andb].
    destruct (Recorder.invalid_lines (map VInt ks) hs); exact IH.
  - destruct Hk as [-> ->]. split; reflexivity.
Qed.

End InvalidIndices.

(** X11: a reply that lists invalid requests.  When the collector
    answers a batch of [n] hits with an object whose [invalid_indices]
    is a non-empty list of integers, [_record_hits] counts the whole
    batch as recorded and forgets its hits if every index lies in
    [-n, n); if one does not, it raises [IndexError] after the body was
    sent: the hits stay with the worker and nothing is counted. *)
Theorem X11_invalid_indices {B : Builtins} {Request : Type}
    (_get_hit_args : Hit.t -> Res (Request * Hit.t))
    (request_of : Hit.t -> Request) (rewrite_of : Hit.t -> Hit.t)
    (cfg : Config) (network : nat -> Data Request -> Res string)
    (r : Recorder.t) (w : World Request) (body : string)
    (reply : list (string * Val)) (index : Z) (indices : list Z) :
  (forall h, _get_hit_args h = Ok (request_of h, rewrite_of h)) ->
  Recorder.hits r <> [] ->
  network (List.length (sent w)) (body_of cfg request_of (Recorder.hits r))
  = Ok body ->
  json_loads body = Some (VDict reply) ->
  dict_get "invalid_indices" reply = Some (VList (map VInt (index :: indices))) ->
  let n := List.length (Recorder.hits r) in
  let w1 :=
    set_sent (sent w ++ [body_of cfg request_of (Recorder.hits r)])%list w in
  Recorder._record_hits _get_hit_args cfg
    (Matomo.mk (Matomo._real_request network)) r w
  = if forallb (in_range n) (index :: indices)
    then (Ok tt, Recorder.set_hits [] r,
          set_stats (Statistics.advance_recorded n (stats w1)) w1)
    else (Raise IndexError,
          Recorder.set_hits (map rewrite_of (Recorder.hits r)) r, w1).
Proof.
  intros Hargs Hr Hnet Hjson Hidx n w1.
  unfold Recorder._record_hits.
  destruct (Recorder.hits r) as [|h hs] eqn:Hh; [contradiction|].
  rewrite (all_hit_args_returns _get_hit_args request_of rewrite_of Hargs).
  unfold Matomo.call, Matomo._call_wrapper.
  rewrite _call_wrapper_from_unfold.
  unfold Matomo.attempt, Matomo._call. cbn [Matomo._send_request].
  unfold body_of in Hnet. rewrite Hnet, Hjson.
  pose proof (invalid_lines_in_range (index :: indices)
                (map rewrite_of (h :: hs))) as Hin.
  rewrite length_map in Hin.
  change (map VInt (index :: indices))
    with (VInt index :: map VInt indices) in Hidx, Hin.
  unfold Recorder.inspect_reply. rewrite Hidx. cbv iota.
  destruct (Recorder.invalid_lines _ _) as [lines|e].
  - unfold n. rewrite Hin, length_map. reflexivity.
  - destruct Hin as [-> Hin]. unfold n. rewrite Hin. reflexivity.
Qed.

Lemma X11_invalid_indices_witness :
  let network : nat -> Data Z -> Res string := fun _ _ => Ok "invalid" in
  let w1 := set_sent [mkData "secret" [1; 2; 3]] Sample.world in
  (forall h, Sample.hit_args h = Ok (Hit.lineno h, h))
  /\ Recorder.hits three_hits <> []
  /\ network (List.length (sent Sample.world))
       (body_of Sample.config Hit.lineno (Recorder.hits three_hits))
     = Ok "invalid"
  /\ @json_loads (builtins_decoding [2; -3; 3]) "invalid"
     = Some (VDict (reporting [2; -3; 3]))
  /\ dict_get "invalid_indices" (reporting [2; -3; 3])
     = Some (VList (map VInt [2; -3; 3]))
  /\ @Recorder._record_hits (builtins_decoding [2; -3; 3]) Z Sample.hit_args
       Sample.config (Matomo.mk (Matomo._real_request network)) three_hits
       Sample.world
     = (Raise IndexError, three_hits, w1).
Proof.
  intros network w1.
  assert (Hr : Recorder.hits three_hits <> []) by discriminate.
  exact (conj (fun h => eq_refl) (conj Hr (conj eq_refl (conj eq_refl
           (conj eq_refl
              (@X11_invalid_indices (builtins_decoding [2; -3; 3]) Z
                 Sample.hit_args Hit.lineno (fun h => h) Sample.config network
                 three_hits Sample.world "invalid" (reporting [2; -3; 3])
                 2 [-3; 3] (fun h => eq_refl) Hr eq_refl eq_refl
                 eq_refl)))))).
Defined.

(** ** Parser: the loop over the lines *)

Section Loop.
Context {B : Builtins} {Request : Type}.

Lemma bind_Ok {A C} (m : Parser.M A) (k : A -> Parser.M C) f c g :
  Parser.bind m k f = (Ok c, g) ->
  exists a f1, m f = (Ok a, f1) /\ k a f1 = (Ok c, g).
Proof.
  unfold Parser.bind. destruct (m f) as [[a|e] f1]; [|discriminate].
  intros H. exists a, f1. split; [reflexivity|exact H].
Qed.

Lemma normalize_lineno cfg filename lineno (f g : Format) (hit : Hit.t) :
  Parser.normalize cfg filename lineno f = (Ok hit, g) ->
  Hit.lineno hit = lineno /\ Hit.filename hit = filename.
Proof.
  unfold Parser.normalize. intros H.
  repeat (apply bind_Ok in H; destruct H as (? & ? & _ & H)).
  unfold Parser.ret in H. injection H as <- _. split; reflexivity.
Qed.

Lemma read_date_keeps (hit hit2 : Hit.t) (f g : Format) :
  Parser.read_date hit f = (Ok (inr hit2), g) ->
  exists d, hit2 = Hit.set_date d hit.
Proof.
  unfold Parser.read_date. intros H.
  apply bind_Ok in H. destruct H as (s & f1 & _ & H).
  destruct (Parser.format_parseTime f1 s) as [d|[]]; try discriminate.
  destruct (Parser.read_float "timezone" f1) as [[tz|[]] f2];
    try discriminate.
  - destruct (float_truthy tz).
    + destruct (sub_hours d _) as [d1|e]; [|discriminate].
      injection H as <- _. exists d1. reflexivity.
    + injection H as <- _. exists d. reflexivity.
  - injection H as <- _. exists d. reflexivity.
Qed.

Lemma deliver_outcome (hit : Hit.t) (w : World Request) :
  (Parser.deliver hit w).1 = Parser.Accepted hit
  /\ Statistics.count_lines_parsed (stats (Parser.deliver hit w).2)
     = Statistics.count_lines_parsed (stats w)
  /\ Statistics.count_lines_recorded (stats (Parser.deliver hit w).2)
     = Statistics.count_lines_recorded (stats w)
  /\ Statistics.value
       (Statistics.count_lines_static (stats (Parser.deliver hit w).2))
     = (Statistics.value (Statistics.count_lines_static (stats w))
        + if counted_static hit then 1 else 0)%nat
  /\ Statistics.value
       (Statistics.count_lines_downloads (stats (Parser.deliver hit w).2))
     = (Statistics.value (Statistics.count_lines_downloads (stats w))
        + if counted_download hit then 1 else 0)%nat.
Proof.
  unfold Parser.deliver, counted_static, counted_download. cbn.
  destruct (Parser.eligible hit),
    (negb (Hit.is_robot hit) && negb (Hit.is_redirect hit)),
    (Hit.is_meta hit), (Hit.is_download hit); cbn;
    repeat split; lia.
Qed.

Lemma parse_line_outcome cfg p filename lineno line (f : Format)
    (w : World Request) :
  line_outcome cfg filename lineno (stats w)
    (stats (Parser.parse_line cfg p filename lineno line f w).2)
    (Parser.parse_line cfg p filename lineno line f w).1.1.
Proof.
  unfold Parser.parse_line, line_outcome. cbn zeta.
  cbn [stats set_stats Statistics.incr_parsed Statistics.count_lines_parsed
       Statistics.increment Statistics.value].
  destruct (Z.of_nat (S _) <=? skip cfg) eqn:Hskip.
  { apply Z.leb_le in Hskip. cbn. repeat split; try reflexivity. exact Hskip. }
  apply Z.leb_gt in Hskip.
  destruct line as [groups|];
    [|cbn; repeat split; try reflexivity; exact Hskip].
  destruct (Parser.normalize cfg filename lineno _) as [[hit|e] f1] eqn:Hn;
    [|cbn; repeat split; reflexivity].
  apply normalize_lineno in Hn. destruct Hn as [Hl Hf].
  pose proof (all_checks_accepting _ (check_methods_accepting cfg p) hit
                (Statistics.incr_parsed (stats w))) as Hacc.
  destruct (Parser.all_checks _ hit _) as [[[answer hit1] st]|e];
    [|cbn; repeat split; reflexivity].
  destruct (Hacc answer hit1 st eq_refl) as (-> & K & P1 & R1 & S1 & D1).
  destruct (Parser.read_date hit1 f1) as [[[reason|hit2]|e] f2] eqn:Hd.
  - cbn. rewrite P1, R1, S1, D1. repeat split; try reflexivity. exact Hskip.
  - apply read_date_keeps in Hd. destruct Hd as [d ->].
    pose proof (deliver_outcome (Hit.set_date d hit1) (set_stats st w)) as Ho.
    destruct (Parser.deliver _ _) as [result w3].
    cbn [fst snd stats set_stats] in Ho |- *.
    destruct Ho as (-> & P3 & R3 & S3 & D3).
    rewrite P3, R3, S3, D3, P1, R1, S1, D1. cbn.
    destruct K as (Kf & Kl & _).
    repeat split; try reflexivity; try congruence.
  - cbn. rewrite P1, R1, S1, D1. repeat split; reflexivity.
Qed.

Lemma accepted_hits_cons result results :
  accepted_hits (result :: results)
  = (accepted_hits [result] ++ accepted_hits results)%list.
Proof. unfold accepted_hits. cbn. rewrite app_nil_r. reflexivity. Qed.

(** The outcome of every turn, put together over the lines of a file. *)
Lemma parse_lines_outcome cfg p filename lines :
  forall lineno (f : Format) (w : World Request),
    let run := Parser.parse_lines cfg p filename lineno lines f w in
    let c := Statistics.value (Statistics.count_lines_parsed (stats w)) in
    Statistics.value (Statistics.count_lines_parsed (stats run.2))
    = (c + List.length run.1.1.1 + raised run.1.1.2)%nat
    /\ Statistics.count_lines_recorded (stats run.2)
       = Statistics.count_lines_recorded (stats w)
    /\ Statistics.value (Statistics.count_lines_static (stats run.2))
       = (Statistics.value (Statistics.count_lines_static (stats w))
          + List.length (List.filter counted_static (accepted_hits run.1.1.1)))%nat
    /\ Statistics.value (Statistics.count_lines_downloads (stats run.2))
       = (Statistics.value (Statistics.count_lines_downloads (stats w))
          + List.length
              (List.filter counted_download (accepted_hits run.1.1.1)))%nat
    /\ forall (i : nat) (r : Parser.LineResult),
         run.1.1.1 !! i = Some r ->
         (r = Parser.Skipped <-> Z.of_nat (c + i + 1) <= skip cfg)
         /\ match r with
            | Parser.Excluded | Parser.Filtered _ => False
            | Parser.Accepted h =>
                Hit.lineno h = lineno + 1 + Z.of_nat i
                /\ Hit.filename h = filename
            | _ => True
            end.
Proof.
  induction lines as [|line rest IH]; intros lineno f w;
    cbn [Parser.parse_lines].
  - destruct (State.is_stopped (state w)); cbn;
      (repeat split; try lia; try discriminate).
  - destruct (State.is_stopped (state w));
      [cbn; repeat split; try lia; discriminate|].
    pose proof (parse_line_outcome cfg p filename (lineno + 1) line f w)
      as Hline.
    destruct (Parser.parse_line cfg p filename (lineno + 1) line f w)
      as [[[result|e] f1] w1]; cbn [fst snd] in Hline.
    + specialize (IH (lineno + 1) f1 w1).
      destruct (Parser.parse_lines cfg p filename (lineno + 1) rest f1 w1)
        as [[[results e] f2] w2].
      cbn [fst snd] in IH |- *. cbn zeta in IH |- *.
      destruct IH as (HP & HR & HS & HD & Each).
      destruct Hline as (P1 & R1 & Hres).
      rewrite (accepted_hits_cons result results), !List.filter_app,
        !length_app.
      assert (Hsd :
        Statistics.value (Statistics.count_lines_static (stats w1))
        = (Statistics.value (Statistics.count_lines_static (stats w))
           + List.length (List.filter counted_static (accepted_hits [result])))%nat
        /\ Statistics.value (Statistics.count_lines_downloads (stats w1))
           = (Statistics.value (Statistics.count_lines_downloads (stats w))
              + List.length
                  (List.filter counted_download (accepted_hits [result])))%nat).
      { destruct result as [|reason| |reason|h]; cbn in Hres |- *;
          try contradiction.
        - destruct Hres as (_ & -> & ->). split; lia.
        - destruct Hres as (_ & -> & ->). split; lia.
        - destruct Hres as (_ & _ & _ & -> & ->).
          destruct (counted_static h), (counted_download h); cbn; split; lia. }
      destruct Hsd as [S1 D1].
      split; [rewrite HP, P1; cbn [List.length]; lia|].
      split; [rewrite HR; exact R1|].
      split; [rewrite HS, S1; lia|].
      split; [rewrite HD, D1; lia|].
      intros [|i] r; cbn [lookup list_lookup].
      * intros [= <-].
        destruct result as [|reason| |reason|h]; cbn in Hres;
          try contradiction.
        -- destruct Hres as (Hs & _). split; [|exact I].
           split; [intros _; lia|reflexivity].
        -- destruct Hres as (Hs & _). split; [|exact I].
           split; [discriminate|lia].
        -- destruct Hres as (Hs & Hl & Hf & _).
           split; [split; [discriminate|lia]|].
           split; [rewrite Hl; lia|exact Hf].
      * intros Hi. destruct (Each i r Hi) as [Hskip Hr]. rewrite P1 in Hskip.
        split.
        -- rewrite Hskip.
           replace (Z.of_nat (S (Statistics.value
                                   (Statistics.count_lines_parsed (stats w)))
                              + i + 1))
             with (Z.of_nat (Statistics.value
                               (Statistics.count_lines_parsed (stats w))
                             + S i + 1)) by lia.
           reflexivity.
        -- destruct r; try exact Hr. destruct Hr as [Hl Hf].
           split; [rewrite Hl; lia|exact Hf].
    + destruct Hline as (P1 & R1 & S1 & D1). cbn.
      split; [rewrite P1; lia|]. split; [exact R1|].
      split; [rewrite S1; lia|]. split; [rewrite D1; lia|].
      intros i r. discriminate.
Qed.

End Loop.

(** X12: the [skip] option and the counter of parsed lines.
    [Parser.parse] counts every line it reads, matched or not, and the
    line on which an exception ended the loop; the line read when the
    counter stood at [c + i] is skipped exactly when [c + i + 1 <= skip].
    The counter is the one of the whole run, so the lines of earlier
    files count towards [skip]. *)
Theorem X12_skip_counts_lines_of_the_run {B : Builtins} {Request : Type}
    (cfg : Config) (p : Parser.t) (filename : string)
    (format : option Format) (lines : list Parser.Line)
    (w : World Request) :
  let run := Parser.parse cfg p filename format lines w in
  let c := Statistics.value (Statistics.count_lines_parsed (stats w)) in
  Statistics.value (Statistics.count_lines_parsed (stats run.2))
  = (c + List.length run.1.1 + raised run.1.2)%nat
  /\ forall (i : nat) (r : Parser.LineResult),
       run.1.1 !! i = Some r ->
       (r = Parser.Skipped <-> Z.of_nat (c + i + 1) <= skip cfg).
Proof.
  unfold Parser.parse. destruct format as [f|].
  - pose proof (parse_lines_outcome cfg p
                  (if bool_decide (filename = "-") then "(stdin)"
                   else filename) lines (-1) f w) as H.
    destruct (Parser.parse_lines _ _ _ _ _ _ _) as [[[results e] f1] w1].
    cbn [fst snd] in H |- *. cbn zeta in H |- *.
    destruct H as (P & _ & _ & _ & Each).
    split; [exact P|]. intros i r Hi. exact (proj1 (Each i r Hi)).
  - cbn. split; [lia|]. intros i r. discriminate.
Qed.

(** X13: no line is dropped by a check or by the filter.  Every line
    [Parser.parse] reads ends as skipped, invalid or accepted: the
    check methods always answer [True] and [is_filtered] always answers
    [(False, None)]. *)
Theorem X13_lines_are_never_excluded {B : Builtins} {Request : Type}
    (cfg : Config) (p : Parser.t) (filename : string)
    (format : option Format) (lines : list Parser.Line)
    (w : World Request) :
  Forall (fun r => match r with
                   | Parser.Excluded | Parser.Filtered _ => False
                   | _ => True
                   end)
    (Parser.parse cfg p filename format lines w).1.1.
Proof.
  unfold Parser.parse. destruct format as [f|]; [|constructor].
  pose proof (parse_lines_outcome cfg p
                (if bool_decide (filename = "-") then "(stdin)"
                 else filename) lines (-1) f w) as H.
  destruct (Parser.parse_lines _ _ _ _ _ _ _) as [[[results e] f1] w1].
  cbn [fst snd] in H |- *. cbn zeta in H.
  destruct H as (_ & _ & _ & _ & Each).
  apply Forall_lookup. intros i r Hi.
  destruct (Each i r Hi) as [_ Hr]. destruct r; try exact I; exact Hr.
Qed.

(** X14: the counters of the summary.  Over a file, [Parser.parse]
    advances [count_lines_static] by the number of accepted hits that
    are metadata and neither robot nor redirect, and
    [count_lines_downloads] by the number of those that are downloads
    and neither robot nor redirect; a hit that is both counts in both.
    It never touches [count_lines_recorded]. *)
Theorem X14_static_and_download_counters {B : Builtins} {Request : Type}
    (cfg : Config) (p : Parser.t) (filename : string)
    (format : option Format) (lines : list Parser.Line)
    (w : World Request) :
  let run := Parser.parse cfg p filename format lines w in
  Statistics.value (Statistics.count_lines_static (stats run.2))
  = (Statistics.value (Statistics.count_lines_static (stats w))
     + List.length (List.filter counted_static (accepted_hits run.1.1)))%nat
  /\ Statistics.value (Statistics.count_lines_downloads (stats run.2))
     = (Statistics.value (Statistics.count_lines_downloads (stats w))
        + List.length
            (List.filter counted_download (accepted_hits run.1.1)))%nat
  /\ Statistics.count_lines_recorded (stats run.2)
     = Statistics.count_lines_recorded (stats w).
Proof.
  unfold Parser.parse. destruct format as [f|].
  - pose proof (parse_lines_outcome cfg p
                  (if bool_decide (filename = "-") then "(stdin)"
                   else filename) lines (-1) f w) as H.
    destruct (Parser.parse_lines _ _ _ _ _ _ _) as [[[results e] f1] w1].
    cbn [fst snd] in H |- *. cbn zeta in H |- *.
    destruct H as (_ & HR & HS & HD & _).
    split; [exact HS|]. split; [exact HD|exact HR].
  - cbn. repeat split; lia.
Qed.

(** X15: the line number of a hit is the zero-based position of its
    line among the lines the loop of [Parser.parse] reads, skipped and
    invalid lines counted, and its file name is the one given,
    [(stdin)] for [-].  The lines that format detection took from a
    stream that cannot seek back are not among the lines the loop
    reads, so on such a stream the number is not the position in the
    input. *)
Theorem X15_hits_carry_their_line_number {B : Builtins} {Request : Type}
    (cfg : Config) (p : Parser.t) (filename : string)
    (format : option Format) (lines : list Parser.Line)
    (w : World Request) :
  Forall (fun ir =>
            match ir.2 with
            | Parser.Accepted h =>
                Hit.lineno h = Z.of_nat ir.1
                /\ Hit.filename h
                   = (if bool_decide (filename = "-") then "(stdin)"
                      else filename)
            | _ => True
            end)
    (imap pair (Parser.parse cfg p filename format lines w).1.1).
Proof.
  unfold Parser.parse. destruct format as [f|]; [|constructor].
  pose proof (parse_lines_outcome cfg p
                (if bool_decide (filename = "-") then "(stdin)"
                 else filename) lines (-1) f w) as H.
  destruct (Parser.parse_lines _ _ _ _ _ _ _) as [[[results e] f1] w1].
  cbn [fst snd] in H |- *. cbn zeta in H.
  destruct H as (_ & _ & _ & _ & Each).
  apply Forall_lookup. intros i [j r] Hi.
  rewrite list_lookup_imap in Hi.
  destruct (results !! i) as [r'|] eqn:Hr; [|discriminate].
  cbn in Hi. injection Hi as <- <-.
  destruct (Each i r' Hr) as [_ Hh]. cbn [fst snd].
  destruct r'; try exact I. destruct Hh as [Hl Hf].
  split; [rewrite Hl; lia|exact Hf].
Qed.

(** ** UrlHelper: dictionaries and arrays *)

(** Induction on a value through the lists and dictionaries it holds. *)
Lemma Val_nested_ind (P : Val -> Prop) :
  P VNone -> (forall b, P (VBool b)) -> (forall z, P (VInt z)) ->
  (forall x, P (VFloat x)) -> (forall s, P (VStr s)) ->
  (forall l, Forall P l -> P (VList l)) ->
  (forall d, Forall (fun kv => P kv.2) d -> P (VDict d)) ->
  forall v, P v.
Proof.
  intros HNone HBool HInt HFloat HStr HList HDict.
  fix IH 1. intros [| | | | |l|d];
    [exact HNone|apply HBool|apply HInt|apply HFloat|apply HStr| |].
  - apply HList. induction l as [|v l IHl]; constructor; [apply IH|exact IHl].
  - apply HDict. induction d as [|[k v] d IHd]; constructor;
      [apply IH|exact IHd].
Qed.

Lemma items_at_returns (d : list (string * Val)) (indices : list nat) :
  forallb (fun i => bool_decide
                      (is_Some (dict_get (UrlHelper.str_of_nat i) d)))
    indices = true ->
  exists l, UrlHelper.items_at d indices = Ok l
            /\ List.length l = List.length indices.
Proof.
  induction indices as [|i rest IH]; cbn [forallb UrlHelper.items_at];
    intros H.
  - exists []. split; reflexivity.
  - apply andb_prop in H. destruct H as [Hi Hrest].
    apply bool_decide_eq_true in Hi. destruct Hi as [v Hv]. rewrite Hv.
    destruct (IH Hrest) as (l & -> & Hl). exists (v :: l).
    split; [reflexivity|cbn; rewrite Hl; reflexivity].
Qed.

Lemma dict_get_keys key (d d' : list (string * Val)) :
  d'.*1 = d.*1 ->
  is_Some (dict_get key d') <-> is_Some (dict_get key d).
Proof.
  revert d'. induction d as [|[k v] d IH]; intros [|[k' v'] d'];
    cbn; try discriminate; [tauto|].
  intros [= -> Hk]. destruct (bool_decide (k = key)).
  - split; intros _; eexists; reflexivity.
  - apply IH, Hk.
Qed.

Lemma forallb_pointwise {A} (f g : A -> bool) (l : list A) :
  (forall a, f a = g a) -> forallb f l = forallb g l.
Proof.
  intros H. induction l as [|a l IH]; cbn; [reflexivity|].
  rewrite H, IH. reflexivity.
Qed.

Lemma _has_contiguous_int_keys_keys (d d' : list (string * Val)) :
  d'.*1 = d.*1 ->
  UrlHelper._has_contiguous_int_keys d'
  = UrlHelper._has_contiguous_int_keys d.
Proof.
  intros Hk. unfold UrlHelper._has_contiguous_int_keys.
  assert (Hlen : List.length d' = List.length d).
  { rewrite <- (length_fmap fst d'), <- (length_fmap fst d), Hk.
    reflexivity. }
  rewrite Hlen. apply forallb_pointwise. intros i.
  apply bool_decide_ext, dict_get_keys, Hk.
Qed.

(** What [convert_value] gives: it returns, and a second pass changes
    nothing; a dictionary it keeps has its keys in their order. *)
Lemma convert_value_returns (v : Val) :
  exists v',
    UrlHelper.convert_value v = Ok v'
    /\ UrlHelper.convert_value v' = Ok v'
    /\ match v, v' with
       | VDict d, VDict d' => d'.*1 = d.*1
       | VDict d, VList l =>
           UrlHelper._has_contiguous_int_keys d = true
           /\ List.length l = List.length d
       | VDict _, _ => False
       | _, _ => v' = v
       end.
Proof.
  induction v as [|b|z|x|s|l _|d IH] using Val_nested_ind;
    try (eexists; repeat split; reflexivity).
  cbn [UrlHelper.convert_value].
  destruct (UrlHelper._has_contiguous_int_keys d) eqn:Hc.
  - destruct (items_at_returns d (seq 0 (List.length d)) Hc) as (l & Hl & Hn).
    unfold UrlHelper._convert_dict_to_array. rewrite Hl.
    exists (VList l). rewrite length_seq in Hn.
    repeat split; [exact Hn].
  - assert (Hitems : exists d',
              UrlHelper.convert_items UrlHelper.convert_value d = Ok d'
              /\ UrlHelper.convert_items UrlHelper.convert_value d' = Ok d'
              /\ d'.*1 = d.*1).
    { clear Hc. induction d as [|[k v] d IHd].
      - exists []. repeat split.
      - inversion IH as [|? ? Hv Hd]; subst. cbn [snd] in Hv.
        destruct Hv as (v' & Hv1 & Hv2 & _).
        destruct (IHd Hd) as (d' & Hd1 & Hd2 & Hk).
        exists ((k, v') :: d'). cbn [UrlHelper.convert_items].
        fold (UrlHelper.convert_items UrlHelper.convert_value).
        rewrite Hv1, Hd1, Hv2, Hd2. cbn. rewrite Hk. repeat split. }
    destruct Hitems as (d' & Hd1 & Hd2 & Hk). rewrite Hd1.
    exists (VDict d'). cbn [UrlHelper.convert_value].
    rewrite (_has_contiguous_int_keys_keys d d' Hk), Hc, Hd2.
    repeat split. exact Hk.
Qed.

Lemma convert_items_returns (d : list (string * Val)) :
  exists d', UrlHelper.convert_items UrlHelper.convert_value d = Ok d'.
Proof.
  induction d as [|[k v] d [d' IHd]]; [exists []; reflexivity|].
  destruct (convert_value_returns v) as (v' & Hv & _).
  exists ((k, v') :: d'). cbn [UrlHelper.convert_items].
  fold (UrlHelper.convert_items UrlHelper.convert_value).
  rewrite Hv, IHd. reflexivity.
Qed.

(** X16: [_convert_dicts_to_arrays] always returns: the look-up
    [d[str(i)]] of [_convert_dict_to_array] is only reached after
    [_has_contiguous_int_keys] found every index, so it raises no
    [KeyError].  The dictionary it returns has the keys of the one it
    was given, in their order, and converting it again changes
    nothing. *)
Theorem X16_convert_dicts_to_arrays_returns (d : list (string * Val)) :
  exists d',
    UrlHelper._convert_dicts_to_arrays d = Ok d'
    /\ d'.*1 = d.*1
    /\ UrlHelper._convert_dicts_to_arrays d' = Ok d'.
Proof.
  unfold UrlHelper._convert_dicts_to_arrays.
  induction d as [|[k v] d IHd].
  - exists []. repeat split.
  - destruct (convert_value_returns v) as (v' & Hv1 & Hv2 & _).
    destruct IHd as (d' & Hd1 & Hk & Hd2).
    exists ((k, v') :: d'). cbn [UrlHelper.convert_items].
    fold (UrlHelper.convert_items UrlHelper.convert_value).
    rewrite Hv1, Hd1, Hv2, Hd2. cbn. rewrite Hk. repeat split.
Qed.

(** The walk from a dictionary: it ends in a dictionary again when the
    indices are well placed, and on a list that has no text index
    otherwise. *)
Lemma navigate_from_dict (value : Val) (rest : list string) :
  forall (idx : string) (d : list (string * Val)),
    (rest = [] -> idx <> "") ->
    if well_indexed rest
    then exists d', UrlHelper.navigate idx rest value (VDict d) = Ok (VDict d')
    else UrlHelper.navigate idx rest value (VDict d) = Raise TypeError.
Proof.
  induction rest as [|next rest IH]; intros idx d Hidx;
    cbn [UrlHelper.navigate well_indexed].
  - rewrite bool_decide_eq_false_2 by (apply Hidx; reflexivity).
    eexists. reflexivity.
  - destruct (bool_decide (next = "")) eqn:Hnext.
    + apply bool_decide_eq_true in Hnext. subst next.
      assert (Hcur : exists l,
                match dict_get idx d with
                | Some (VList l) => VList l
                | Some (VDict _) => VList []
                | _ => VList []
                end = VList l).
      { destruct (dict_get idx d) as [[]|]; eexists; reflexivity. }
      destruct Hcur as [l ->].
      destruct rest as [|next' rest']; cbn.
      * eexists. reflexivity.
      * reflexivity.
    + apply bool_decide_eq_false in Hnext.
      assert (Hcur : exists inner,
                match dict_get idx d with
                | Some (VList _) => VDict []
                | Some (VDict inner) => VDict inner
                | _ => VDict []
                end = VDict inner).
      { destruct (dict_get idx d) as [[]|]; eexists; reflexivity. }
      destruct Hcur as [inner ->].
      specialize (IH next inner (fun _ => Hnext)).
      destruct (well_indexed rest).
      * destruct IH as [d' ->]. eexists. reflexivity.
      * rewrite IH. reflexivity.
Qed.

Lemma split_nonempty (sep : ascii) (s : string) :
  exists a rest, split sep s = a :: rest.
Proof.
  induction s as [|c s (a & rest & IH)]; cbn [split].
  - exists "", []. reflexivity.
  - rewrite IH. destruct (bool_decide (c = sep)); eexists; eexists; reflexivity.
Qed.

Lemma split_has_two (sep : ascii) (s : string) :
  lacks sep s = false ->
  exists a b rest, split sep s = a :: b :: rest.
Proof.
  induction s as [|c s IH]; cbn [lacks split]; [discriminate|].
  destruct (bool_decide (c = sep)); cbn [negb andb].
  - intros _. destruct (split_nonempty sep s) as (b & rest & ->).
    exists "", b, rest. reflexivity.
  - intros H. destruct (IH H) as (a & b & rest & ->).
    exists (String c a), b, rest. reflexivity.
Qed.

Lemma convert_array_args_step_placeable
    (final_args : list (string * Val)) (key : string) (value : Val) :
  if placeable key
  then exists d, UrlHelper.convert_array_args_step final_args (key, value)
                 = Ok d
  else UrlHelper.convert_array_args_step final_args (key, value)
       = Raise TypeError.
Proof.
  unfold placeable, UrlHelper.convert_array_args_step.
  destruct (lacks "[" key) eqn:Hb; cbn [orb]; [eexists; reflexivity|].
  unfold UrlHelper.indices_of.
  destruct (split_has_two "[" key Hb) as (a & b & rest & ->).
  cbn [map tail].
  pose proof (navigate_from_dict value
                (rstrip_char "]" b :: map (rstrip_char "]") rest)
                (rstrip_char "]" a) final_args ltac:(discriminate)) as H.
  destruct (well_indexed _).
  - destruct H as [d' ->]. exists d'. reflexivity.
  - rewrite H. reflexivity.
Qed.

Lemma convert_array_args_from_placeable (items : list (string * Val)) :
  forall final_args : list (string * Val),
    match UrlHelper.convert_array_args_from final_args items with
    | Ok _ => forallb placeable items.*1 = true
    | Raise e => e = TypeError /\ forallb placeable items.*1 = false
    end.
Proof.
  induction items as [|[key value] items IH]; intros final_args;
    cbn [UrlHelper.convert_array_args_from fmap list_fmap forallb fst];
    [reflexivity|].
  pose proof (convert_array_args_step_placeable final_args key value) as Hs.
  destruct (placeable key); cbn [andb].
  - destruct Hs as [d ->]. apply IH.
  - rewrite Hs. split; reflexivity.
Qed.

(** X17: when [convert_array_args] raises.  It returns for every
    dictionary of arguments unless one of the keys has an empty pair of
    brackets before its last index, as in [a[][b]]: the walk then
    stands on a list, which has no text index, and the call raises
    [TypeError].  No other exception leaves it. *)
Theorem X17_convert_array_args_raises_on_inner_empty_brackets
    (args : list (string * Val)) :
  match UrlHelper.convert_array_args args with
  | Ok _ => forallb placeable args.*1 = true
  | Raise e => e = TypeError /\ forallb placeable args.*1 = false
  end.
Proof.
  unfold UrlHelper.convert_array_args.
  pose proof (convert_array_args_from_placeable args []) as H.
  destruct (UrlHelper.convert_array_args_from [] args) as [final_args|e];
    [|exact H].
  unfold UrlHelper._convert_dicts_to_arrays.
  destruct (convert_items_returns final_args) as [d' ->]. exact H.
Qed.

(** ** UrlHelper: arrays spread by the API client are put together *)

From Stdlib Require Import DecimalZ DecimalPos.

Lemma string_app_assoc (s t u : string) : (s ++ t) ++ u = s ++ (t ++ u).
Proof.
  induction s as [|c s IH]; [reflexivity|].
  change (String c ((s ++ t) ++ u) = String c (s ++ (t ++ u))).
  rewrite IH. reflexivity.
Qed.

Lemma string_app_nil_r (s : string) : s ++ "" = s.
Proof.
  induction s as [|c s IH]; [reflexivity|].
  change (String c (s ++ "") = String c s). rewrite IH. reflexivity.
Qed.

Lemma rev_app_spec (s acc : string) :
  String.rev_app s acc = String.rev s ++ acc.
Proof.
  unfold String.rev. revert acc. induction s as [|c s IH]; intros acc.
  - reflexivity.
  - cbn [String.rev_app]. rewrite (IH (String c acc)), (IH (String c "")).
    rewrite string_app_assoc. reflexivity.
Qed.

Lemma rev_cons (c : ascii) (s : string) :
  String.rev (String c s) = String.rev s ++ String c "".
Proof. unfold String.rev at 1. cbn [String.rev_app]. apply rev_app_spec. Qed.

Lemma rev_app_end (s : string) (c : ascii) :
  String.rev (s ++ String c "") = String c (String.rev s).
Proof.
  induction s as [|d s IH]; [reflexivity|].
  change (String d s ++ String c "") with (String d (s ++ String c "")).
  rewrite !rev_cons, IH. reflexivity.
Qed.

Lemma rev_involutive (s : string) : String.rev (String.rev s) = s.
Proof.
  induction s as [|c s IH]; [reflexivity|].
  rewrite rev_cons, rev_app_end, IH. reflexivity.
Qed.

Lemma lacks_app (c : ascii) (s t : string) :
  lacks c (s ++ t) = lacks c s && lacks c t.
Proof.
  induction s as [|d s IH]; [reflexivity|].
  change (String d s ++ t) with (String d (s ++ t)). cbn [lacks].
  rewrite IH, andb_assoc. reflexivity.
Qed.

Lemma lacks_rev (c : ascii) (s : string) : lacks c (String.rev s) = lacks c s.
Proof.
  induction s as [|d s IH]; [reflexivity|].
  rewrite rev_cons, lacks_app, IH. cbn [lacks].
  rewrite andb_true_r, andb_comm. reflexivity.
Qed.

Lemma lstrip_char_lacks (c : ascii) (s : string) :
  lacks c s = true -> lstrip_char c s = s.
Proof.
  destruct s as [|d s]; [reflexivity|]. cbn [lacks lstrip_char].
  destruct (bool_decide (d = c)); [discriminate|reflexivity].
Qed.

Lemma rstrip_char_lacks (c : ascii) (s : string) :
  lacks c s = true -> rstrip_char c s = s.
Proof.
  intros H. unfold rstrip_char.
  rewrite lstrip_char_lacks by (rewrite lacks_rev; exact H).
  apply rev_involutive.
Qed.

Lemma rstrip_char_end (c : ascii) (s : string) :
  rstrip_char c (s ++ String c "") = rstrip_char c s.
Proof.
  unfold rstrip_char. rewrite rev_app_end. cbn [lstrip_char].
  rewrite bool_decide_eq_true_2 by reflexivity. reflexivity.
Qed.

Lemma split_lacks (sep : ascii) (s : string) :
  lacks sep s = true -> split sep s = [s].
Proof.
  induction s as [|c s IH]; [reflexivity|]. cbn [lacks split].
  destruct (bool_decide (c = sep)); [discriminate|].
  intros H. rewrite (IH H). reflexivity.
Qed.

(** *** The text of an index *)

Lemma string_of_uint_lacks (c : ascii) (d : Decimal.uint) :
  (57 < nat_of_ascii c)%nat ->
  lacks c (NilEmpty.string_of_uint d) = true.
Proof.
  intros Hc.
  induction d as [|d IH|d IH|d IH|d IH|d IH|d IH|d IH|d IH|d IH|d IH];
    cbn [NilEmpty.string_of_uint lacks]; [reflexivity|..];
    rewrite IH, andb_true_r;
    (rewrite bool_decide_eq_false_2; [reflexivity|];
     intros <-; vm_compute in Hc; lia).
Qed.

Lemma str_of_nat_lacks (c : ascii) (i : nat) :
  (57 < nat_of_ascii c)%nat ->
  lacks c (UrlHelper.str_of_nat i) = true.
Proof.
  intros Hc. unfold UrlHelper.str_of_nat, str_of_Z.
  destruct (Z.of_nat i) as [|p|p] eqn:Hi; [| |lia].
  - cbn. rewrite bool_decide_eq_false_2; [reflexivity|].
    intros <-. vm_compute in Hc. lia.
  - cbn [Z.to_int NilZero.string_of_int]. unfold NilZero.string_of_uint.
    pose proof (string_of_uint_lacks c (Pos.to_uint p) Hc) as H.
    destruct (Pos.to_uint p); [|exact H..].
    cbn. rewrite bool_decide_eq_false_2; [reflexivity|].
    intros <-. vm_compute in Hc. lia.
Qed.

Lemma str_of_nat_nonempty (i : nat) : UrlHelper.str_of_nat i <> "".
Proof.
  unfold UrlHelper.str_of_nat, str_of_Z.
  destruct (Z.of_nat i) as [|p|p]; cbn [Z.to_int NilZero.string_of_int];
    [discriminate| |discriminate].
  unfold NilZero.string_of_uint.
  destruct (Pos.to_uint p); discriminate.
Qed.

Lemma str_of_nat_inj (i j : nat) :
  UrlHelper.str_of_nat i = UrlHelper.str_of_nat j -> i = j.
Proof.
  unfold UrlHelper.str_of_nat, str_of_Z. intros H.
  assert (Hnil : forall z, Z.to_int z <> Decimal.Pos Decimal.Nil
                           /\ Z.to_int z <> Decimal.Neg Decimal.Nil).
  { intros [|p|p]; cbn; split; try discriminate;
      intros [= Hp]; exact (Unsigned.to_uint_nonnil p Hp). }
  apply (f_equal NilZero.int_of_string) in H.
  rewrite !NilZero.isi in H by apply Hnil.
  injection H as H. apply DecimalZ.to_int_inj in H. lia.
Qed.

(** *** Dictionaries *)

Lemma dict_get_absent key (d : list (string * Val)) :
  key ∉ d.*1 -> dict_get key d = None.
Proof.
  induction d as [|[k v] d IH]; cbn; [reflexivity|]. intros H.
  rewrite not_elem_of_cons in H. destruct H as [Hk Hd].
  rewrite bool_decide_eq_false_2 by congruence. apply IH, Hd.
Qed.

Lemma dict_set_absent key value (d : list (string * Val)) :
  key ∉ d.*1 -> UrlHelper.dict_set key value d = (d ++ [(key, value)])%list.
Proof.
  induction d as [|[k v] d IH]; cbn; [reflexivity|]. intros H.
  rewrite not_elem_of_cons in H. destruct H as [Hk Hd].
  rewrite bool_decide_eq_false_2 by congruence. rewrite (IH Hd).
  reflexivity.
Qed.

Lemma dict_get_last key value (d : list (string * Val)) :
  key ∉ d.*1 -> dict_get key (d ++ [(key, value)]) = Some value.
Proof.
  induction d as [|[k v] d IH]; cbn.
  - intros _. rewrite bool_decide_eq_true_2 by reflexivity. reflexivity.
  - intros H. rewrite not_elem_of_cons in H. destruct H as [Hk Hd].
    rewrite bool_decide_eq_false_2 by congruence. apply IH, Hd.
Qed.

Lemma dict_set_last key value value' (d : list (string * Val)) :
  key ∉ d.*1 ->
  UrlHelper.dict_set key value' (d ++ [(key, value)])
  = (d ++ [(key, value')])%list.
Proof.
  induction d as [|[k v] d IH]; cbn.
  - intros _. rewrite bool_decide_eq_true_2 by reflexivity. reflexivity.
  - intros H. rewrite not_elem_of_cons in H. destruct H as [Hk Hd].
    rewrite bool_decide_eq_false_2 by congruence. rewrite (IH Hd).
    reflexivity.
Qed.

Lemma numbered_dict_keys (value : list Val) :
  forall index i,
    UrlHelper.str_of_nat i ∈ (numbered_dict index value).*1 ->
    (index <= i < index + List.length value)%nat.
Proof.
  induction value as [|obj rest IH]; intros index i; cbn.
  - intros H. apply elem_of_nil in H. contradiction.
  - rewrite elem_of_cons. intros [H|H].
    + apply str_of_nat_inj in H. lia.
    + apply IH in H. lia.
Qed.

Lemma numbered_dict_app (value : list Val) (obj : Val) :
  forall index,
    numbered_dict index (value ++ [obj])
    = (numbered_dict index value
       ++ [(UrlHelper.str_of_nat (index + List.length value), obj)])%list.
Proof.
  induction value as [|x rest IH]; intros index; cbn.
  - rewrite Nat.add_0_r. reflexivity.
  - rewrite IH. replace (S index + List.length rest)%nat
      with (index + S (List.length rest))%nat by lia. reflexivity.
Qed.

Lemma numbered_dict_length (value : list Val) :
  forall index, List.length (numbered_dict index value) = List.length value.
Proof.
  induction value as [|x rest IH]; intros index; cbn; [|rewrite IH];
    reflexivity.
Qed.

Lemma dict_get_numbered (value : list Val) :
  forall index i,
    dict_get (UrlHelper.str_of_nat (index + i)) (numbered_dict index value)
    = value !! i.
Proof.
  induction value as [|x rest IH]; intros index i; cbn; [reflexivity|].
  destruct i as [|i]; cbn.
  - rewrite Nat.add_0_r, bool_decide_eq_true_2 by reflexivity. reflexivity.
  - rewrite bool_decide_eq_false_2
      by (intros H; apply str_of_nat_inj in H; lia).
    replace (index + S i)%nat with (S index + i)%nat by lia. apply IH.
Qed.

(** *** One argument *)

Lemma indices_of_indexed (key : string) (index : nat) :
  lacks "[" key = true -> rstrip_char "]" key = key ->
  UrlHelper.indices_of (indexed key index)
  = [key; UrlHelper.str_of_nat index].
Proof.
  intros Hk Hr. unfold UrlHelper.indices_of, indexed.
  change ("[" ++ UrlHelper.str_of_nat index ++ "]")
    with (String "[" (UrlHelper.str_of_nat index ++ "]")).
  rewrite (split_first "[" key _ Hk).
  rewrite split_lacks
    by (rewrite lacks_app, str_of_nat_lacks by (vm_compute; lia);
        reflexivity).
  cbn [map]. rewrite Hr, rstrip_char_end.
  rewrite rstrip_char_lacks by (apply str_of_nat_lacks; vm_compute; lia).
  reflexivity.
Qed.

Lemma indexed_has_bracket (key : string) (index : nat) :
  lacks "[" (indexed key index) = false.
Proof.
  unfold indexed. rewrite lacks_app.
  change ("[" ++ UrlHelper.str_of_nat index ++ "]")
    with (String "[" (UrlHelper.str_of_nat index ++ "]")).
  cbn [lacks]. rewrite bool_decide_eq_true_2 by reflexivity.
  apply andb_false_r.
Qed.

(** The first element of a list makes its dictionary. *)
Lemma convert_array_args_step_first (final_args : list (string * Val))
    (key : string) (index : nat) (obj : Val) :
  lacks "[" key = true -> rstrip_char "]" key = key ->
  key ∉ final_args.*1 ->
  UrlHelper.convert_array_args_step final_args (indexed key index, obj)
  = Ok (final_args
        ++ [(key, VDict [(UrlHelper.str_of_nat index, obj)])])%list.
Proof.
  intros Hk Hr Hnew. unfold UrlHelper.convert_array_args_step.
  rewrite indexed_has_bracket, (indices_of_indexed key index Hk Hr).
  cbn [UrlHelper.navigate].
  rewrite bool_decide_eq_false_2 by apply str_of_nat_nonempty.
  rewrite (dict_get_absent key final_args Hnew).
  cbn [UrlHelper.dict_set].
  rewrite (dict_set_absent key _ final_args Hnew). reflexivity.
Qed.

(** Every further element goes into it. *)
Lemma convert_array_args_step_next (final_args : list (string * Val))
    (key : string) (value : list Val) (obj : Val) :
  lacks "[" key = true -> rstrip_char "]" key = key ->
  key ∉ final_args.*1 ->
  UrlHelper.convert_array_args_step
    (final_args ++ [(key, VDict (numbered_dict 0 value))])
    (indexed key (List.length value), obj)
  = Ok (final_args
        ++ [(key, VDict (numbered_dict 0 (value ++ [obj])))])%list.
Proof.
  intros Hk Hr Hnew. unfold UrlHelper.convert_array_args_step.
  rewrite indexed_has_bracket,
    (indices_of_indexed key (List.length value) Hk Hr).
  cbn [UrlHelper.navigate].
  rewrite bool_decide_eq_false_2 by apply str_of_nat_nonempty.
  rewrite (dict_get_last key _ final_args Hnew).
  rewrite (dict_set_last key _ _ final_args Hnew).
  rewrite dict_set_absent, numbered_dict_app; [reflexivity|].
  intros H. apply numbered_dict_keys in H. lia.
Qed.

Lemma convert_array_args_from_list (key : string) (rest : list Val)
    (items : list (string * Val)) :
  lacks "[" key = true -> rstrip_char "]" key = key ->
  forall (final_args : list (string * Val)) (value : list Val),
    key ∉ final_args.*1 ->
    UrlHelper.convert_array_args_from
      (final_args ++ [(key, VDict (numbered_dict 0 value))])
      (indexed_items key (List.length value) rest ++ items)
    = UrlHelper.convert_array_args_from
        (final_args ++ [(key, VDict (numbered_dict 0 (value ++ rest)))])
        items.
Proof.
  intros Hk Hr. induction rest as [|obj rest IH]; intros final_args value Hnew.
  - rewrite app_nil_r. reflexivity.
  - cbn [indexed_items app UrlHelper.convert_array_args_from].
    rewrite (convert_array_args_step_next final_args key value obj Hk Hr Hnew).
    specialize (IH final_args (value ++ [obj])%list Hnew).
    rewrite length_app in IH. cbn [List.length] in IH.
    replace (List.length value + 1)%nat with (S (List.length value)) in IH
      by lia.
    rewrite IH, <- app_assoc. reflexivity.
Qed.

(** The loop over the spread arguments leaves every argument staged
    under its own name, in the order of the arguments. *)
Lemma convert_array_args_from_final_args (args : list (string * Val)) :
  forall final_args : list (string * Val),
    NoDup (final_args.*1 ++ args.*1) ->
    Forall spreadable args ->
    UrlHelper.convert_array_args_from final_args (_call_api_final_args args)
    = Ok (final_args ++ map staged args)%list.
Proof.
  induction args as [|[key value] args IH]; intros final_args Hdup Hall.
  - cbn. rewrite app_nil_r. reflexivity.
  - inversion Hall as [|? ? [Hk Hv] Hrest]; subst. cbn [fst snd] in Hk, Hv.
    cbn [fmap list_fmap fst] in Hdup.
    assert (Hnew : key ∉ final_args.*1).
    { apply NoDup_app in Hdup. destruct Hdup as (_ & Hd & _).
      intros Hin. apply (Hd key Hin). left. }
    assert (Hdup' : forall v : Val,
              NoDup (((final_args ++ [(key, v)])%list).*1 ++ args.*1)).
    { intros v. rewrite fmap_app, <- app_assoc. exact Hdup. }
    unfold _call_api_final_args. cbn [flat_map fst snd].
    fold (_call_api_final_args args).
    assert (Hplain :
      UrlHelper.convert_array_args_from final_args
        ((key, value) :: _call_api_final_args args)
      = Ok (final_args ++ (key, value) :: map staged args)%list).
    { cbn [UrlHelper.convert_array_args_from].
      unfold UrlHelper.convert_array_args_step. rewrite Hk.
      rewrite (dict_set_absent key value final_args Hnew).
      rewrite (IH _ (Hdup' value) Hrest), <- app_assoc. reflexivity. }
    destruct value as [|b|z|x|s|[|obj value]|d];
      try exact Hplain; [destruct Hv as [Hv _]; contradiction|].
    destruct Hv as [_ Hr].
    cbn [indexed_items app UrlHelper.convert_array_args_from map].
    rewrite (convert_array_args_step_first final_args key 0 obj Hk Hr Hnew).
    pose proof (convert_array_args_from_list key value
                  (_call_api_final_args args) Hk Hr final_args [obj] Hnew)
      as Hlist.
    cbn [List.length numbered_dict app] in Hlist. rewrite Hlist.
    rewrite (IH _ (Hdup' _) Hrest), <- app_assoc. reflexivity.
Qed.

(** *** The conversion of the staged arguments *)

Lemma items_at_numbered (value : list Val) (count : nat) :
  forall index,
    (index + count <= List.length value)%nat ->
    UrlHelper.items_at (numbered_dict 0 value) (seq index count)
    = Ok (take count (drop index value)).
Proof.
  induction count as [|count IH]; intros index Hle; cbn [seq UrlHelper.items_at].
  - rewrite take_0. reflexivity.
  - pose proof (dict_get_numbered value 0 index) as Hg. cbn in Hg.
    rewrite Hg.
    destruct (value !! index) as [obj|] eqn:Hobj;
      [|apply lookup_ge_None in Hobj; lia].
    rewrite (IH (S index)) by lia.
    rewrite (drop_S _ _ _ Hobj). reflexivity.
Qed.

Lemma convert_value_staged (item : string * Val) :
  spreadable item ->
  UrlHelper.convert_value (staged item).2 = Ok item.2.
Proof.
  destruct item as [key value]. intros [_ Hv]. cbn [fst snd] in Hv.
  unfold staged. cbn [fst snd].
  destruct value as [|b|z|x|s|value|d]; try reflexivity; [|contradiction].
  cbn [snd UrlHelper.convert_value].
  assert (Hc : UrlHelper._has_contiguous_int_keys (numbered_dict 0 value)
               = true).
  { unfold UrlHelper._has_contiguous_int_keys.
    rewrite numbered_dict_length. apply forallb_forall. intros i Hi.
    apply in_seq in Hi. apply bool_decide_eq_true.
    pose proof (dict_get_numbered value 0 i) as Hg. cbn in Hg. rewrite Hg.
    apply lookup_lt_is_Some. lia. }
  rewrite Hc. unfold UrlHelper._convert_dict_to_array.
  rewrite numbered_dict_length, items_at_numbered by lia.
  rewrite drop_0, firstn_all. reflexivity.
Qed.

Lemma convert_items_staged (args : list (string * Val)) :
  Forall spreadable args ->
  UrlHelper.convert_items UrlHelper.convert_value (map staged args) = Ok args.
Proof.
  induction args as [|[key value] args IH]; intros Hall; [reflexivity|].
  inversion Hall as [|? ? Hitem Hrest]; subst.
  pose proof (convert_value_staged (key, value) Hitem) as Hv.
  cbn [map].
  destruct (staged (key, value)) as [key' value'] eqn:Hs.
  assert (Hkey : key' = key).
  { unfold staged in Hs. cbn [fst snd] in Hs.
    destruct value; injection Hs as <- _; reflexivity. }
  subst key'. cbn [snd] in Hv.
  cbn [UrlHelper.convert_items].
  fold (UrlHelper.convert_items UrlHelper.convert_value).
  rewrite Hv, (IH Hrest). reflexivity.
Qed.

(** X18: arrays spread by the API client are put together again.
    For arguments with distinct names that have no opening bracket,
    whose lists are not empty and have a name that does not end in a
    closing bracket, and none of which is a dictionary,
    [convert_array_args] applied to the [final_args] that [_call_api]
    builds from them ([key[0]], [key[1]], ...) returns the arguments
    themselves, every list with its elements in order, every argument
    at its place.  In particular it returns arguments without brackets
    and without dictionaries unchanged. *)
Theorem X18_convert_array_args_undoes_final_args
    (args : list (string * Val)) :
  NoDup args.*1 ->
  Forall spreadable args ->
  UrlHelper.convert_array_args (_call_api_final_args args) = Ok args.
Proof.
  intros Hdup Hall. unfold UrlHelper.convert_array_args.
  rewrite (convert_array_args_from_final_args args [] Hdup Hall).
  cbn [app]. unfold UrlHelper._convert_dicts_to_arrays.
  apply convert_items_staged, Hall.
Qed.

Lemma X18_convert_array_args_witness :
  let args := [("module", VStr "API");
               ("urls", VList [VStr "http://a.example/"; VStr "http://b.example/"]);
               ("idSite", VInt 7)] in
  NoDup args.*1
  /\ Forall spreadable args
  /\ _call_api_final_args args
     = [("module", VStr "API"); ("urls[0]", VStr "http://a.example/");
        ("urls[1]", VStr "http://b.example/"); ("idSite", VInt 7)]
  /\ UrlHelper.convert_array_args (_call_api_final_args args) = Ok args.
Proof.
  intros args.
  assert (Hdup : NoDup args.*1)
    by (apply (bool_decide_unpack _); vm_compute; exact I).
  assert (Hall : Forall spreadable args).
  { repeat constructor; cbn; try discriminate. }
  exact (conj Hdup (conj Hall (conj eq_refl
           (X18_convert_array_args_undoes_final_args args Hdup Hall)))).
Defined.

(** ** Parser: dates, time zones and the exceptions of a line *)

(** X19: the time zone of a line of the JSON format comes from its
    date alone.  [JsonFormat.get('date')] overwrites the [timezone] of
    the decoded line with what follows the first 19 characters of the
    date, so the result of the date parsing, hit or verdict or
    exception, is the same whatever the line holds under
    [timezone]. *)
Theorem X19_json_timezone_field_is_ignored {B : Builtins} (hit : Hit.t)
    (f : Format) (v : Val) :
  kind f = JsonFormat ->
  (Parser.read_date hit (with_store (<["timezone" := v]> (store f)) f)).1
  = (Parser.read_date hit f).1.
Proof.
  intros Hk. unfold Parser.read_date, Parser.bind, get.
  cbn [kind with_store]. rewrite Hk. unfold JsonFormat_get.
  rewrite (bool_decide_eq_false_2 ("date" = "generation_time_milli"))
    by discriminate.
  rewrite (bool_decide_eq_true_2 ("date" = "date")) by reflexivity.
  cbn [store with_store].
  rewrite lookup_insert_ne by discriminate.
  destruct (store f !! "date") as [[| | | |s| |]|]; try reflexivity.
  unfold with_store. cbn [store name kind date_format parseTime].
  rewrite insert_insert_eq. reflexivity.
Qed.

Lemma X19_json_timezone_witness :
  let f := with_store (json_line "2023-01-02T03:04:05+01:00")
             (new_JsonFormat "nginx_json") in
  kind f = JsonFormat
  /\ (@Parser.read_date builtins_reading_dates (hit_at "200" "/index.html")
        (with_store (<["timezone" := VStr "-0800"]> (store f)) f)).1
     = (@Parser.read_date builtins_reading_dates (hit_at "200" "/index.html")
          f).1.
Proof.
  exact (conj eq_refl
           (@X19_json_timezone_field_is_ignored builtins_reading_dates
              (hit_at "200" "/index.html")
              (with_store (json_line "2023-01-02T03:04:05+01:00")
                 (new_JsonFormat "nginx_json"))
              (VStr "-0800") eq_refl)).
Defined.

Lemma slice_to_all (n : nat) (s : string) :
  (String.length s <= n)%nat -> slice_to n s = s.
Proof.
  revert n. induction s as [|c s IH]; intros [|n]; cbn; intros H;
    try reflexivity; [lia|]. rewrite IH by lia. reflexivity.
Qed.

Lemma slice_from_all (n : nat) (s : string) :
  (String.length s <= n)%nat -> slice_from n s = "".
Proof.
  revert n. induction s as [|c s IH]; intros [|n]; cbn; intros H;
    try reflexivity; [lia|]. apply IH. lia.
Qed.

(** X20: a line of the JSON format whose date carries no offset is
    invalid.  When the date has at most 19 characters, [get('date')]
    leaves the empty text as time zone; [float('')] raises
    [ValueError], and the line is dropped as one with an invalid
    timezone although its date was read. *)
Theorem X20_json_date_without_offset_is_invalid {B : Builtins}
    (hit : Hit.t) (f : Format) (s : string) (d : Date) :
  kind f = JsonFormat ->
  store f !! "date" = Some (VStr s) ->
  (String.length s <= 19)%nat ->
  Parser.format_parseTime f (VStr s) = Ok d ->
  py_float_str "" = None ->
  (Parser.read_date hit f).1 = Ok (inl "invalid timezone").
Proof.
  intros Hk Hd Hlen Hparse Hfloat.
  unfold Parser.read_date, Parser.bind, get. rewrite Hk.
  unfold JsonFormat_get at 1.
  rewrite (bool_decide_eq_false_2 ("date" = "generation_time_milli"))
    by discriminate.
  rewrite (bool_decide_eq_true_2 ("date" = "date")) by reflexivity.
  rewrite Hd, (slice_to_all 19 s Hlen), (slice_from_all 19 s Hlen).
  cbn [remove_char store with_store].
  rewrite lookup_insert_eq.
  unfold Parser.format_parseTime in *. cbn [parseTime with_store].
  unfold Parser.parseTimeSlow in *. cbn [date_format with_store].
  rewrite Hparse.
  unfold Parser.read_float, Parser.bind, get. cbn [kind with_store].
  rewrite Hk. unfold JsonFormat_get.
  rewrite (bool_decide_eq_false_2 ("timezone" = "generation_time_milli"))
    by discriminate.
  rewrite (bool_decide_eq_false_2 ("timezone" = "date")) by discriminate.
  cbn [store with_store].
  rewrite lookup_insert_ne by discriminate. rewrite lookup_insert_eq.
  unfold Parser.lift. cbn [float_of_val]. rewrite Hfloat. reflexivity.
Qed.

Lemma X20_json_date_witness :
  let f := with_store (json_line "2023-01-02T03:04:05")
             (new_JsonFormat "nginx_json") in
  kind f = JsonFormat
  /\ store f !! "date" = Some (VStr "2023-01-02T03:04:05")
  /\ (String.length "2023-01-02T03:04:05" <= 19)%nat
  /\ @Parser.format_parseTime builtins_reading_dates f
       (VStr "2023-01-02T03:04:05") = Ok (mkDate 2023 1 2 3 4 5 0)
  /\ @py_float_str builtins_reading_dates "" = None
  /\ (@Parser.read_date builtins_reading_dates (hit_at "200" "/index.html")
        f).1 = Ok (inl "invalid timezone").
Proof.
  intros f.
  assert (Hlen : (String.length "2023-01-02T03:04:05" <= 19)%nat)
    by (vm_compute; lia).
  exact (conj eq_refl (conj eq_refl (conj Hlen (conj eq_refl (conj eq_refl
           (@X20_json_date_without_offset_is_invalid builtins_reading_dates
              (hit_at "200" "/index.html") f "2023-01-02T03:04:05"
              (mkDate 2023 1 2 3 4 5 0) eq_refl eq_refl Hlen eq_refl
              eq_refl)))))).
Defined.

Section Reading.
Context {B : Builtins}.
Context (f : Format).
Hypothesis not_json : kind f <> JsonFormat.
Hypothesis texts : text_groups f.

(** On such a format a read gives a text or finds no group, and leaves
    the format alone. *)
Lemma get_text (key : string) :
  (exists s, get key f = (Ok (VStr s), f))
  \/ get key f = (Raise BaseFormatException, f).
Proof.
  assert (Hregex : (exists s, RegexFormat_get key f = Ok (VStr s))
                   \/ RegexFormat_get key f = Raise BaseFormatException).
  { unfold RegexFormat_get. destruct (store f !! key) as [v|] eqn:Hv.
    - destruct (texts key v Hv) as [s ->]. left. eexists. reflexivity.
    - right. reflexivity. }
  assert (Hunq : (exists s, unquoted_get key f = Ok (VStr s))
                 \/ unquoted_get key f = Raise BaseFormatException).
  { unfold unquoted_get. destruct Hregex as [[s ->]| ->].
    - left. eexists. reflexivity.
    - right. reflexivity. }
  unfold get.
  destruct (kind f); try contradiction.
  - destruct Hregex as [[s ->]| ->]; [left; eexists|right]; reflexivity.
  - destruct Hregex as [[s ->]| ->]; [left; eexists|right]; reflexivity.
  - destruct Hregex as [[s ->]| ->]; [left; eexists|right]; reflexivity.
  - unfold ShoutcastFormat_get. destruct (bool_decide _).
    + destruct Hunq as [[s ->]| ->]; [left; eexists|right]; reflexivity.
    + destruct Hregex as [[s ->]| ->]; [left; eexists|right]; reflexivity.
  - unfold AmazonCloudFrontFormat_get.
    destruct (_ && _); [left; eexists; reflexivity|].
    destruct (_ && _); [left; eexists; reflexivity|].
    destruct (bool_decide _).
    + destruct Hunq as [[s ->]| ->]; [left; eexists|right]; reflexivity.
    + destruct Hregex as [[s ->]| ->]; [left; eexists|right]; reflexivity.
Qed.

Lemma read_or_empty_returns key :
  exists v, Parser.read_or_empty key f = (Ok v, f).
Proof.
  unfold Parser.read_or_empty, Parser.try_except.
  destruct (get_text key) as [[s ->]| ->]; eexists; reflexivity.
Qed.

Lemma read_referrer_returns :
  exists r, Parser.read_referrer f = (Ok r, f).
Proof.
  unfold Parser.read_referrer, Parser.try_except, Parser.bind.
  destruct (get_text "referrer") as [[s ->]| ->]; eexists; reflexivity.
Qed.

Lemma read_user_agent_returns :
  exists r, Parser.read_user_agent f = (Ok r, f).
Proof.
  unfold Parser.read_user_agent, Parser.try_except, Parser.bind.
  destruct (get_text "user_agent") as [[s ->]| ->]; eexists; reflexivity.
Qed.

Lemma read_length_returns :
  exists n, Parser.read_length f = (Ok n, f).
Proof.
  unfold Parser.read_length, Parser.try_except, Parser.bind.
  destruct (get_text "length") as [[s ->]| ->]; [|eexists; reflexivity].
  unfold Parser.lift. cbn [int_of_val].
  destruct (py_int_str s); eexists; reflexivity.
Qed.

Lemma read_float_returns key :
  (exists x, Parser.read_float key f = (Ok x, f))
  \/ exists e, Parser.read_float key f = (Raise e, f)
               /\ is_ValueError_or_BaseFormatException e = true.
Proof.
  unfold Parser.read_float, Parser.bind.
  destruct (get_text key) as [[s ->]| ->].
  - unfold Parser.lift. cbn [float_of_val].
    destruct (py_float_str s); [left|right]; eexists;
      [reflexivity|split; reflexivity].
  - right. eexists. split; reflexivity.
Qed.

Lemma read_generation_time_returns :
  exists x, Parser.read_generation_time f = (Ok x, f).
Proof.
  unfold Parser.read_generation_time, Parser.try_except.
  destruct (read_float_returns "generation_time_milli")
    as [[x ->]|(e & -> & ->)]; [eexists; reflexivity|].
  unfold Parser.bind.
  destruct (read_float_returns "generation_time_micro")
    as [[x ->]|(e1 & -> & ->)]; [eexists; reflexivity|].
  destruct (read_float_returns "generation_time_secs")
    as [[x ->]|(e2 & -> & ->)]; eexists; reflexivity.
Qed.

Lemma read_host_returns :
  exists h, Parser.read_host f = (Ok h, f).
Proof.
  unfold Parser.read_host, Parser.try_except, Parser.bind.
  destruct (get_text "host") as [[s ->]| ->]; eexists; reflexivity.
Qed.

Lemma read_userid_returns :
  exists u, Parser.read_userid f = (Ok u, f).
Proof.
  unfold Parser.read_userid, Parser.try_except, Parser.bind.
  destruct (get_text "userid") as [[s ->]| ->]; eexists; reflexivity.
Qed.

Lemma read_event_returns :
  exists ev, Parser.read_event f = (Ok ev, f).
Proof.
  unfold Parser.read_event, Parser.try_except, Parser.bind.
  destruct (get_text "event_category") as [[c ->]| ->];
    [|eexists; reflexivity].
  destruct (get_text "event_action") as [[a ->]| ->];
    [|eexists; reflexivity].
  destruct (get_text "event_name") as [[n ->]| ->]; eexists; reflexivity.
Qed.

End Reading.

(** X21: when the hit of a matched line cannot be built.  On a format
    other than the JSON one, with text in every captured group, the
    assignments of [Parser.parse] up to the checks return and leave the
    format alone, with two exceptions that no [except] clause catches
    and that therefore end the loop: a line without an [ip] group
    raises [BaseFormatException], and with IP anonymization an address
    without a dot raises [ValueError] at the unpacking of its parts. *)
Theorem X21_when_the_hit_of_a_line_cannot_be_built {B : Builtins}
    (cfg : Config) (filename : string) (lineno : Z) (f : Format) :
  kind f <> JsonFormat ->
  text_groups f ->
  match store f !! "ip" with
  | None =>
      Parser.normalize cfg filename lineno f = (Raise BaseFormatException, f)
  | Some (VStr ip) =>
      if ip_anonymization cfg && lacks "." ip
      then Parser.normalize cfg filename lineno f
           = (Raise (ValueError "not enough values to unpack"), f)
      else exists hit, Parser.normalize cfg filename lineno f = (Ok hit, f)
  | Some _ => False
  end.
Proof.
  intros Hk Ht.
  assert (Hip : get "ip" f
                = (match store f !! "ip" with
                   | Some v => Ok v
                   | None => Raise BaseFormatException
                   end, f)).
  { unfold get, ShoutcastFormat_get, AmazonCloudFrontFormat_get.
    destruct (kind f); try contradiction; reflexivity. }
  assert (Hnorm :
    exists build : Val -> Hit.t,
      Parser.normalize cfg filename lineno f
      = match Parser.read_ip cfg f with
        | (Ok ip, g) => (Ok (build ip), g)
        | (Raise e, g) => (Raise e, g)
        end).
  { destruct (read_or_empty_returns f Hk Ht "status") as [v1 E1].
    destruct (read_or_empty_returns f Hk Ht "path") as [v2 E2].
    destruct (read_referrer_returns f Hk Ht) as [v3 E3].
    destruct (read_user_agent_returns f Hk Ht) as [v4 E4].
    destruct (read_length_returns f Hk Ht) as [v6 E6].
    destruct (read_generation_time_returns f Hk Ht) as [v7 E7].
    destruct (read_host_returns f Hk Ht) as [v8 E8].
    destruct (read_userid_returns f Hk Ht) as [v9 E9].
    destruct (read_event_returns f Hk Ht) as [v10 E10].
    eexists (fun ip => Hit.mk filename lineno v1 v2
                         false false false false false
                         (match v9 with
                          | Some v => {[ "uid" := Hit.ArgVal v ]}
                          | None => ∅
                          end)
                         "" v2 v3 v4 ip v6 v7 v8 (default VNone v9)
                         v10.1.1 v10.1.2 v10.2 None).
    unfold Parser.normalize.
    unfold Parser.bind at 1. rewrite E1.
    unfold Parser.bind at 1. rewrite E2.
    unfold Parser.bind at 1. rewrite E3.
    unfold Parser.bind at 1. rewrite E4.
    unfold Parser.bind at 1.
    assert (Hkeep : (Parser.read_ip cfg f).2 = f).
    { unfold Parser.read_ip, Parser.bind. rewrite Hip.
      destruct (store f !! "ip"); [|reflexivity].
      destruct (ip_anonymization cfg); reflexivity. }
    destruct (Parser.read_ip cfg f) as [[ip|e] g]; cbn in Hkeep; subst g;
      [|reflexivity].
    unfold Parser.bind at 1. rewrite E6.
    unfold Parser.bind at 1. rewrite E7.
    unfold Parser.bind at 1. rewrite E8.
    unfold Parser.bind at 1. rewrite E9.
    unfold Parser.bind at 1. rewrite E10.
    reflexivity. }
  destruct Hnorm as [build Hnorm]. rewrite Hnorm.
  unfold Parser.read_ip, Parser.bind. rewrite Hip.
  destruct (store f !! "ip") as [v|] eqn:Hv; [|reflexivity].
  destruct (Ht "ip" v Hv) as [ip ->].
  destruct (ip_anonymization cfg); cbn [andb].
  - unfold Parser.lift, Parser.anonymize.
    destruct (lacks "." ip) eqn:Hdot.
    + rewrite (split_lacks "." ip Hdot). reflexivity.
    + destruct (split_has_two "." ip Hdot) as (a & b & rest & ->).
      eexists. reflexivity.
  - eexists. reflexivity.
Qed.

Lemma text_groups_checked (f : Format) :
  map_Forall (fun _ v => holds_text v = true) (store f) -> text_groups f.
Proof.
  intros H key v Hv. specialize (H key v Hv). cbn in H.
  destruct v; try discriminate. eexists. reflexivity.
Qed.

Lemma X21_when_the_hit_cannot_be_built_witness :
  let f := with_store (Sample.common_line "2001:db8::1" "200" "/index.html")
             Sample.common in
  kind f <> JsonFormat
  /\ text_groups f
  /\ @Parser.normalize Sample.builtins Sample.config_anonymizing
       "access.log" 0 f
     = (Raise (ValueError "not enough values to unpack"), f).
Proof.
  intros f.
  assert (Hk : kind f <> JsonFormat) by discriminate.
  assert (Ht : text_groups f).
  { apply text_groups_checked, (bool_decide_unpack _). vm_compute. exact I. }
  exact (conj Hk (conj Ht
           (@X21_when_the_hit_of_a_line_cannot_be_built Sample.builtins
              Sample.config_anonymizing "access.log" 0 f Hk Ht))).
Defined.

Lemma month_of_unknown (name : string) (table : list (string * Z)) :
  name ∉ table.*1 -> Parser.month_of name table = Raise (KeyError name).
Proof.
  induction table as [|[k v] table IH]; cbn; [reflexivity|]. intros H.
  rewrite not_elem_of_cons in H. destruct H as [Hk Hrest].
  rewrite bool_decide_eq_false_2 by congruence. apply IH, Hrest.
Qed.

(** X22: a month the table does not know ends the parsing of the file.
    With the fast date parser, a date whose year is a number but whose
    month abbreviation is not a key of [MONTHS] raises [KeyError], which
    the [except ValueError] around the date parsing does not catch: the
    line is not reported as invalid, the loop ends with the exception,
    and none of the lines behind it is read. *)
Theorem X22_unknown_month_ends_the_loop {B : Builtins} {Request : Type}
    (cfg : Config) (p : Parser.t) (filename : string) (lineno : Z)
    (groups : gmap string Val) (rest : list Parser.Line) (f : Format)
    (w : World Request) (hit0 hit1 : Hit.t) (st : Statistics.t)
    (s : string) (year : Z) :
  State.is_stopped (state w) = false ->
  (skip cfg
   < Z.of_nat
       (S (Statistics.value (Statistics.count_lines_parsed (stats w))))) ->
  regex_based f ->
  parseTime f = _parseTimeFast ->
  Parser.normalize cfg filename (lineno + 1) (with_store groups f)
  = (Ok hit0, with_store groups f) ->
  Parser.all_checks (Parser.check_methods cfg p) hit0
    (Statistics.incr_parsed (stats w))
  = Ok (true, hit1, st) ->
  groups !! "date" = Some (VStr s) ->
  py_int_str (slice 7 11 s) = Some year ->
  (slice 3 6 s ∉ Parser.MONTHS.*1) ->
  Parser.parse_lines cfg p filename lineno (Some groups :: rest) f w
  = ([], Some (KeyError (slice 3 6 s)), with_store groups f, set_stats st w).
Proof.
  intros Hrun Hskip Hregex Hfast Hnorm Hchecks Hdate Hyear Hmonth.
  cbn [Parser.parse_lines]. rewrite Hrun.
  unfold Parser.parse_line. cbn zeta.
  cbn [stats set_stats Statistics.incr_parsed Statistics.count_lines_parsed
       Statistics.increment Statistics.value].
  destruct (Z.of_nat (S _) <=? skip cfg) eqn:Hle;
    [apply Z.leb_le in Hle; lia|].
  rewrite Hnorm.
  change (Statistics.mk _ _ _ _ _)
    with (Statistics.incr_parsed (stats w)).
  rewrite Hchecks.
  assert (Hget : get "date" (with_store groups f)
                 = (Ok (VStr s), with_store groups f)).
  { unfold get, RegexFormat_get. cbn [kind store with_store].
    rewrite Hdate. destruct Hregex as [-> |[-> | ->]]; reflexivity. }
  unfold Parser.read_date, Parser.bind. rewrite Hget.
  unfold Parser.format_parseTime. cbn [parseTime with_store]. rewrite Hfast.
  unfold Parser.parseTimeFast, Parser.int_of_text. rewrite Hyear.
  rewrite (month_of_unknown _ _ Hmonth). reflexivity.
Qed.

Lemma X22_unknown_month_witness :
  let hit0 := Sample.plain_hit "" "" "203.0.113.77" in
  let st := Statistics.incr_parsed Statistics.init in
  State.is_stopped (state Sample.world) = false
  /\ skip Sample.config < 1
  /\ regex_based Sample.common
  /\ parseTime Sample.common = _parseTimeFast
  /\ @Parser.normalize Sample.builtins Sample.config "access.log" (-1 + 1)
       (with_store line_of_october Sample.common)
     = (Ok hit0, with_store line_of_october Sample.common)
  /\ Parser.all_checks
       (Parser.check_methods Sample.config (Parser.mk [] [] [])) hit0 st
     = Ok (true, hit0, st)
  /\ line_of_october !! "date" = Some (VStr "10/Okt/2000:13:55:36")
  /\ @py_int_str Sample.builtins (slice 7 11 "10/Okt/2000:13:55:36")
     = Some 2000
  /\ (slice 3 6 "10/Okt/2000:13:55:36" ∉ Parser.MONTHS.*1)
  /\ @Parser.parse_lines Sample.builtins Z Sample.config (Parser.mk [] [] [])
       "access.log" (-1)
       [Some line_of_october;
        Some (Sample.common_line "203.0.113.77" "200" "/index.html")]
       Sample.common Sample.world
     = ([], Some (KeyError "Okt"), with_store line_of_october Sample.common,
        set_stats st Sample.world).
Proof.
  intros hit0 st.
  assert (Hskip : skip Sample.config < 1) by (vm_compute; reflexivity).
  assert (Hregex : regex_based Sample.common) by (left; reflexivity).
  assert (Hnorm :
    @Parser.normalize Sample.builtins Sample.config "access.log" (-1 + 1)
      (with_store line_of_october Sample.common)
    = (Ok hit0, with_store line_of_october Sample.common))
    by (vm_compute; reflexivity).
  assert (Hmonth : slice 3 6 "10/Okt/2000:13:55:36" ∉ Parser.MONTHS.*1)
    by (apply (bool_decide_unpack _); vm_compute; exact I).
  exact (conj eq_refl (conj Hskip (conj Hregex (conj eq_refl (conj Hnorm
           (conj eq_refl (conj eq_refl (conj eq_refl (conj Hmonth
              (@X22_unknown_month_ends_the_loop Sample.builtins Z
                 Sample.config (Parser.mk [] [] []) "access.log" (-1)
                 line_of_october
                 [Some (Sample.common_line "203.0.113.77" "200"
                          "/index.html")]
                 Sample.common Sample.world hit0 hit0 st
                 "10/Okt/2000:13:55:36" 2000 eq_refl Hskip Hregex eq_refl
                 Hnorm eq_refl eq_refl eq_refl Hmonth)))))))))).
Defined.

(** ** Parser: the format of a file *)

Lemma check_format_step_catalog (probe : string -> Probe)
    (catalog : list (string * Format)) :
  forall (acc : option Format * nat) (f : Format),
    (fold_left (Parser.check_format_step probe) catalog acc).1 = Some f ->
    acc.1 = Some f
    \/ exists name, (name, f) ∈ catalog /\ name <> "ovh"
                    /\ probe name <> Falsy.
Proof.
  induction catalog as [|[name fmt] rest IH]; intros acc f;
    cbn [fold_left]; [intros H; left; exact H|].
  intros H. apply IH in H. destruct H as [H|(n & Hin & Hn & Hp)].
  - unfold Parser.check_format_step in H. destruct acc as [cur g].
    destruct (bool_decide (name = "ovh")) eqn:Hovh; [left; exact H|].
    apply bool_decide_eq_false in Hovh.
    destruct (probe name) as [|m|] eqn:Hprobe; [left; exact H| |].
    + destruct (g <? m)%nat; [|left; exact H].
      cbn in H. injection H as ->. right. exists name.
      split; [left|]. split; [exact Hovh|congruence].
    + cbn in H. injection H as ->. right. exists name.
      split; [left|]. split; [exact Hovh|congruence].
  - right. exists n. split; [right; exact Hin|]. split; assumption.
Qed.

Lemma check_format_catalog (probe : string -> Probe) (f : Format) :
  Parser.check_format probe = Some f ->
  exists name, (name, f) ∈ FORMATS /\ name <> "ovh" /\ probe name <> Falsy.
Proof.
  unfold Parser.check_format, Parser.check_format_in. intros H.
  apply check_format_step_catalog in H. destruct H as [H|H];
    [discriminate|exact H].
Qed.

Lemma detect_format_from_first (lines : list (string -> Probe)) :
  forall lineno,
    0 <= lineno ->
    detect_format_from lineno lines
    = head (omap Parser.check_format
              (take (Z.to_nat (limit - lineno)) lines)).
Proof.
  induction lines as [|line rest IH]; intros lineno Hpos;
    cbn [detect_format_from].
  - rewrite take_nil. reflexivity.
  - destruct (lineno <? limit) eqn:Hlt.
    + apply Z.ltb_lt in Hlt.
      replace (Z.to_nat (limit - lineno))
        with (S (Z.to_nat (limit - (lineno + 1)))) by lia.
      rewrite firstn_cons. cbn [omap list_omap].
      destruct (Parser.check_format line) as [f|]; [reflexivity|].
      apply IH. lia.
    + apply Z.ltb_ge in Hlt.
      replace (Z.to_nat (limit - lineno)) with 0%nat by lia.
      reflexivity.
Qed.

Lemma first_check_format_catalog (probes : list (string -> Probe))
    (format : Format) :
  head (omap Parser.check_format probes) = Some format ->
  exists name probe,
    (name, format) ∈ FORMATS /\ name <> "ovh" /\ probe ∈ probes
    /\ probe name <> Falsy.
Proof.
  induction probes as [|line l IHl]; [discriminate|].
  cbn [omap list_omap].
  destruct (Parser.check_format line) as [f|] eqn:Hline.
  - intros [= ->].
    destruct (check_format_catalog line format Hline)
      as (name & Hin & Hovh & Hp).
    exists name, line. repeat split; try assumption. left.
  - intros Hhead.
    destruct (IHl Hhead) as (name & probe & Hin & Hovh & Hwhere & Hp).
    exists name, probe. repeat split; try assumption. right. exact Hwhere.
Qed.

Lemma detect_format_first (file : string -> Probe)
    (lines : list (string -> Probe)) :
  detect_format file lines
  = match Parser.check_format file with
    | Some format => Some format
    | None =>
        head (omap Parser.check_format (take (Z.to_nat limit) lines))
    end.
Proof.
  unfold detect_format. destruct (Parser.check_format file); [reflexivity|].
  rewrite detect_format_from_first by lia.
  replace (limit - 0) with limit by lia. reflexivity.
Qed.

(** X23: what [detect_format] returns.  It is the answer of
    [check_format] on the file if there is one, and otherwise the
    answer on the first of the first 100000 lines that has one: no line
    behind that one, and no line behind the 100000th, has a say.  The
    format returned is one of the catalog other than the OVH one, and
    it matched the file or one of those lines. *)
Theorem X23_detect_format_first_recognised_line (file : string -> Probe)
    (lines : list (string -> Probe)) :
  detect_format file lines
  = match Parser.check_format file with
    | Some format => Some format
    | None =>
        head (omap Parser.check_format (take (Z.to_nat limit) lines))
    end
  /\ forall format,
       detect_format file lines = Some format ->
       exists name probe,
         (name, format) ∈ FORMATS /\ name <> "ovh"
         /\ (probe = file \/ probe ∈ take (Z.to_nat limit) lines)
         /\ probe name <> Falsy.
Proof.
  split; [apply detect_format_first|].
  intros format. rewrite detect_format_first.
  destruct (Parser.check_format file) as [f|] eqn:Hfile.
  - intros [= <-]. destruct (check_format_catalog file f Hfile)
      as (name & Hin & Hovh & Hp).
    exists name, file. split; [exact Hin|]. split; [exact Hovh|].
    split; [left; reflexivity|exact Hp].
  - intros Hhead.
    destruct (first_check_format_catalog _ format Hhead)
      as (name & probe & Hin & Hovh & Hwhere & Hp).
    exists name, probe. split; [exact Hin|]. split; [exact Hovh|].
    split; [right; exact Hwhere|exact Hp].
Qed.

(** ** Recorder: the host of a hit *)

Lemma is_prefix_app (p s : string) : is_prefix p (p ++ s) = true.
Proof.
  induction p as [|c p IH]; [reflexivity|].
  change (String c p ++ s) with (String c (p ++ s)). cbn [is_prefix].
  rewrite bool_decide_eq_true_2 by reflexivity. exact IH.
Qed.

Lemma is_substring_app (p a b : string) :
  is_substring p (a ++ p ++ b) = true.
Proof.
  induction a as [|c a IH].
  - change ("" ++ p ++ b) with (p ++ b).
    destruct (p ++ b) eqn:E; cbn [is_substring]; rewrite <- E;
      rewrite is_prefix_app; reflexivity.
  - change (String c a ++ p ++ b) with (String c (a ++ p ++ b)).
    cbn [is_substring]. rewrite IH. apply orb_true_r.
Qed.

(** X24: [_get_host_with_protocol] always gives a host with a scheme
    separator, leaves a host that has one as it is, and so changes
    nothing when applied to its own result, whatever the main URL. *)
Theorem X24_get_host_with_protocol_idempotent (scheme_of : string -> string)
    (host main_url main_url' : string) :
  let result := _get_host_with_protocol scheme_of host main_url in
  is_substring "://" result = true
  /\ _get_host_with_protocol scheme_of result main_url' = result
  /\ (is_substring "://" host = true -> result = host).
Proof.
  cbn zeta.
  assert (H : is_substring "://"
                (_get_host_with_protocol scheme_of host main_url) = true).
  { unfold _get_host_with_protocol.
    destruct (is_substring "://" host) eqn:Hh; [exact Hh|].
    apply is_substring_app. }
  split; [exact H|]. split.
  - unfold _get_host_with_protocol at 1. rewrite H. reflexivity.
  - intros Hh. unfold _get_host_with_protocol. rewrite Hh. reflexivity.
Qed.

(** ** From the file to the collector *)

Section EndToEnd.
Context {B : Builtins} {Request : Type}.

Lemma deliver_keeps (hit : Hit.t) (w : World Request) :
  sent (Parser.deliver hit w).2 = sent w
  /\ slept (Parser.deliver hit w).2 = slept w
  /\ state (Parser.deliver hit w).2 = state w.
Proof.
  unfold Parser.deliver. cbn.
  destruct (Parser.eligible hit), (_ && Hit.is_meta hit),
    (_ && Hit.is_download hit); repeat split.
Qed.

Lemma parse_line_keeps cfg p filename lineno line (f : Format)
    (w : World Request) :
  sent (Parser.parse_line cfg p filename lineno line f w).2 = sent w
  /\ slept (Parser.parse_line cfg p filename lineno line f w).2 = slept w
  /\ state (Parser.parse_line cfg p filename lineno line f w).2 = state w.
Proof.
  unfold Parser.parse_line. cbn zeta.
  destruct (_ <=? skip cfg); [repeat split|].
  destruct line as [groups|]; [|repeat split].
  destruct (Parser.normalize _ _ _ _) as [[hit|e] f1]; [|repeat split].
  destruct (Parser.all_checks _ _ _) as [[[[|] hit1] st]|e];
    [|repeat split..].
  destruct (Parser.read_date hit1 f1) as [[[reason|hit2]|e] f2];
    [repeat split| |repeat split].
  pose proof (deliver_keeps hit2
                (set_stats st
                   (set_stats (Statistics.incr_parsed (stats w)) w))) as H.
  destruct (Parser.deliver hit2 _) as [result w3]. exact H.
Qed.

Lemma parse_lines_keeps cfg p filename lines :
  forall lineno (f : Format) (w : World Request),
    sent (Parser.parse_lines cfg p filename lineno lines f w).2 = sent w
    /\ slept (Parser.parse_lines cfg p filename lineno lines f w).2 = slept w
    /\ state (Parser.parse_lines cfg p filename lineno lines f w).2 = state w.
Proof.
  induction lines as [|line rest IH]; intros lineno f w;
    cbn [Parser.parse_lines].
  - destruct (State.is_stopped (state w)); repeat split.
  - destruct (State.is_stopped (state w)); [repeat split|].
    pose proof (parse_line_keeps cfg p filename (lineno + 1) line f w) as Hl.
    destruct (Parser.parse_line cfg p filename (lineno + 1) line f w)
      as [[[result|e] f1] w1]; cbn [fst snd] in Hl; [|exact Hl].
    specialize (IH (lineno + 1) f1 w1).
    destruct (Parser.parse_lines cfg p filename (lineno + 1) rest f1 w1)
      as [[[results e] f2] w2]. cbn [fst snd] in IH |- *.
    destruct Hl as (S1 & L1 & T1), IH as (S2 & L2 & T2).
    repeat split; congruence.
Qed.

(** What [parse] leaves in the world: the eligible hits behind the
    queue, the traffic and the counter of recorded lines as they
    were. *)
Lemma parse_world cfg p filename format lines (w : World Request) :
  let run := Parser.parse cfg p filename format lines w in
  queue run.2 = (queue w ++ enqueued run.1.1)%list
  /\ sent run.2 = sent w
  /\ Statistics.count_lines_recorded (stats run.2)
     = Statistics.count_lines_recorded (stats w).
Proof.
  cbn zeta. unfold Parser.parse. destruct format as [f|].
  - set (name := if bool_decide (filename = "-") then "(stdin)"
                 else filename).
    pose proof (parse_lines_queue cfg p name lines (-1) f w) as Hq.
    pose proof (parse_lines_keeps cfg p name lines (-1) f w) as Hk.
    pose proof (parse_lines_outcome cfg p name lines (-1) f w) as Ho.
    destruct (Parser.parse_lines cfg p name (-1) lines f w)
      as [[[results e] f1] w1].
    cbn [fst snd] in *. cbn zeta in Ho.
    destruct Hk as (Hs & _ & _), Ho as (_ & Hr & _).
    repeat split; assumption.
  - cbn. rewrite app_nil_r. repeat split.
Qed.

End EndToEnd.

(** X25: from the file to the collector.  With one recorder, a
    collector that accepts every body and [_get_hit_args] returning for
    every hit: after [parse] has read a file and [wait_empty] has put
    the sentinel, the recorder terminates with nothing left in its
    hands or in the queue, and the requests it has sent are exactly
    those of the hits that were waiting in the queue followed by those
    of the accepted hits of the file that are metadata or downloads and
    neither robot nor redirect, each once and in file order;
    [count_lines_recorded] has advanced by their number. *)
Theorem X25_eligible_hits_reach_the_collector {B : Builtins}
    {Request : Type} (_get_hit_args : Hit.t -> Res (Request * Hit.t))
    (request_of : Hit.t -> Request) (rewrite_of : Hit.t -> Hit.t)
    (cfg : Config) (p : Parser.t) (filename : string)
    (format : option Format) (lines : list Parser.Line)
    (network : nat -> Data Request -> Res string) (nbr : nat)
    (earlier : list Hit.t) (w : World Request) :
  (forall h, _get_hit_args h = Ok (request_of h, rewrite_of h)) ->
  (forall n data, network n data = Ok "{}") ->
  json_loads "{}" = Some (VDict []) ->
  queue w = map Some earlier ->
  let parsed := Parser.parse cfg p filename format lines w in
  let hits :=
    (earlier ++ List.filter Parser.eligible (accepted_hits parsed.1.1))%list in
  let run :=
    Recorder._run_bulk _get_hit_args cfg
      (Matomo.mk (Matomo._real_request network)) (Recorder.init cfg nbr)
      (wait_empty 1 parsed.2) in
  run.1.1 = Recorder.Terminated
  /\ Recorder.hits run.1.2 = []
  /\ queue run.2 = []
  /\ requests_of (bodies_since w run.2) = map request_of hits
  /\ Forall (well_formed_body cfg (Recorder.threshold (Recorder.init cfg nbr)))
       (bodies_since w run.2)
  /\ Statistics.value (Statistics.count_lines_recorded (stats run.2))
     = (Statistics.value (Statistics.count_lines_recorded (stats w))
        + List.length hits)%nat.
Proof.
  intros Hargs Hnet Hjson Hqueue. cbn zeta.
  destruct (parse_world cfg p filename format lines w) as (Hq & Hs & Hr).
  set (parsed := Parser.parse cfg p filename format lines w) in *.
  set (hits := (earlier
                ++ List.filter Parser.eligible (accepted_hits parsed.1.1))%list).
  assert (Hitems : queue (wait_empty 1 parsed.2)
                   = (map Some hits ++ [None])%list).
  { unfold wait_empty. cbn [queue set_queue replicate].
    rewrite Hq, Hqueue. unfold hits, enqueued. rewrite map_app.
    reflexivity. }
  assert (Hlt : (List.length (Recorder.hits (Recorder.init cfg nbr))
                 < Recorder.threshold (Recorder.init cfg nbr))%nat).
  { unfold Recorder.init. cbn.
    destruct (bool_decide (max_payload cfg = 0%nat)) eqn:Hm; [lia|].
    apply bool_decide_eq_false in Hm. lia. }
  unfold Recorder._run_bulk. rewrite Hitems.
  destruct (run_items_to_sentinel _get_hit_args request_of rewrite_of cfg
              network hits [] (Recorder.init cfg nbr)
              (set_queue [] (wait_empty 1 parsed.2)) Hargs Hnet Hjson Hlt)
    as (bodies & -> & Hreq & Hwf & Hcount).
  cbn [fst snd].
  assert (Hbodies : bodies_since w
                      (set_queue
                         ([] ++ queue
                                  (after_bodies bodies
                                     (set_queue [] (wait_empty 1 parsed.2))))
                         (after_bodies bodies
                            (set_queue [] (wait_empty 1 parsed.2))))
                    = bodies).
  { unfold bodies_since. cbn [sent set_queue after_bodies wait_empty].
    rewrite Hs. apply drop_app_length. }
  rewrite Hbodies.
  split; [reflexivity|]. split; [reflexivity|]. split; [reflexivity|].
  split; [exact Hreq|]. split; [exact Hwf|].
  cbn [Recorder.hits Recorder.init app] in Hcount.
  cbn [stats set_queue] in Hcount |- *. rewrite Hcount.
  cbn [stats set_queue wait_empty]. rewrite Hr. reflexivity.
Qed.

Lemma X25_eligible_hits_witness :
  let p := Parser.mk [record_pattern] [] [] in
  let parsed :=
    @Parser.parse Sample.builtins Z Sample.config p "access.log"
      (Some Sample.common) three_lines Sample.world in
  let hits :=
    ([] ++ List.filter Parser.eligible (accepted_hits parsed.1.1))%list in
  let run :=
    @Recorder._run_bulk Sample.builtins Z Sample.hit_args Sample.config
      (Matomo.mk (Matomo._real_request accepting_network))
      (Recorder.init Sample.config 0) (wait_empty 1 parsed.2) in
  (forall h, Sample.hit_args h = Ok (Hit.lineno h, h))
  /\ (forall n data, @accepting_network Z n data = Ok "{}")
  /\ @json_loads Sample.builtins "{}" = Some (VDict [])
  /\ queue Sample.world = map Some []
  /\ run.1.1 = Recorder.Terminated
  /\ Recorder.hits run.1.2 = []
  /\ queue run.2 = []
  /\ requests_of (bodies_since Sample.world run.2) = map Hit.lineno hits
  /\ Forall (well_formed_body Sample.config
               (Recorder.threshold (Recorder.init Sample.config 0)))
       (bodies_since Sample.world run.2)
  /\ Statistics.value (Statistics.count_lines_recorded (stats run.2))
     = (Statistics.value
          (Statistics.count_lines_recorded (stats Sample.world))
        + List.length hits)%nat.
Proof.
  exact (conj (fun h => eq_refl) (conj (fun n data => eq_refl)
           (conj eq_refl (conj eq_refl
              (@X25_eligible_hits_reach_the_collector Sample.builtins Z
                 Sample.hit_args Hit.lineno (fun h => h) Sample.config
                 (Parser.mk [record_pattern] [] []) "access.log"
                 (Some Sample.common) three_lines accepting_network 0%nat []
                 Sample.world (fun h => eq_refl) (fun n data => eq_refl)
                 eq_refl eq_refl))))).
Defined.

(** The sample file sends the request of its first line and nothing
    else. *)
Lemma three_lines_send_one_request :
  let parsed :=
    @Parser.parse Sample.builtins Z Sample.config
      (Parser.mk [record_pattern] [] []) "access.log"
      (Some Sample.common) three_lines Sample.world in
  map Hit.lineno
    (List.filter Parser.eligible (accepted_hits parsed.1.1)) = [0].
Proof. vm_compute. reflexivity. Qed.

(** ** Matomo: a negative delay *)

(** X26: with a negative delay and a retry allowed, a first request
    that fails makes [time.sleep] raise [ValueError] inside the
    [except] clause of [_call_wrapper]: [Matomo.call] has made that one
    request, slept nothing, and raises [ValueError], not
    [Matomo.Error].  The worker that flushed catches it as any other
    exception: it stops the run without a reason and leaves its loop. *)
Theorem X26_negative_delay_escapes_the_wrapper {B : Builtins} {Request : Type}
    (_get_hit_args : Hit.t -> Res (Request * Hit.t)) (cfg : Config)
    (network : nat -> Data Request -> Res string)
    (expected_content : option string)
    (on_failure : option (string -> Data Request -> Res string * Data Request))
    (data : Data Request) (w : World Request) (e : Exc) (message : string)
    (code : option Z) :
  delay_after_failure cfg < 0 ->
  1 < default_max_attempts cfg ->
  network (List.length (sent w)) data = Raise e ->
  Matomo.caught e = Some (message, code) ->
  Matomo.call cfg (Matomo.mk (Matomo._real_request network))
    expected_content on_failure data w
  = (Raise (ValueError "sleep length must be non-negative"), data,
     set_sent (sent w ++ [data])%list w)
  /\ (forall (r : Recorder.t) (h : Hit.t) (hs : list Hit.t)
        (reqs : list Request) (rest : list (option Hit.t)),
        Recorder.all_hit_args _get_hit_args (Recorder.hits r)
        = (Ok reqs, h :: hs) ->
        data = mkData (token_auth cfg) reqs ->
        expected_content = None ->
        on_failure = Some Recorder._on_tracking_failure ->
        Recorder.run_items _get_hit_args cfg
          (Matomo.mk (Matomo._real_request network)) (None :: rest) r w
        = (Recorder.Stopped, Recorder.set_hits (h :: hs) r,
           set_state (State.stop None (state w))
             (set_sent (sent w ++ [data])%list w),
           rest)).
Proof.
  intros Hdelay Hmax Hn Hc.
  assert (Hcall : Matomo.call cfg (Matomo.mk (Matomo._real_request network))
                    expected_content on_failure data w
                  = (Raise (ValueError "sleep length must be non-negative"),
                     data, set_sent (sent w ++ [data])%list w)).
  { unfold Matomo.call, Matomo._call_wrapper.
    rewrite _call_wrapper_from_unfold.
    rewrite (attempt_fails _ _ _ _ _ _ _ _
               (_call_fails network data w e message code Hn Hc)).
    destruct (Z_lt_dec (Z.of_nat 1) (default_max_attempts cfg)) as [_|Hge];
      [|lia].
    rewrite (time_sleep_raises _ _ Hdelay). reflexivity. }
  split; [exact Hcall|].
  intros r h hs reqs rest Hargs -> -> ->.
  cbn [Recorder.run_items].
  rewrite (_record_hits_raises _get_hit_args cfg _ r w _ h hs reqs _
             Hargs Hcall).
  reflexivity.
Qed.

Lemma X26_negative_delay_witness :
  let r := Recorder.mk 0 [Sample.hit_on_line 1; Sample.hit_on_line 2] 200 in
  let data := mkData "secret" [1; 2] in
  delay_after_failure config_negative_delay < 0
  /\ 1 < default_max_attempts config_negative_delay
  /\ @refusing Z (List.length (sent Sample.world)) data
     = Raise (URLError "Connection refused")
  /\ @Matomo.caught Sample.builtins (URLError "Connection refused")
     = Some ("Connection refused", None)
  /\ @Matomo.call Sample.builtins Z config_negative_delay
       (Matomo.mk (Matomo._real_request refusing)) None
       (Some (@Recorder._on_tracking_failure Sample.builtins Z)) data
       Sample.world
     = (Raise (ValueError "sleep length must be non-negative"), data,
        mkWorld (State.start State.init) Statistics.init [] [data] [])
  /\ Recorder.run_items (B := Sample.builtins) Sample.hit_args
       config_negative_delay (Matomo.mk (Matomo._real_request refusing))
       [None; Some (Sample.hit_on_line 3)] r Sample.world
     = (Recorder.Stopped, r,
        mkWorld (State.mk true None) Statistics.init [] [data] [],
        [Some (Sample.hit_on_line 3)]).
Proof.
  intros r data.
  assert (Hdelay : delay_after_failure config_negative_delay < 0)
    by reflexivity.
  assert (Hmax : 1 < default_max_attempts config_negative_delay)
    by reflexivity.
  destruct (@X26_negative_delay_escapes_the_wrapper Sample.builtins Z
              Sample.hit_args config_negative_delay refusing None
              (Some (@Recorder._on_tracking_failure Sample.builtins Z)) data
              Sample.world
              (URLError "Connection refused") "Connection refused" None
              Hdelay Hmax eq_refl eq_refl) as [Hcall Hrun].
  exact (conj Hdelay (conj Hmax (conj eq_refl (conj eq_refl (conj Hcall
           (Hrun r (Sample.hit_on_line 1) [Sample.hit_on_line 2] [1; 2]
              [Some (Sample.hit_on_line 3)] eq_refl eq_refl eq_refl
              eq_refl)))))).
Defined.
